(** * Cuentas service: account operation core

    A shallow embedding of [app/models.py], [app/schemas.py],
    [app/repos/cuentas_repo.py] and [app/services/cuentas_service.py],
    followed by the properties of the account operations.

    Modelling conventions.
    - In the main development a Python [float] holding money is the
      rational number it denotes ([Qc], canonical rationals with Leibniz
      equality), and [+], [-] and the comparisons are the exact ones; its
      properties are about which calls are accepted, what they store and
      what they file.  The properties that depend on the arithmetic itself
      (the ledger, the sign of a movement, the comparison of a balance with
      an amount) are stated over [Binary64], where the amounts are binary64
      numbers with the rounding [+] and [-] and the comparisons of IEEE 754.
    - A [str] is the list of its UTF-8 bytes.
    - The Firestore client is a pair of collections: the accounts, a finite
      map from document id to document, and the movements, in insertion
      order.  [add] stores the document under an id the collection does not
      use yet; [update] on a missing document raises.
    - [random] is a tape of raw draws and a cursor into it.
    - Timestamps ([fecha], [fecha_apertura], [created_at], [updated_at]) are
      written but never read back by any operation; they are left out.
    - An operation is a function from the world to the world it leaves
      behind and an outcome: a value, a raised exception (writes made before
      the [raise] stay), or no return within the given number of iterations
      of the one unbounded loop. *)

From Stdlib Require Import Ascii QArith Qcanon Qround.
From Stdlib Require Import PrimFloat SpecFloat FloatOps FloatAxioms.
From stdpp Require Import base numbers strings list gmap fin_maps stringmap.

Local Open Scope Qc_scope.

(** A decimal literal of a binary64 number stands for the nearest binary64
    number, as it does in Python. *)
Set Warnings "-inexact-float".

(** ** app/models.py *)

Inductive TipoCuenta := AHORRO | CORRIENTE.
Inductive Moneda := BOB | USD.
Inductive EstadoCuenta := ACTIVA | BLOQUEADA | CERRADA.
Inductive TipoMovimiento :=
  | DEPOSITO
  | RETIRO
  | TRANSFERENCIA_ENTRADA
  | TRANSFERENCIA_SALIDA
  | PAGO_SERVICIO.

#[global] Instance TipoCuenta_eq_dec : EqDecision TipoCuenta.
Proof. solve_decision. Defined.
#[global] Instance Moneda_eq_dec : EqDecision Moneda.
Proof. solve_decision. Defined.
#[global] Instance EstadoCuenta_eq_dec : EqDecision EstadoCuenta.
Proof. solve_decision. Defined.
#[global] Instance TipoMovimiento_eq_dec : EqDecision TipoMovimiento.
Proof. solve_decision. Defined.

(** [Cuenta.id] is [None] in a stored document ([model_dump(exclude={"id"})])
    and the document id in what [get_by_id] returns. *)
Record Cuenta := {
  id_ : option string;
  cliente_id : string;
  numero_cuenta : string;
  tipo : TipoCuenta;
  moneda : Moneda;
  saldo : Qc;
  estado : EstadoCuenta
}.

Record Movimiento := {
  mov_id : option string;
  cuenta_id : string;
  mov_tipo : TipoMovimiento;
  monto : Qc;
  saldo_anterior : Qc;
  saldo_nuevo : Qc;
  descripcion : string;
  referencia : option string
}.

Definition con_id (c : Cuenta) (i : option string) : Cuenta :=
  {| id_ := i; cliente_id := cliente_id c; numero_cuenta := numero_cuenta c;
     tipo := tipo c; moneda := moneda c; saldo := saldo c; estado := estado c |}.

Definition con_numero_cuenta (c : Cuenta) (n : string) : Cuenta :=
  {| id_ := id_ c; cliente_id := cliente_id c; numero_cuenta := n;
     tipo := tipo c; moneda := moneda c; saldo := saldo c; estado := estado c |}.

Definition con_tipo (c : Cuenta) (t : TipoCuenta) : Cuenta :=
  {| id_ := id_ c; cliente_id := cliente_id c; numero_cuenta := numero_cuenta c;
     tipo := t; moneda := moneda c; saldo := saldo c; estado := estado c |}.

Definition con_saldo (c : Cuenta) (s : Qc) : Cuenta :=
  {| id_ := id_ c; cliente_id := cliente_id c; numero_cuenta := numero_cuenta c;
     tipo := tipo c; moneda := moneda c; saldo := s; estado := estado c |}.

Definition con_estado (c : Cuenta) (e : EstadoCuenta) : Cuenta :=
  {| id_ := id_ c; cliente_id := cliente_id c; numero_cuenta := numero_cuenta c;
     tipo := tipo c; moneda := moneda c; saldo := saldo c; estado := e |}.

Definition con_mov_id (m : Movimiento) (i : option string) : Movimiento :=
  {| mov_id := i; cuenta_id := cuenta_id m; mov_tipo := mov_tipo m;
     monto := monto m; saldo_anterior := saldo_anterior m;
     saldo_nuevo := saldo_nuevo m; descripcion := descripcion m;
     referencia := referencia m |}.

(** ** Exceptions and outcomes *)

(** The pieces of an f-string: literal text and the interpolated values. *)
Inductive Fragmento :=
  | Txt (s : string)
  | Num (q : Qc)
  | Mon (m : Moneda)
  | Est (e : EstadoCuenta).

Inductive Excepcion :=
  | HTTPException (status_code : nat) (detail : list Fragmento)
  | NotFound (document : string)
  | ValueError (msg : string)
  | ValidationError (msg : string).

(** pydantic reports the [ValueError] of a validator as a [ValidationError]. *)
Definition validation_error (e : Excepcion) : Excepcion :=
  match e with
  | ValueError msg => ValidationError msg
  | _ => e
  end.

Definition HTTP_400_BAD_REQUEST : nat := 400.
Definition HTTP_404_NOT_FOUND : nat := 404.

Inductive resultado (A : Type) :=
  | Ok (a : A)
  | Raise (e : Excepcion)
  | NoReturn.
Arguments Ok {A} a.
Arguments Raise {A} e.
Arguments NoReturn {A}.

(** ** The world: Firestore collections and the random generator *)

Record Random := { tape : nat → nat; cursor : nat }.

Record Mundo := {
  cuentas : gmap string Cuenta;
  movimientos : list (string * Movimiento);
  azar : Random
}.

Definition con_cuentas (w : Mundo) (cs : gmap string Cuenta) : Mundo :=
  {| cuentas := cs; movimientos := movimientos w; azar := azar w |}.

Definition con_movimientos (w : Mundo) (ms : list (string * Movimiento)) : Mundo :=
  {| cuentas := cuentas w; movimientos := ms; azar := azar w |}.

Definition con_azar (w : Mundo) (r : Random) : Mundo :=
  {| cuentas := cuentas w; movimientos := movimientos w; azar := r |}.

Definition M (A : Type) : Type := Mundo → Mundo * resultado A.

#[global] Instance M_ret : MRet M := λ A a w, (w, Ok a).

#[global] Instance M_bind : MBind M := λ A B f m w,
  match m w with
  | (w', Ok a) => f a w'
  | (w', Raise e) => (w', Raise e)
  | (w', NoReturn) => (w', NoReturn)
  end.

Definition raise {A} (e : Excepcion) : M A := λ w, (w, Raise e).
Definition no_return {A} : M A := λ w, (w, NoReturn).

(** ** app/repos/cuentas_repo.py *)

Module string_.
Definition digits : list Ascii.ascii :=
  Eval cbv in String.list_ascii_of_string "0123456789".
End string_.

(** [random.choices(population, k=k)]: [k] independent draws, each an index
    below [len(population)]. *)
Fixpoint random_choices (population : list Ascii.ascii) (k : nat) (r : Random)
  : list Ascii.ascii * Random :=
  match k with
  | O => ([], r)
  | S k' =>
      let i := (tape r (cursor r) mod length population)%nat in
      let c := nth i population "0"%char in
      let '(cs, r') :=
        random_choices population k' {| tape := tape r; cursor := S (cursor r) |} in
      (c :: cs, r')
  end.

Definition _generar_numero_cuenta : M string := λ w,
  let '(cs, r) := random_choices string_.digits 10 (azar w) in
  (con_azar w r, Ok (String.string_of_list_ascii cs)).

Definition _cuenta_existe (numero : string) : M bool := λ w,
  let docs := take 1 (filter (λ d, numero_cuenta d.2 = numero) (map_to_list (cuentas w))) in
  (w, Ok (bool_decide (0 < length docs)%nat)).

Fixpoint _generar_numero_cuenta_unico (fuel : nat) : M string :=
  match fuel with
  | O => no_return
  | S fuel' =>
      numero ← _generar_numero_cuenta;
      existe ← _cuenta_existe numero;
      if negb existe then mret numero else _generar_numero_cuenta_unico fuel'
  end.

(** [collection.add(doc)]: the document is stored under a new id. *)
Definition add_cuenta (doc : Cuenta) : M string := λ w,
  let i := fresh_string "cuenta" (cuentas w) in
  (con_cuentas w (<[i := doc]> (cuentas w)), Ok i).

Definition add_movimiento (doc : Movimiento) : M string := λ w,
  let i := fresh_string_of_set "movimiento" (list_to_set (movimientos w).*1) in
  (con_movimientos w (movimientos w ++ [(i, doc)]), Ok i).

Definition create (fuel : nat) (cuenta : Cuenta) : M string :=
  numero ← _generar_numero_cuenta_unico fuel;
  let cuenta := con_numero_cuenta cuenta numero in
  let cuenta_dict := con_id cuenta None in
  add_cuenta cuenta_dict.

Definition get_by_id (cuenta_id : string) : M (option Cuenta) := λ w,
  match cuentas w !! cuenta_id with
  | None => (w, Ok None)
  | Some data => (w, Ok (Some (con_id data (Some cuenta_id))))
  end.

(** The dict handed to [update]: each key is present or not. *)
Record UpdateData := {
  u_tipo : option TipoCuenta;
  u_estado : option EstadoCuenta;
  u_saldo : option Qc
}.

Definition aplicar (update_data : UpdateData) (doc : Cuenta) : Cuenta :=
  let doc := from_option (con_tipo doc) doc (u_tipo update_data) in
  let doc := from_option (con_estado doc) doc (u_estado update_data) in
  from_option (con_saldo doc) doc (u_saldo update_data).

(** [doc_ref.update(data)] raises [NotFound] when the document is missing. *)
Definition update (cuenta_id : string) (update_data : UpdateData) : M bool := λ w,
  match cuentas w !! cuenta_id with
  | None => (w, Raise (NotFound cuenta_id))
  | Some doc =>
      (con_cuentas w (<[cuenta_id := aplicar update_data doc]> (cuentas w)), Ok true)
  end.

Definition update_saldo (cuenta_id : string) (nuevo_saldo : Qc) : M bool :=
  update cuenta_id {| u_tipo := None; u_estado := None; u_saldo := Some nuevo_saldo |}.

Definition cambiar_estado (cuenta_id : string) (nuevo_estado : EstadoCuenta) : M bool :=
  update cuenta_id {| u_tipo := None; u_estado := Some nuevo_estado; u_saldo := None |}.


Definition crear_movimiento (movimiento : Movimiento) : M string :=
  add_movimiento (con_mov_id movimiento None).

(** ** app/config.py *)

Definition SALDO_MINIMO_CUENTA : Qc := 0.

(** ** app/schemas.py *)

Definition round_half_even (q : Q) : Z :=
  let f := Qfloor q in
  match Qcompare (q - inject_Z f) (1 # 2) with
  | Lt => f
  | Gt => (f + 1)%Z
  | Eq => if Z.even f then f else (f + 1)%Z
  end.

(** [round(v, ndigits)] *)
Definition round (v : Qc) (ndigits : nat) : Qc :=
  let p := inject_Z (10 ^ Z.of_nat ndigits) in
  Q2Qc (inject_Z (round_half_even (v * p)%Q) / p).

Record CuentaCreate := {
  cc_cliente_id : string;
  cc_tipo : TipoCuenta;
  cc_moneda : Moneda;
  saldo_inicial : Qc
}.

Definition validar_saldo_inicial (v : Qc) : Excepcion + Qc :=
  if bool_decide (v < 0) then inl (ValueError "El saldo inicial no puede ser negativo")
  else inr v.

(** [CuentaCreate(...)]: the [ge=0] constraint of the field, then the validator. *)
Definition CuentaCreate_new (cliente : string) (t : TipoCuenta) (m : Moneda) (v : Qc)
  : Excepcion + CuentaCreate :=
  if negb (bool_decide (0 ≤ v)) then inl (ValidationError "greater_than_equal")
  else
    match validar_saldo_inicial v with
    | inl e => inl (validation_error e)
    | inr v' =>
        inr {| cc_cliente_id := cliente; cc_tipo := t; cc_moneda := m; saldo_inicial := v' |}
    end.

(** The fields of a [CuentaUpdate] that the request has set to a value
    ([model_dump(exclude_unset=True)] keeps exactly these).  A request that
    sets a field to null explicitly is not represented: [update] stores the
    null, after which [get_by_id] no longer builds the account. *)
Record CuentaUpdate := {
  cu_tipo : option TipoCuenta;
  cu_estado : option EstadoCuenta
}.

Record DepositoRequest := { dep_monto : Qc; dep_descripcion : string }.
Record RetiroRequest := { ret_monto : Qc; ret_descripcion : string }.

Definition validar_monto_deposito (v : Qc) : Excepcion + Qc :=
  if bool_decide (v ≤ 0) then inl (ValueError "El monto debe ser mayor a 0")
  else if bool_decide (Qc_of_Z 1000000 < v) then
    inl (ValueError "El monto excede el límite permitido")
  else inr (round v 2).


(** A [str] is held as its UTF-8 bytes.  Its characters are as many as its
    bytes that are not continuation bytes [10xxxxxx]. *)
Definition es_continuacion (a : Ascii.ascii) : bool :=
  match a with
  | Ascii.Ascii _ _ _ _ _ _ b6 b7 => b7 && negb b6
  end.

(** [len(s)]: the number of characters. *)
Fixpoint len (s : string) : nat :=
  match s with
  | EmptyString => 0
  | String a s' => (if es_continuacion a then 0 else 1) + len s'
  end.

(** [min_length=1, max_length=255], both counted in characters. *)
Definition descripcion_valida (d : string) : bool :=
  bool_decide (1 ≤ len d)%nat && bool_decide (len d ≤ 255)%nat.

(** [DepositoRequest(monto=..., descripcion=...)]: [gt=0], then the validator,
    then the length bounds of the description. *)
Definition DepositoRequest_new (v : Qc) (d : string) : Excepcion + DepositoRequest :=
  if negb (bool_decide (0 < v)) then inl (ValidationError "greater_than")
  else
    match validar_monto_deposito v with
    | inl e => inl (validation_error e)
    | inr v' =>
        if descripcion_valida d then inr {| dep_monto := v'; dep_descripcion := d |}
        else inl (ValidationError "string_length")
    end.


Record OperacionResponse := {
  success : bool;
  mensaje : string;
  op_cuenta_id : string;
  op_saldo_anterior : Qc;
  op_saldo_nuevo : Qc;
  op_monto : Qc;
  movimiento_id : option string
}.

(** ** app/services/cuentas_service.py *)

Definition crear_cuenta (fuel : nat) (cuenta_data : CuentaCreate) : M (option Cuenta) :=
  let nueva_cuenta :=
    {| id_ := None;
       cliente_id := cc_cliente_id cuenta_data;
       tipo := cc_tipo cuenta_data;
       moneda := cc_moneda cuenta_data;
       saldo := saldo_inicial cuenta_data;
       estado := ACTIVA;
       numero_cuenta := "" |} in
  cuenta_id_ ← create fuel nueva_cuenta;
  cuenta_creada ← get_by_id cuenta_id_;
  (if bool_decide (0 < saldo_inicial cuenta_data) then
     let movimiento :=
       {| mov_id := None;
          cuenta_id := cuenta_id_;
          mov_tipo := DEPOSITO;
          monto := saldo_inicial cuenta_data;
          saldo_anterior := 0;
          saldo_nuevo := saldo_inicial cuenta_data;
          descripcion := "Depósito inicial - Apertura de cuenta";
          referencia := None |} in
     crear_movimiento movimiento ;; mret tt
   else mret tt) ;;
  mret cuenta_creada.

Definition obtener_cuenta (cuenta_id_ : string) : M Cuenta :=
  cuenta ← get_by_id cuenta_id_;
  match cuenta with
  | None =>
      raise (HTTPException HTTP_404_NOT_FOUND
               [Txt "Cuenta con ID "; Txt cuenta_id_; Txt " no encontrada"])
  | Some cuenta => mret cuenta
  end.

Definition actualizar_cuenta (cuenta_id_ : string) (update_data : CuentaUpdate)
  : M (option Cuenta) :=
  cuenta ← obtener_cuenta cuenta_id_;
  let update_dict :=
    {| u_tipo := cu_tipo update_data; u_estado := cu_estado update_data; u_saldo := None |} in
  (if bool_decide (is_Some (cu_tipo update_data) ∨ is_Some (cu_estado update_data)) then
     update cuenta_id_ update_dict ;; mret tt
   else mret tt) ;;
  get_by_id cuenta_id_.

Definition depositar (cuenta_id_ : string) (deposito : DepositoRequest)
  : M OperacionResponse :=
  cuenta ← obtener_cuenta cuenta_id_;
  if bool_decide (estado cuenta ≠ ACTIVA) then
    raise (HTTPException HTTP_400_BAD_REQUEST
             [Txt "La cuenta está "; Est (estado cuenta);
              Txt ". No se pueden realizar depósitos."])
  else
    let saldo_anterior_ := saldo cuenta in
    let saldo_nuevo_ := saldo_anterior_ + dep_monto deposito in
    update_saldo cuenta_id_ saldo_nuevo_ ;;
    let movimiento :=
      {| mov_id := None;
         cuenta_id := cuenta_id_;
         mov_tipo := DEPOSITO;
         monto := dep_monto deposito;
         saldo_anterior := saldo_anterior_;
         saldo_nuevo := saldo_nuevo_;
         descripcion := dep_descripcion deposito;
         referencia := None |} in
    movimiento_id_ ← crear_movimiento movimiento;
    mret {| success := true;
            mensaje := "Depósito realizado exitosamente";
            op_cuenta_id := cuenta_id_;
            op_saldo_anterior := saldo_anterior_;
            op_saldo_nuevo := saldo_nuevo_;
            op_monto := dep_monto deposito;
            movimiento_id := Some movimiento_id_ |}.

Definition retirar (cuenta_id_ : string) (retiro : RetiroRequest)
  : M OperacionResponse :=
  cuenta ← obtener_cuenta cuenta_id_;
  if bool_decide (estado cuenta ≠ ACTIVA) then
    raise (HTTPException HTTP_400_BAD_REQUEST
             [Txt "La cuenta está "; Est (estado cuenta);
              Txt ". No se pueden realizar retiros."])
  else if bool_decide (saldo cuenta < ret_monto retiro) then
    raise (HTTPException HTTP_400_BAD_REQUEST
             [Txt "Saldo insuficiente. Saldo disponible: "; Num (saldo cuenta);
              Txt " "; Mon (moneda cuenta)])
  else
    let saldo_anterior_ := saldo cuenta in
    let saldo_nuevo_ := saldo_anterior_ - ret_monto retiro in
    update_saldo cuenta_id_ saldo_nuevo_ ;;
    let movimiento :=
      {| mov_id := None;
         cuenta_id := cuenta_id_;
         mov_tipo := RETIRO;
         monto := ret_monto retiro;
         saldo_anterior := saldo_anterior_;
         saldo_nuevo := saldo_nuevo_;
         descripcion := ret_descripcion retiro;
         referencia := None |} in
    movimiento_id_ ← crear_movimiento movimiento;
    mret {| success := true;
            mensaje := "Retiro realizado exitosamente";
            op_cuenta_id := cuenta_id_;
            op_saldo_anterior := saldo_anterior_;
            op_saldo_nuevo := saldo_nuevo_;
            op_monto := ret_monto retiro;
            movimiento_id := Some movimiento_id_ |}.

Definition bloquear_cuenta (cuenta_id_ : string) : M (option Cuenta) :=
  cuenta ← obtener_cuenta cuenta_id_;
  if bool_decide (estado cuenta = BLOQUEADA) then
    raise (HTTPException HTTP_400_BAD_REQUEST [Txt "La cuenta ya está bloqueada"])
  else
    cambiar_estado cuenta_id_ BLOQUEADA ;;
    get_by_id cuenta_id_.

Definition desbloquear_cuenta (cuenta_id_ : string) : M (option Cuenta) :=
  cuenta ← obtener_cuenta cuenta_id_;
  if bool_decide (estado cuenta ≠ BLOQUEADA) then
    raise (HTTPException HTTP_400_BAD_REQUEST [Txt "La cuenta no está bloqueada"])
  else
    cambiar_estado cuenta_id_ ACTIVA ;;
    get_by_id cuenta_id_.

Definition validar_saldo_disponible (cuenta_id_ : string) (monto_ : Qc) : M bool :=
  cuenta ← obtener_cuenta cuenta_id_;
  if bool_decide (estado cuenta ≠ ACTIVA) then mret false
  else mret (bool_decide (monto_ ≤ saldo cuenta)).

Definition descontar_saldo (cuenta_id_ : string) (monto_ : Qc) (descripcion_ : string)
    (tipo_movimiento : TipoMovimiento) : M OperacionResponse :=
  cuenta ← obtener_cuenta cuenta_id_;
  if bool_decide (estado cuenta ≠ ACTIVA) then
    raise (HTTPException HTTP_400_BAD_REQUEST [Txt "La cuenta no está activa"])
  else if bool_decide (saldo cuenta < monto_) then
    raise (HTTPException HTTP_400_BAD_REQUEST [Txt "Saldo insuficiente"])
  else
    let saldo_anterior_ := saldo cuenta in
    let saldo_nuevo_ := saldo_anterior_ - monto_ in
    update_saldo cuenta_id_ saldo_nuevo_ ;;
    let movimiento :=
      {| mov_id := None;
         cuenta_id := cuenta_id_;
         mov_tipo := tipo_movimiento;
         monto := monto_;
         saldo_anterior := saldo_anterior_;
         saldo_nuevo := saldo_nuevo_;
         descripcion := descripcion_;
         referencia := None |} in
    movimiento_id_ ← crear_movimiento movimiento;
    mret {| success := true;
            mensaje := "Descuento realizado exitosamente";
            op_cuenta_id := cuenta_id_;
            op_saldo_anterior := saldo_anterior_;
            op_saldo_nuevo := saldo_nuevo_;
            op_monto := monto_;
            movimiento_id := Some movimiento_id_ |}.

Definition acreditar_saldo (cuenta_id_ : string) (monto_ : Qc) (descripcion_ : string)
    (tipo_movimiento : TipoMovimiento) : M OperacionResponse :=
  cuenta ← obtener_cuenta cuenta_id_;
  if bool_decide (estado cuenta ≠ ACTIVA) then
    raise (HTTPException HTTP_400_BAD_REQUEST [Txt "La cuenta no está activa"])
  else
    let saldo_anterior_ := saldo cuenta in
    let saldo_nuevo_ := saldo_anterior_ + monto_ in
    update_saldo cuenta_id_ saldo_nuevo_ ;;
    let movimiento :=
      {| mov_id := None;
         cuenta_id := cuenta_id_;
         mov_tipo := tipo_movimiento;
         monto := monto_;
         saldo_anterior := saldo_anterior_;
         saldo_nuevo := saldo_nuevo_;
         descripcion := descripcion_;
         referencia := None |} in
    movimiento_id_ ← crear_movimiento movimiento;
    mret {| success := true;
            mensaje := "Acreditación realizada exitosamente";
            op_cuenta_id := cuenta_id_;
            op_saldo_anterior := saldo_anterior_;
            op_saldo_nuevo := saldo_nuevo_;
            op_monto := monto_;
            movimiento_id := Some movimiento_id_ |}.

(** * Further functions of the repository and the service *)

(** ** app/schemas.py: [CuentaFilter] *)

Record CuentaFilter := {
  f_cliente_id : option string;
  f_numero_cuenta : option string;
  f_estado : option EstadoCuenta;
  f_moneda : option Moneda
}.

(** ** app/repos/cuentas_repo.py: the queries *)

(** The truth value of an optional string in an [if]: [None] and the empty
    string are false. *)
Definition truthy (s : option string) : bool :=
  match s with
  | Some s => negb (bool_decide (s = ""))
  | None => false
  end.

Definition get_by_numero_cuenta (numero : string) : M (option Cuenta) := λ w,
  let docs :=
    take 1 (filter (λ d, numero_cuenta d.2 = numero) (map_to_list (cuentas w))) in
  match docs with
  | doc :: _ => (w, Ok (Some (con_id doc.2 (Some doc.1))))
  | [] => (w, Ok None)
  end.

(** [CuentasRepository.list]; an enumeration member is never false in an
    [if], so a set [estado] or [moneda] always filters. *)
Definition list_ (filters : option CuentaFilter) : M (list Cuenta) := λ w,
  let query := map_to_list (cuentas w) in
  let query :=
    match filters with
    | None => query
    | Some filters =>
        let query :=
          if truthy (f_cliente_id filters) then
            filter (λ d, Some (cliente_id d.2) = f_cliente_id filters) query
          else query in
        let query :=
          if truthy (f_numero_cuenta filters) then
            filter (λ d, Some (numero_cuenta d.2) = f_numero_cuenta filters) query
          else query in
        let query :=
          match f_estado filters with
          | Some estado_value => filter (λ d, estado d.2 = estado_value) query
          | None => query
          end in
        match f_moneda filters with
        | Some moneda_value => filter (λ d, moneda d.2 = moneda_value) query
        | None => query
        end
    end in
  (w, Ok ((λ d, con_id d.2 (Some d.1)) <$> query)).

(** ** app/services/cuentas_service.py: [listar_cuentas] *)

Definition listar_cuentas (filters : option CuentaFilter) : M (list Cuenta) :=
  list_ filters.

(** * Vocabulary of the properties *)

(** ** Movements and worlds after an operation *)

(** The id under which [crear_movimiento] files the next movement. *)
Definition siguiente_movimiento_id (w : Mundo) : string :=
  fresh_string_of_set "movimiento" (list_to_set (movimientos w).*1).

(** The movement an operation on account [i] files. *)
Definition movimiento_de (i : string) (t : TipoMovimiento) (m antes despues : Qc)
    (d : string) : Movimiento :=
  {| mov_id := None; cuenta_id := i; mov_tipo := t; monto := m;
     saldo_anterior := antes; saldo_nuevo := despues; descripcion := d;
     referencia := None |}.

(** The world a successful operation of amount [m] on account [i] leaves
    behind: the new balance stored, one movement appended. *)
Definition tras_operacion (w : Mundo) (i : string) (c : Cuenta) (t : TipoMovimiento)
    (m despues : Qc) (d : string) : Mundo :=
  {| cuentas := <[i := con_saldo c despues]> (cuentas w);
     movimientos :=
       movimientos w ++
         [(siguiente_movimiento_id w, movimiento_de i t m (saldo c) despues d)];
     azar := azar w |}.

Definition retorna {A} (r : resultado A) : bool :=
  match r with Ok _ => true | _ => false end.

Definition estado_de (w : Mundo) (i : string) : option EstadoCuenta :=
  estado <$> cuentas w !! i.

(** The balance of account [i], as a fraction. *)
Definition saldo_de (w : Mundo) (i : string) : option Q :=
  (λ c, this (saldo c)) <$> cuentas w !! i.


(** ** Sequences of balance operations *)

Inductive Operacion :=
  | Depositar (i : string) (d : DepositoRequest)
  | Retirar (i : string) (r : RetiroRequest)
  | Descontar (i : string) (m : Qc) (d : string) (t : TipoMovimiento)
  | Acreditar (i : string) (m : Qc) (d : string) (t : TipoMovimiento).

Definition ejecutar (op : Operacion) : M OperacionResponse :=
  match op with
  | Depositar i d => depositar i d
  | Retirar i r => retirar i r
  | Descontar i m d t => descontar_saldo i m d t
  | Acreditar i m d t => acreditar_saldo i m d t
  end.

Definition cuenta_de (op : Operacion) : string :=
  match op with
  | Depositar i _ | Retirar i _ | Descontar i _ _ _ | Acreditar i _ _ _ => i
  end.

Definition monto_de (op : Operacion) : Qc :=
  match op with
  | Depositar _ d => dep_monto d
  | Retirar _ r => ret_monto r
  | Descontar _ m _ _ | Acreditar _ m _ _ => m
  end.

Definition descripcion_de (op : Operacion) : string :=
  match op with
  | Depositar _ d => dep_descripcion d
  | Retirar _ r => ret_descripcion r
  | Descontar _ _ d _ | Acreditar _ _ d _ => d
  end.

(** The kind under which the operation files its movement. *)
Definition tipo_de (op : Operacion) : TipoMovimiento :=
  match op with
  | Depositar _ _ => DEPOSITO
  | Retirar _ _ => RETIRO
  | Descontar _ _ _ t | Acreditar _ _ _ t => t
  end.

(** Whether the operation adds its amount to the balance or takes it off. *)
Definition es_abono (op : Operacion) : bool :=
  match op with
  | Depositar _ _ | Acreditar _ _ _ _ => true
  | Retirar _ _ | Descontar _ _ _ _ => false
  end.

Definition variacion (op : Operacion) : Qc :=
  if es_abono op then monto_de op else - monto_de op.

(** ** The ledger *)

(** The sign convention of the movement kinds. *)
Definition es_entrada (t : TipoMovimiento) : bool :=
  match t with
  | DEPOSITO | TRANSFERENCIA_ENTRADA => true
  | RETIRO | TRANSFERENCIA_SALIDA | PAGO_SERVICIO => false
  end.

Definition es_salida (t : TipoMovimiento) : bool := negb (es_entrada t).

(** ** Account numbers and account opening *)

Definition avanzar (r : Random) (k : nat) : Random :=
  {| tape := tape r; cursor := cursor r + k |}.

(** The number [_generar_numero_cuenta] draws from generator [r]. *)
Definition candidato (r : Random) : string :=
  String.string_of_list_ascii (random_choices string_.digits 10 r).1.

Definition es_digito (c : Ascii.ascii) : bool :=
  (48 <=? nat_of_ascii c)%nat && (nat_of_ascii c <=? 57)%nat.

(** Some stored account carries number [n]. *)
Definition numero_en_uso (w : Mundo) (n : string) : Prop :=
  ∃ i c, cuentas w !! i = Some c ∧ numero_cuenta c = n.

(** No two stored accounts carry the same number. *)
Definition numeros_unicos (w : Mundo) : Prop :=
  ∀ i j ci cj,
    cuentas w !! i = Some ci → cuentas w !! j = Some cj →
    numero_cuenta ci = numero_cuenta cj → i = j.

Definition descripcion_apertura : string := "Depósito inicial - Apertura de cuenta".

(** The document [crear_cuenta] stores for request [data] once number [n] is
    drawn. *)
Definition cuenta_nueva (data : CuentaCreate) (n : string) : Cuenta :=
  {| id_ := None; cliente_id := cc_cliente_id data; numero_cuenta := n;
     tipo := cc_tipo data; moneda := cc_moneda data; saldo := saldo_inicial data;
     estado := ACTIVA |}.

Definition siguiente_cuenta_id (w : Mundo) : string := fresh_string "cuenta" (cuentas w).

Definition movimientos_apertura (w : Mundo) (data : CuentaCreate)
  : list (string * Movimiento) :=
  if bool_decide (0 < saldo_inicial data) then
    [(siguiente_movimiento_id w,
      movimiento_de (siguiente_cuenta_id w) DEPOSITO (saldo_inicial data) 0
        (saldo_inicial data) descripcion_apertura)]
  else [].

Fixpoint crear_cuentas (fuel : nat) (ds : list CuentaCreate) : M unit :=
  match ds with
  | [] => mret tt
  | d :: ds' => crear_cuenta fuel d ;; crear_cuentas fuel ds'
  end.

(** ** Two decimals *)

(** A value that rounding to two decimals leaves as it is. *)
Definition dos_decimales (q : Qc) : Prop := round q 2 = q.

Definition centesimas (z : Z) : Qc := Q2Qc (inject_Z z / inject_Z 100).

(** ** Concrete worlds and requests *)

Definition cuenta_ejemplo : Cuenta :=
  {| id_ := None; cliente_id := "cliente-1"; numero_cuenta := "0000000000";
     tipo := AHORRO; moneda := BOB; saldo := Qc_of_Z 100; estado := ACTIVA |}.

Definition mundo_ejemplo : Mundo :=
  {| cuentas := {[ "c1" := cuenta_ejemplo ]};
     movimientos := [];
     azar := {| tape := λ n, (n / 10)%nat; cursor := 0 |} |}.

Definition mundo_cerrada : Mundo :=
  {| cuentas := {[ "c1" := con_estado cuenta_ejemplo CERRADA ]};
     movimientos := [];
     azar := {| tape := λ n, (n / 10)%nat; cursor := 0 |} |}.

Definition mundo_vacio : Mundo :=
  {| cuentas := ∅; movimientos := []; azar := {| tape := λ n, (n / 10)%nat; cursor := 0 |} |}.

Definition pago_ejemplo : Operacion :=
  Descontar "c1" (Qc_of_Z 30) "pago" PAGO_SERVICIO.

Definition apertura_ejemplo : CuentaCreate :=
  {| cc_cliente_id := "cliente-1"; cc_tipo := AHORRO; cc_moneda := BOB;
     saldo_inicial := Q2Qc 0.125 |}.

Definition deposito_ejemplo : DepositoRequest :=
  {| dep_monto := round (Qc_of_Z 1) 2; dep_descripcion := "deposito" |}.




Definition retiro_excesivo : RetiroRequest :=
  {| ret_monto := Qc_of_Z 200; ret_descripcion := "retiro" |}.

(** ** Requests to the service *)

(** One call of a method of [CuentasService]. *)
Inductive Llamada :=
  | LCrear (fuel : nat) (cuenta_data : CuentaCreate)
  | LObtener (i : string)
  | LListar (filters : option CuentaFilter)
  | LActualizar (i : string) (update_data : CuentaUpdate)
  | LOperacion (op : Operacion)
  | LBloquear (i : string)
  | LDesbloquear (i : string)
  | LValidar (i : string) (m : Qc).

Definition llamar (c : Llamada) : M unit :=
  match c with
  | LCrear fuel cuenta_data => crear_cuenta fuel cuenta_data ;; mret tt
  | LObtener i => obtener_cuenta i ;; mret tt
  | LListar filters => listar_cuentas filters ;; mret tt
  | LActualizar i update_data => actualizar_cuenta i update_data ;; mret tt
  | LOperacion op => ejecutar op ;; mret tt
  | LBloquear i => bloquear_cuenta i ;; mret tt
  | LDesbloquear i => desbloquear_cuenta i ;; mret tt
  | LValidar i m => validar_saldo_disponible i m ;; mret tt
  end.

(** The world after a series of calls served one after the other; a call
    that raises does not stop the ones after it. *)
Definition atender (cs : list Llamada) (w : Mundo) : Mundo :=
  foldl (λ w c, (llamar c w).1) w cs.

(** A call whose request object passed its validation. *)
Definition llamada_valida (c : Llamada) : Prop :=
  match c with
  | LCrear _ cuenta_data => 0 ≤ saldo_inicial cuenta_data
  | _ => True
  end.

(** The account the call addresses, if it addresses one. *)
Definition destino (c : Llamada) : option string :=
  match c with
  | LCrear _ _ | LListar _ => None
  | LObtener i | LActualizar i _ | LBloquear i | LDesbloquear i | LValidar i _ => Some i
  | LOperacion op => Some (cuenta_de op)
  end.


(** ** What a call does to the world *)

(** The call is refused on the stored account [acc]. *)
Definition rechazo (c : Llamada) (acc : Cuenta) : Prop :=
  match c with
  | LOperacion op =>
      estado acc ≠ ACTIVA ∨ (es_abono op = false ∧ saldo acc < monto_de op)
  | LBloquear _ => estado acc = BLOQUEADA
  | LDesbloquear _ => estado acc ≠ BLOQUEADA
  | _ => False
  end.

(** The call only reads. *)
Definition solo_lectura (c : Llamada) : Prop :=
  match c with
  | LObtener _ | LListar _ | LValidar _ _ => True
  | LActualizar _ u => cu_tipo u = None ∧ cu_estado u = None
  | _ => False
  end.

(** The call rewrites the kind or the state of its account. *)
Definition cambia_datos (c : Llamada) : Prop :=
  match c with
  | LBloquear _ | LDesbloquear _ => True
  | LActualizar _ u => is_Some (cu_tipo u) ∨ is_Some (cu_estado u)
  | _ => False
  end.

Definition cuenta_tras (c : Llamada) (acc : Cuenta) : Cuenta :=
  match c with
  | LActualizar _ u =>
      aplicar {| u_tipo := cu_tipo u; u_estado := cu_estado u; u_saldo := None |} acc
  | LBloquear _ => con_estado acc BLOQUEADA
  | LDesbloquear _ => con_estado acc ACTIVA
  | _ => acc
  end.

(** The outcomes a call can have, each with the world it leaves. *)
Inductive Efecto (c : Llamada) (w : Mundo) : Mundo → resultado unit → Prop :=
  | ef_inexistente i :
      destino c = Some i → cuentas w !! i = None →
      Efecto c w w
        (Raise (HTTPException HTTP_404_NOT_FOUND
                  [Txt "Cuenta con ID "; Txt i; Txt " no encontrada"]))
  | ef_rechazo i acc detail :
      destino c = Some i → cuentas w !! i = Some acc → rechazo c acc →
      Efecto c w w (Raise (HTTPException HTTP_400_BAD_REQUEST detail))
  | ef_lectura :
      solo_lectura c → (∀ i, destino c = Some i → is_Some (cuentas w !! i)) →
      Efecto c w w (Ok tt)
  | ef_datos i acc :
      destino c = Some i → cuentas w !! i = Some acc → cambia_datos c →
      ¬ rechazo c acc →
      Efecto c w (con_cuentas w (<[i := cuenta_tras c acc]> (cuentas w))) (Ok tt)
  | ef_saldo op acc :
      c = LOperacion op → cuentas w !! cuenta_de op = Some acc → ¬ rechazo c acc →
      Efecto c w
        (tras_operacion w (cuenta_de op) acc (tipo_de op) (monto_de op)
           (saldo acc + variacion op) (descripcion_de op))
        (Ok tt)
  | ef_alta fuel data w1 n :
      c = LCrear fuel data →
      _generar_numero_cuenta_unico fuel w = (w1, Ok n) →
      Efecto c w
        {| cuentas := <[siguiente_cuenta_id w := cuenta_nueva data n]> (cuentas w);
           movimientos := movimientos w ++ movimientos_apertura w data;
           azar := azar w1 |}
        (Ok tt)
  | ef_sin_retorno fuel data w1 :
      c = LCrear fuel data →
      _generar_numero_cuenta_unico fuel w = (w1, NoReturn) →
      Efecto c w w1 NoReturn.

(** ** Responses of the balance operations *)

Definition mensaje_de (op : Operacion) : string :=
  match op with
  | Depositar _ _ => "Depósito realizado exitosamente"
  | Retirar _ _ => "Retiro realizado exitosamente"
  | Descontar _ _ _ _ => "Descuento realizado exitosamente"
  | Acreditar _ _ _ _ => "Acreditación realizada exitosamente"
  end.

(** The response of operation [op] accepted in world [w] on account [acc]. *)
Definition respuesta_de (op : Operacion) (w : Mundo) (acc : Cuenta) : OperacionResponse :=
  {| success := true;
     mensaje := mensaje_de op;
     op_cuenta_id := cuenta_de op;
     op_saldo_anterior := saldo acc;
     op_saldo_nuevo := saldo acc + variacion op;
     op_monto := monto_de op;
     movimiento_id := Some (siguiente_movimiento_id w) |}.

(** The fields of an account no method rewrites. *)
Definition mismos_datos_fijos (acc acc' : Cuenta) : Prop :=
  id_ acc' = id_ acc ∧ cliente_id acc' = cliente_id acc ∧
  numero_cuenta acc' = numero_cuenta acc ∧ moneda acc' = moneda acc.

(** A call that is neither a balance operation nor an account opening. *)
Definition no_monetaria (c : Llamada) : Prop :=
  match c with
  | LCrear _ _ | LOperacion _ => False
  | _ => True
  end.

(** ** The chain of movements of an account *)

Definition movimientos_de (i : string) (ms : list (string * Movimiento))
  : list (string * Movimiento) :=
  filter (λ d, cuenta_id d.2 = i) ms.

(** Starting from balance [s0], each movement of [ms] begins at the balance
    the one before it ended at, and the last one ends at [s1]. *)
Fixpoint cadena (s0 : Qc) (ms : list (string * Movimiento)) (s1 : Qc) : Prop :=
  match ms with
  | [] => s0 = s1
  | d :: ms' => saldo_anterior d.2 = s0 ∧ cadena (saldo_nuevo d.2) ms' s1
  end.

(** Every movement belongs to a stored account, and the movements of each
    account, in the order they were filed, lead from 0 to its balance. *)
Definition libro_consistente (w : Mundo) : Prop :=
  (∀ d, d ∈ movimientos w → is_Some (cuentas w !! cuenta_id d.2)) ∧
  (∀ i acc, cuentas w !! i = Some acc →
     cadena 0 (movimientos_de i (movimientos w)) (saldo acc)).

(** ** Filters *)

(** The stored account [doc] passes the filters of a listing: each filter
    that is set, and for the two strings not empty, holds of it. *)
Definition coincide (filters : option CuentaFilter) (doc : Cuenta) : Prop :=
  match filters with
  | None => True
  | Some f =>
      (truthy (f_cliente_id f) = true → Some (cliente_id doc) = f_cliente_id f) ∧
      (truthy (f_numero_cuenta f) = true → Some (numero_cuenta doc) = f_numero_cuenta f) ∧
      (∀ e, f_estado f = Some e → estado doc = e) ∧
      (∀ m, f_moneda f = Some m → moneda doc = m)
  end.

(** ** A world whose generator always draws the same number *)

Definition mundo_saturado : Mundo :=
  {| cuentas := {[ "c1" := cuenta_ejemplo ]};
     movimientos := [];
     azar := {| tape := λ _, 0%nat; cursor := 0 |} |}.

(** The account [crear_cuenta] returns for [apertura_ejemplo] in
    [mundo_ejemplo]. *)
Definition cuenta_creada_ejemplo : Cuenta :=
  con_id (cuenta_nueva apertura_ejemplo "1111111111") (Some "cuenta").

Definition filtro_ejemplo : CuentaFilter :=
  {| f_cliente_id := Some ""; f_numero_cuenta := None;
     f_estado := Some ACTIVA; f_moneda := Some BOB |}.

(** * The balance operations over binary64

    [float] is Rocq's primitive binary64; [+], [-] and [<] on it are the
    operations of the Python [float].  The module repeats the part of the
    repository and of the service that account opening and the four balance
    operations run through, with the amounts as binary64 numbers, for the
    properties that depend on how the arithmetic rounds. *)

Module Binary64.

Record Cuenta := {
  id_ : option string;
  cliente_id : string;
  numero_cuenta : string;
  tipo : TipoCuenta;
  moneda : Moneda;
  saldo : float;
  estado : EstadoCuenta
}.

Record Movimiento := {
  mov_id : option string;
  cuenta_id : string;
  mov_tipo : TipoMovimiento;
  monto : float;
  saldo_anterior : float;
  saldo_nuevo : float;
  descripcion : string;
  referencia : option string
}.

Definition con_id (c : Cuenta) (i : option string) : Cuenta :=
  {| id_ := i; cliente_id := cliente_id c; numero_cuenta := numero_cuenta c;
     tipo := tipo c; moneda := moneda c; saldo := saldo c; estado := estado c |}.

Definition con_numero_cuenta (c : Cuenta) (n : string) : Cuenta :=
  {| id_ := id_ c; cliente_id := cliente_id c; numero_cuenta := n;
     tipo := tipo c; moneda := moneda c; saldo := saldo c; estado := estado c |}.

Definition con_tipo (c : Cuenta) (t : TipoCuenta) : Cuenta :=
  {| id_ := id_ c; cliente_id := cliente_id c; numero_cuenta := numero_cuenta c;
     tipo := t; moneda := moneda c; saldo := saldo c; estado := estado c |}.

Definition con_saldo (c : Cuenta) (s : float) : Cuenta :=
  {| id_ := id_ c; cliente_id := cliente_id c; numero_cuenta := numero_cuenta c;
     tipo := tipo c; moneda := moneda c; saldo := s; estado := estado c |}.

Definition con_estado (c : Cuenta) (e : EstadoCuenta) : Cuenta :=
  {| id_ := id_ c; cliente_id := cliente_id c; numero_cuenta := numero_cuenta c;
     tipo := tipo c; moneda := moneda c; saldo := saldo c; estado := e |}.

Definition con_mov_id (m : Movimiento) (i : option string) : Movimiento :=
  {| mov_id := i; cuenta_id := cuenta_id m; mov_tipo := mov_tipo m;
     monto := monto m; saldo_anterior := saldo_anterior m;
     saldo_nuevo := saldo_nuevo m; descripcion := descripcion m;
     referencia := referencia m |}.

Inductive Fragmento :=
  | Txt (s : string)
  | Num (x : float)
  | Mon (m : Moneda)
  | Est (e : EstadoCuenta).

Inductive Excepcion :=
  | HTTPException (status_code : nat) (detail : list Fragmento)
  | NotFound (document : string).

(** [NoReturn]: the call is still in the loop of
    [_generar_numero_cuenta_unico] when the fuel is used up. *)
Inductive resultado (A : Type) :=
  | Ok (a : A)
  | Raise (e : Excepcion)
  | NoReturn.
Arguments Ok {A} a.
Arguments Raise {A} e.
Arguments NoReturn {A}.

(** The two Firestore collections and the random generator. *)
Record Firestore := {
  cuentas : gmap string Cuenta;
  movimientos : list (string * Movimiento);
  azar : Random
}.

Definition con_cuentas (w : Firestore) (cs : gmap string Cuenta) : Firestore :=
  {| cuentas := cs; movimientos := movimientos w; azar := azar w |}.

Definition con_movimientos (w : Firestore) (ms : list (string * Movimiento)) : Firestore :=
  {| cuentas := cuentas w; movimientos := ms; azar := azar w |}.

Definition con_azar (w : Firestore) (r : Random) : Firestore :=
  {| cuentas := cuentas w; movimientos := movimientos w; azar := r |}.

Definition Op (A : Type) : Type := Firestore → Firestore * resultado A.

#[global] Instance Op_ret : MRet Op := λ A a w, (w, Ok a).

#[global] Instance Op_bind : MBind Op := λ A B f m w,
  match m w with
  | (w', Ok a) => f a w'
  | (w', Raise e) => (w', Raise e)
  | (w', NoReturn) => (w', NoReturn)
  end.

Definition raise {A} (e : Excepcion) : Op A := λ w, (w, Raise e).
Definition no_return {A} : Op A := λ w, (w, NoReturn).

(** ** app/repos/cuentas_repo.py *)

Definition _generar_numero_cuenta : Op string := λ w,
  let '(cs, r) := random_choices string_.digits 10 (azar w) in
  (con_azar w r, Ok (String.string_of_list_ascii cs)).

Definition _cuenta_existe (numero : string) : Op bool := λ w,
  let docs := take 1 (filter (λ d, numero_cuenta d.2 = numero) (map_to_list (cuentas w))) in
  (w, Ok (bool_decide (0 < length docs)%nat)).

Fixpoint _generar_numero_cuenta_unico (fuel : nat) : Op string :=
  match fuel with
  | O => no_return
  | S fuel' =>
      numero ← _generar_numero_cuenta;
      existe ← _cuenta_existe numero;
      if negb existe then mret numero else _generar_numero_cuenta_unico fuel'
  end.

Definition add_cuenta (doc : Cuenta) : Op string := λ w,
  let i := fresh_string "cuenta" (cuentas w) in
  (con_cuentas w (<[i := doc]> (cuentas w)), Ok i).

Definition siguiente_movimiento_id (w : Firestore) : string :=
  fresh_string_of_set "movimiento" (list_to_set (movimientos w).*1).

Definition add_movimiento (doc : Movimiento) : Op string := λ w,
  let i := siguiente_movimiento_id w in
  (con_movimientos w (movimientos w ++ [(i, doc)]), Ok i).

Definition create (fuel : nat) (cuenta : Cuenta) : Op string :=
  numero ← _generar_numero_cuenta_unico fuel;
  let cuenta := con_numero_cuenta cuenta numero in
  let cuenta_dict := con_id cuenta None in
  add_cuenta cuenta_dict.

Definition get_by_id (cuenta_id : string) : Op (option Cuenta) := λ w,
  match cuentas w !! cuenta_id with
  | None => (w, Ok None)
  | Some data => (w, Ok (Some (con_id data (Some cuenta_id))))
  end.

Record UpdateData := {
  u_tipo : option TipoCuenta;
  u_estado : option EstadoCuenta;
  u_saldo : option float
}.

Definition aplicar (update_data : UpdateData) (doc : Cuenta) : Cuenta :=
  let doc := from_option (con_tipo doc) doc (u_tipo update_data) in
  let doc := from_option (con_estado doc) doc (u_estado update_data) in
  from_option (con_saldo doc) doc (u_saldo update_data).

Definition update (cuenta_id : string) (update_data : UpdateData) : Op bool := λ w,
  match cuentas w !! cuenta_id with
  | None => (w, Raise (NotFound cuenta_id))
  | Some doc =>
      (con_cuentas w (<[cuenta_id := aplicar update_data doc]> (cuentas w)), Ok true)
  end.

Definition update_saldo (cuenta_id : string) (nuevo_saldo : float) : Op bool :=
  update cuenta_id {| u_tipo := None; u_estado := None; u_saldo := Some nuevo_saldo |}.

Definition crear_movimiento (movimiento : Movimiento) : Op string :=
  add_movimiento (con_mov_id movimiento None).

(** ** app/schemas.py *)

Record CuentaCreate := {
  cc_cliente_id : string;
  cc_tipo : TipoCuenta;
  cc_moneda : Moneda;
  saldo_inicial : float
}.

Record DepositoRequest := { dep_monto : float; dep_descripcion : string }.
Record RetiroRequest := { ret_monto : float; ret_descripcion : string }.

Record OperacionResponse := {
  success : bool;
  mensaje : string;
  op_cuenta_id : string;
  op_saldo_anterior : float;
  op_saldo_nuevo : float;
  op_monto : float;
  movimiento_id : option string
}.

(** ** app/services/cuentas_service.py *)

Definition crear_cuenta (fuel : nat) (cuenta_data : CuentaCreate) : Op (option Cuenta) :=
  let nueva_cuenta :=
    {| id_ := None;
       cliente_id := cc_cliente_id cuenta_data;
       tipo := cc_tipo cuenta_data;
       moneda := cc_moneda cuenta_data;
       saldo := saldo_inicial cuenta_data;
       estado := ACTIVA;
       numero_cuenta := "" |} in
  cuenta_id_ ← create fuel nueva_cuenta;
  cuenta_creada ← get_by_id cuenta_id_;
  (if (0 <? saldo_inicial cuenta_data)%float then
     let movimiento :=
       {| mov_id := None;
          cuenta_id := cuenta_id_;
          mov_tipo := DEPOSITO;
          monto := saldo_inicial cuenta_data;
          saldo_anterior := 0%float;
          saldo_nuevo := saldo_inicial cuenta_data;
          descripcion := "Depósito inicial - Apertura de cuenta";
          referencia := None |} in
     crear_movimiento movimiento ;; mret tt
   else mret tt) ;;
  mret cuenta_creada.

Definition obtener_cuenta (cuenta_id_ : string) : Op Cuenta :=
  cuenta ← get_by_id cuenta_id_;
  match cuenta with
  | None =>
      raise (HTTPException HTTP_404_NOT_FOUND
               [Txt "Cuenta con ID "; Txt cuenta_id_; Txt " no encontrada"])
  | Some cuenta => mret cuenta
  end.

Definition depositar (cuenta_id_ : string) (deposito : DepositoRequest)
  : Op OperacionResponse :=
  cuenta ← obtener_cuenta cuenta_id_;
  if bool_decide (estado cuenta ≠ ACTIVA) then
    raise (HTTPException HTTP_400_BAD_REQUEST
             [Txt "La cuenta está "; Est (estado cuenta);
              Txt ". No se pueden realizar depósitos."])
  else
    let saldo_anterior_ := saldo cuenta in
    let saldo_nuevo_ := (saldo_anterior_ + dep_monto deposito)%float in
    update_saldo cuenta_id_ saldo_nuevo_ ;;
    let movimiento :=
      {| mov_id := None;
         cuenta_id := cuenta_id_;
         mov_tipo := DEPOSITO;
         monto := dep_monto deposito;
         saldo_anterior := saldo_anterior_;
         saldo_nuevo := saldo_nuevo_;
         descripcion := dep_descripcion deposito;
         referencia := None |} in
    movimiento_id_ ← crear_movimiento movimiento;
    mret {| success := true;
            mensaje := "Depósito realizado exitosamente";
            op_cuenta_id := cuenta_id_;
            op_saldo_anterior := saldo_anterior_;
            op_saldo_nuevo := saldo_nuevo_;
            op_monto := dep_monto deposito;
            movimiento_id := Some movimiento_id_ |}.

Definition retirar (cuenta_id_ : string) (retiro : RetiroRequest)
  : Op OperacionResponse :=
  cuenta ← obtener_cuenta cuenta_id_;
  if bool_decide (estado cuenta ≠ ACTIVA) then
    raise (HTTPException HTTP_400_BAD_REQUEST
             [Txt "La cuenta está "; Est (estado cuenta);
              Txt ". No se pueden realizar retiros."])
  else if (saldo cuenta <? ret_monto retiro)%float then
    raise (HTTPException HTTP_400_BAD_REQUEST
             [Txt "Saldo insuficiente. Saldo disponible: "; Num (saldo cuenta);
              Txt " "; Mon (moneda cuenta)])
  else
    let saldo_anterior_ := saldo cuenta in
    let saldo_nuevo_ := (saldo_anterior_ - ret_monto retiro)%float in
    update_saldo cuenta_id_ saldo_nuevo_ ;;
    let movimiento :=
      {| mov_id := None;
         cuenta_id := cuenta_id_;
         mov_tipo := RETIRO;
         monto := ret_monto retiro;
         saldo_anterior := saldo_anterior_;
         saldo_nuevo := saldo_nuevo_;
         descripcion := ret_descripcion retiro;
         referencia := None |} in
    movimiento_id_ ← crear_movimiento movimiento;
    mret {| success := true;
            mensaje := "Retiro realizado exitosamente";
            op_cuenta_id := cuenta_id_;
            op_saldo_anterior := saldo_anterior_;
            op_saldo_nuevo := saldo_nuevo_;
            op_monto := ret_monto retiro;
            movimiento_id := Some movimiento_id_ |}.

Definition descontar_saldo (cuenta_id_ : string) (monto_ : float) (descripcion_ : string)
    (tipo_movimiento : TipoMovimiento) : Op OperacionResponse :=
  cuenta ← obtener_cuenta cuenta_id_;
  if bool_decide (estado cuenta ≠ ACTIVA) then
    raise (HTTPException HTTP_400_BAD_REQUEST [Txt "La cuenta no está activa"])
  else if (saldo cuenta <? monto_)%float then
    raise (HTTPException HTTP_400_BAD_REQUEST [Txt "Saldo insuficiente"])
  else
    let saldo_anterior_ := saldo cuenta in
    let saldo_nuevo_ := (saldo_anterior_ - monto_)%float in
    update_saldo cuenta_id_ saldo_nuevo_ ;;
    let movimiento :=
      {| mov_id := None;
         cuenta_id := cuenta_id_;
         mov_tipo := tipo_movimiento;
         monto := monto_;
         saldo_anterior := saldo_anterior_;
         saldo_nuevo := saldo_nuevo_;
         descripcion := descripcion_;
         referencia := None |} in
    movimiento_id_ ← crear_movimiento movimiento;
    mret {| success := true;
            mensaje := "Descuento realizado exitosamente";
            op_cuenta_id := cuenta_id_;
            op_saldo_anterior := saldo_anterior_;
            op_saldo_nuevo := saldo_nuevo_;
            op_monto := monto_;
            movimiento_id := Some movimiento_id_ |}.

Definition acreditar_saldo (cuenta_id_ : string) (monto_ : float) (descripcion_ : string)
    (tipo_movimiento : TipoMovimiento) : Op OperacionResponse :=
  cuenta ← obtener_cuenta cuenta_id_;
  if bool_decide (estado cuenta ≠ ACTIVA) then
    raise (HTTPException HTTP_400_BAD_REQUEST [Txt "La cuenta no está activa"])
  else
    let saldo_anterior_ := saldo cuenta in
    let saldo_nuevo_ := (saldo_anterior_ + monto_)%float in
    update_saldo cuenta_id_ saldo_nuevo_ ;;
    let movimiento :=
      {| mov_id := None;
         cuenta_id := cuenta_id_;
         mov_tipo := tipo_movimiento;
         monto := monto_;
         saldo_anterior := saldo_anterior_;
         saldo_nuevo := saldo_nuevo_;
         descripcion := descripcion_;
         referencia := None |} in
    movimiento_id_ ← crear_movimiento movimiento;
    mret {| success := true;
            mensaje := "Acreditación realizada exitosamente";
            op_cuenta_id := cuenta_id_;
            op_saldo_anterior := saldo_anterior_;
            op_saldo_nuevo := saldo_nuevo_;
            op_monto := monto_;
            movimiento_id := Some movimiento_id_ |}.

(** [cuenta.saldo >= monto] is [monto <= cuenta.saldo]. *)
Definition validar_saldo_disponible (cuenta_id_ : string) (monto_ : float) : Op bool :=
  cuenta ← obtener_cuenta cuenta_id_;
  if bool_decide (estado cuenta ≠ ACTIVA) then mret false
  else mret (monto_ <=? saldo cuenta)%float.

(** ** Sequences of balance operations *)

Inductive Operacion :=
  | Depositar (i : string) (d : DepositoRequest)
  | Retirar (i : string) (r : RetiroRequest)
  | Descontar (i : string) (m : float) (d : string) (t : TipoMovimiento)
  | Acreditar (i : string) (m : float) (d : string) (t : TipoMovimiento).

Definition ejecutar (op : Operacion) : Op OperacionResponse :=
  match op with
  | Depositar i d => depositar i d
  | Retirar i r => retirar i r
  | Descontar i m d t => descontar_saldo i m d t
  | Acreditar i m d t => acreditar_saldo i m d t
  end.

Fixpoint ejecutar_todas (ops : list Operacion) : Op unit :=
  match ops with
  | [] => mret tt
  | op :: ops' => ejecutar op ;; ejecutar_todas ops'
  end.

Definition cuenta_de (op : Operacion) : string :=
  match op with
  | Depositar i _ | Retirar i _ | Descontar i _ _ _ | Acreditar i _ _ _ => i
  end.

Definition monto_de (op : Operacion) : float :=
  match op with
  | Depositar _ d => dep_monto d
  | Retirar _ r => ret_monto r
  | Descontar _ m _ _ | Acreditar _ m _ _ => m
  end.

Definition descripcion_de (op : Operacion) : string :=
  match op with
  | Depositar _ d => dep_descripcion d
  | Retirar _ r => ret_descripcion r
  | Descontar _ _ d _ | Acreditar _ _ d _ => d
  end.

(** The kind under which the operation files its movement. *)
Definition tipo_de (op : Operacion) : TipoMovimiento :=
  match op with
  | Depositar _ _ => DEPOSITO
  | Retirar _ _ => RETIRO
  | Descontar _ _ _ t | Acreditar _ _ _ t => t
  end.

(** Whether the operation adds its amount to the balance or takes it off. *)
Definition es_abono (op : Operacion) : bool :=
  match op with
  | Depositar _ _ | Acreditar _ _ _ _ => true
  | Retirar _ _ | Descontar _ _ _ _ => false
  end.

(** The operation files its movement under a kind of its own side. *)
Definition tipo_coherente (op : Operacion) : Prop :=
  es_entrada (tipo_de op) = es_abono op.

(** The balance the operation computes from the balance [s] it read. *)
Definition saldo_tras (op : Operacion) (s : float) : float :=
  if es_abono op then (s + monto_de op)%float else (s - monto_de op)%float.

(** The movement the operation files when it read the balance [s], and the
    store it leaves behind on the account [c]. *)
Definition movimiento_de (op : Operacion) (s : float) : Movimiento :=
  {| mov_id := None;
     cuenta_id := cuenta_de op;
     mov_tipo := tipo_de op;
     monto := monto_de op;
     saldo_anterior := s;
     saldo_nuevo := saldo_tras op s;
     descripcion := descripcion_de op;
     referencia := None |}.

Definition tras_operacion (w : Firestore) (op : Operacion) (c : Cuenta) : Firestore :=
  {| cuentas := <[cuenta_de op := con_saldo c (saldo_tras op (saldo c))]> (cuentas w);
     movimientos :=
       movimientos w ++ [(siguiente_movimiento_id w, movimiento_de op (saldo c))];
     azar := azar w |}.

Definition mensaje_de (op : Operacion) : string :=
  match op with
  | Depositar _ _ => "Depósito realizado exitosamente"
  | Retirar _ _ => "Retiro realizado exitosamente"
  | Descontar _ _ _ _ => "Descuento realizado exitosamente"
  | Acreditar _ _ _ _ => "Acreditación realizada exitosamente"
  end.

(** The response of operation [op] accepted in store [w] on account [c]. *)
Definition respuesta_de (op : Operacion) (w : Firestore) (c : Cuenta)
  : OperacionResponse :=
  {| success := true;
     mensaje := mensaje_de op;
     op_cuenta_id := cuenta_de op;
     op_saldo_anterior := saldo c;
     op_saldo_nuevo := saldo_tras op (saldo c);
     op_monto := monto_de op;
     movimiento_id := Some (siguiente_movimiento_id w) |}.

(** ** The ledger *)

(** One movement applied to a balance: its amount added for DEPOSITO and
    TRANSFERENCIA_ENTRADA, subtracted for RETIRO, TRANSFERENCIA_SALIDA and
    PAGO_SERVICIO. *)
Definition aplicar_movimiento (s : float) (m : Movimiento) : float :=
  if es_entrada (mov_tipo m) then (s + monto m)%float else (s - monto m)%float.

(** [saldo_nuevo] is [saldo_anterior] with the movement applied to it. *)
Definition movimiento_coherente (m : Movimiento) : Prop :=
  saldo_nuevo m = aplicar_movimiento (saldo_anterior m) m.

(** [saldo_nuevo - saldo_anterior == +monto] for DEPOSITO and
    TRANSFERENCIA_ENTRADA, [== -monto] for the other kinds, with the [-] and
    the [==] of binary64. *)
Definition diferencia_con_signo (m : Movimiento) : bool :=
  if es_entrada (mov_tipo m)
  then (saldo_nuevo m - saldo_anterior m =? monto m)%float
  else (saldo_nuevo m - saldo_anterior m =? - monto m)%float.

Definition movimientos_de (i : string) (ms : list (string * Movimiento))
  : list Movimiento :=
  (filter (λ d, cuenta_id d.2 = i) ms).*2.

(** The movements of account [i] applied to [s0] one after the other, in the
    order they were filed. *)
Definition saldo_segun_movimientos (s0 : float) (i : string)
    (ms : list (string * Movimiento)) : float :=
  foldl aplicar_movimiento s0 (movimientos_de i ms).

(** [sum(m.monto for m in ms)] *)
Definition sum (ms : list Movimiento) : float :=
  foldl (λ acc m, (acc + monto m)%float) 0%float ms.

(** The balance as the sum formula gives it: the starting balance plus the
    sum of the incoming amounts of account [i] minus the sum of the outgoing
    ones. *)
Definition saldo_segun_sumas (s0 : float) (i : string)
    (ms : list (string * Movimiento)) : float :=
  (s0 + sum (filter (λ m, es_entrada (mov_tipo m) = true) (movimientos_de i ms))
      - sum (filter (λ m, es_salida (mov_tipo m) = true) (movimientos_de i ms)))%float.

Definition nuevos_movimientos (w w' : Firestore) : list (string * Movimiento) :=
  drop (length (movimientos w)) (movimientos w').

(** The balance of account [i] in [w'] is its balance in [w] with the
    movements filed in between applied to it, in order. *)
Definition saldo_cuadra (w w' : Firestore) (i : string) : Prop :=
  ∃ c c',
    cuentas w !! i = Some c ∧ cuentas w' !! i = Some c' ∧
    saldo c' = saldo_segun_movimientos (saldo c) i (nuevos_movimientos w w').

Definition retorna {A} (r : resultado A) : bool :=
  match r with Ok _ => true | _ => false end.

Definition saldo_de (w : Firestore) (i : string) : option float :=
  saldo <$> cuentas w !! i.

(** ** Concrete stores *)

Definition cuenta_de_saldo (s : float) : Cuenta :=
  {| id_ := None; cliente_id := "cliente-1"; numero_cuenta := "0000000000";
     tipo := AHORRO; moneda := BOB; saldo := s; estado := ACTIVA |}.

Definition store_de_saldo (s : float) : Firestore :=
  {| cuentas := {[ "c1" := cuenta_de_saldo s ]}; movimientos := [];
     azar := {| tape := λ n, (n / 10)%nat; cursor := 0 |} |}.

Definition deposito_de (m : float) : Operacion :=
  Depositar "c1" {| dep_monto := m; dep_descripcion := "deposito" |}.

Definition operaciones_ejemplo : list Operacion :=
  [ deposito_de 50;
    Retirar "c1" {| ret_monto := 120; ret_descripcion := "retiro" |};
    Acreditar "c1" 5 "transferencia" TRANSFERENCIA_ENTRADA;
    Descontar "c1" 3 "pago" PAGO_SERVICIO ].

Definition apertura_ejemplo : CuentaCreate :=
  {| cc_cliente_id := "cliente-2"; cc_tipo := CORRIENTE; cc_moneda := USD;
     saldo_inicial := 25.5 |}.

Definition pago_ejemplo : Operacion := Descontar "c1" 30 "pago" PAGO_SERVICIO.


End Binary64.

(** * Properties *)

(** ** Running the monad *)

Lemma bind_ok {A B} (m : M A) (f : A → M B) w w' a :
  m w = (w', Ok a) → (m ≫= f) w = f a w'.
Proof. intros H. unfold mbind, M_bind. by rewrite H. Qed.

Lemma bind_raise {A B} (m : M A) (f : A → M B) w w' e :
  m w = (w', Raise e) → (m ≫= f) w = (w', Raise e).
Proof. intros H. unfold mbind, M_bind. by rewrite H. Qed.

Lemma bind_no_return {A B} (m : M A) (f : A → M B) w w' :
  m w = (w', NoReturn) → (m ≫= f) w = (w', NoReturn).
Proof. intros H. unfold mbind, M_bind. by rewrite H. Qed.

Lemma bind_inv {A B} (m : M A) (f : A → M B) w w2 b :
  (m ≫= f) w = (w2, Ok b) → ∃ w1 a, m w = (w1, Ok a) ∧ f a w1 = (w2, Ok b).
Proof.
  unfold mbind, M_bind. destruct (m w) as [w1 [a| |]]; [eauto | done | done].
Qed.

(** ** The repository *)

Lemma get_by_id_some w i c :
  cuentas w !! i = Some c → get_by_id i w = (w, Ok (Some (con_id c (Some i)))).
Proof. intros H. unfold get_by_id. by rewrite H. Qed.

Lemma get_by_id_none w i :
  cuentas w !! i = None → get_by_id i w = (w, Ok None).
Proof. intros H. unfold get_by_id. by rewrite H. Qed.

Lemma obtener_cuenta_some w i c :
  cuentas w !! i = Some c → obtener_cuenta i w = (w, Ok (con_id c (Some i))).
Proof.
  intros H. unfold obtener_cuenta.
  by rewrite (bind_ok _ _ _ _ _ (get_by_id_some _ _ _ H)).
Qed.

Lemma obtener_cuenta_none w i :
  cuentas w !! i = None →
  obtener_cuenta i w =
    (w, Raise (HTTPException HTTP_404_NOT_FOUND
                 [Txt "Cuenta con ID "; Txt i; Txt " no encontrada"])).
Proof.
  intros H. unfold obtener_cuenta.
  by rewrite (bind_ok _ _ _ _ _ (get_by_id_none _ _ H)).
Qed.

Lemma update_some w i d c :
  cuentas w !! i = Some c →
  update i d w = (con_cuentas w (<[i := aplicar d c]> (cuentas w)), Ok true).
Proof. intros H. unfold update. by rewrite H. Qed.

Lemma update_none w i d :
  cuentas w !! i = None → update i d w = (w, Raise (NotFound i)).
Proof. intros H. unfold update. by rewrite H. Qed.

Lemma update_saldo_some w i s c :
  cuentas w !! i = Some c →
  update_saldo i s w = (con_cuentas w (<[i := con_saldo c s]> (cuentas w)), Ok true).
Proof. intros H. unfold update_saldo. by rewrite (update_some _ _ _ _ H). Qed.

Lemma cambiar_estado_some w i e c :
  cuentas w !! i = Some c →
  cambiar_estado i e w = (con_cuentas w (<[i := con_estado c e]> (cuentas w)), Ok true).
Proof. intros H. unfold cambiar_estado. by rewrite (update_some _ _ _ _ H). Qed.

Lemma crear_movimiento_eq w m :
  crear_movimiento m w =
    (con_movimientos w (movimientos w ++ [(siguiente_movimiento_id w, con_mov_id m None)]),
     Ok (siguiente_movimiento_id w)).
Proof. reflexivity. Qed.

(** A step of symbolic execution on an account known to exist. *)
Ltac paso H :=
  first
    [ rewrite (bind_ok _ _ _ _ _ (obtener_cuenta_some _ _ _ H))
    | rewrite (bind_ok _ _ _ _ _ (update_saldo_some _ _ _ _ H))
    | rewrite (bind_ok _ _ _ _ _ (cambiar_estado_some _ _ _ _ H))
    | rewrite (bind_ok _ _ _ _ _ (crear_movimiento_eq _ _)) ];
  cbn [con_id estado saldo moneda].

Ltac paso_en H0 H :=
  first
    [ rewrite (bind_ok _ _ _ _ _ (obtener_cuenta_some _ _ _ H)) in H0
    | rewrite (bind_ok _ _ _ _ _ (update_saldo_some _ _ _ _ H)) in H0
    | rewrite (bind_ok _ _ _ _ _ (cambiar_estado_some _ _ _ _ H)) in H0
    | rewrite (bind_ok _ _ _ _ _ (crear_movimiento_eq _ _)) in H0 ];
  cbn [con_id estado saldo moneda] in H0.

(** ** Withdrawals *)

Lemma retirar_insuficiente w i c r :
  cuentas w !! i = Some c → estado c = ACTIVA → saldo c < ret_monto r →
  retirar i r w =
    (w, Raise (HTTPException HTTP_400_BAD_REQUEST
                 [Txt "Saldo insuficiente. Saldo disponible: "; Num (saldo c);
                  Txt " "; Mon (moneda c)])).
Proof.
  intros Hc He Hlt. unfold retirar. paso Hc.
  rewrite bool_decide_eq_false_2 by (rewrite He; auto).
  by rewrite bool_decide_eq_true_2.
Qed.

Lemma retirar_suficiente w i c r :
  cuentas w !! i = Some c → estado c = ACTIVA → ret_monto r ≤ saldo c →
  retirar i r w =
    (tras_operacion w i c RETIRO (ret_monto r) (saldo c - ret_monto r) (ret_descripcion r),
     Ok {| success := true;
           mensaje := "Retiro realizado exitosamente";
           op_cuenta_id := i;
           op_saldo_anterior := saldo c;
           op_saldo_nuevo := saldo c - ret_monto r;
           op_monto := ret_monto r;
           movimiento_id := Some (siguiente_movimiento_id w) |}).
Proof.
  intros Hc He Hle. unfold retirar. paso Hc.
  rewrite bool_decide_eq_false_2 by (rewrite He; auto).
  rewrite bool_decide_eq_false_2 by (by apply Qcle_not_lt).
  paso Hc. by paso Hc.
Qed.


(** ** The balance pre-check *)

(** C8. On an existing account [validar_saldo_disponible] returns a boolean,
    never raises and leaves the world as it was; the boolean is true exactly
    when the account is ACTIVA and its balance is at least the amount, so it
    is false for a BLOQUEADA or CERRADA account whatever the balance. *)
Theorem validar_saldo_disponible_iff (w : Mundo) (i : string) (c : Cuenta) (m : Qc) :
  cuentas w !! i = Some c →
  ∃ b : bool,
    validar_saldo_disponible i m w = (w, Ok b) ∧
    (b = true ↔ estado c = ACTIVA ∧ m ≤ saldo c) ∧
    (estado c = BLOQUEADA ∨ estado c = CERRADA → b = false).
Proof.
  intros Hc. unfold validar_saldo_disponible. paso Hc.
  case_bool_decide as He.
  - exists false. split; [done|]. split; [|done].
    split; [done | by intros [? _]].
  - exists (bool_decide (m ≤ saldo c)).
    split; [done|]. rewrite bool_decide_eq_true. split; [tauto|].
    rewrite He. intros [?|?]; discriminate.
Qed.

(** ** Results of the repository mutations *)


(** ** The four balance operations *)

Lemma depositar_activa w i c d :
  cuentas w !! i = Some c → estado c = ACTIVA →
  ∃ resp,
    depositar i d w =
      (tras_operacion w i c DEPOSITO (dep_monto d) (saldo c + dep_monto d)
         (dep_descripcion d), Ok resp).
Proof.
  intros Hc He. unfold depositar. paso Hc.
  rewrite bool_decide_eq_false_2 by (rewrite He; auto).
  paso Hc. paso Hc. by eexists.
Qed.

Lemma descontar_saldo_activa w i c m d t :
  cuentas w !! i = Some c → estado c = ACTIVA → m ≤ saldo c →
  ∃ resp,
    descontar_saldo i m d t w = (tras_operacion w i c t m (saldo c - m) d, Ok resp).
Proof.
  intros Hc He Hle. unfold descontar_saldo. paso Hc.
  rewrite bool_decide_eq_false_2 by (rewrite He; auto).
  rewrite bool_decide_eq_false_2 by (by apply Qcle_not_lt).
  paso Hc. paso Hc. by eexists.
Qed.

Lemma acreditar_saldo_activa w i c m d t :
  cuentas w !! i = Some c → estado c = ACTIVA →
  ∃ resp,
    acreditar_saldo i m d t w = (tras_operacion w i c t m (saldo c + m) d, Ok resp).
Proof.
  intros Hc He. unfold acreditar_saldo. paso Hc.
  rewrite bool_decide_eq_false_2 by (rewrite He; auto).
  paso Hc. paso Hc. by eexists.
Qed.

(** Every outcome of a balance operation: either it raised and the world is
    as it was, or the account is ACTIVA and the balance update and its one
    movement are both in place. *)
Lemma ejecutar_inv op w w' r :
  ejecutar op w = (w', r) →
  (w' = w ∧ ∃ e, r = Raise e) ∨
  (∃ c resp,
     cuentas w !! cuenta_de op = Some c ∧ estado c = ACTIVA ∧ r = Ok resp ∧
     w' = tras_operacion w (cuenta_de op) c (tipo_de op) (monto_de op)
            (saldo c + variacion op) (descripcion_de op)).
Proof.
  intros H.
  destruct (cuentas w !! cuenta_de op) as [c|] eqn:Hc.
  2:{ left. destruct op; simpl in *; unfold depositar, retirar, descontar_saldo, acreditar_saldo in H;
      rewrite (bind_raise _ _ _ _ _ (obtener_cuenta_none _ _ Hc)) in H;
      inversion H; eauto. }
  destruct (decide (estado c = ACTIVA)) as [He|He].
  2:{ left. destruct op; simpl in *; unfold depositar, retirar, descontar_saldo, acreditar_saldo in H;
      paso_en H Hc; rewrite bool_decide_eq_true_2 in H by done;
      inversion H; eauto. }
  destruct op as [i d|i r0|i m d t|i m d t]; simpl in *.
  - right. destruct (depositar_activa w i c d Hc He) as [resp Hd].
    rewrite Hd in H. inversion H; subst. eauto 10.
  - destruct (decide (saldo c < ret_monto r0)) as [Hlt|Hge].
    + left. rewrite (retirar_insuficiente _ _ _ _ Hc He Hlt) in H.
      inversion H; eauto.
    + right. apply Qcnot_lt_le in Hge.
      rewrite (retirar_suficiente _ _ _ _ Hc He Hge) in H.
      inversion H; subst. eauto 10.
  - destruct (decide (saldo c < m)) as [Hlt|Hge].
    + left. unfold descontar_saldo in H. paso_en H Hc.
      rewrite bool_decide_eq_false_2 in H by (rewrite He; auto).
      rewrite bool_decide_eq_true_2 in H by done. inversion H; eauto.
    + right. apply Qcnot_lt_le in Hge.
      destruct (descontar_saldo_activa w i c m d t Hc He Hge) as [resp Hd].
      rewrite Hd in H. inversion H; subst. eauto 10.
  - right. destruct (acreditar_saldo_activa w i c m d t Hc He) as [resp Hd].
    rewrite Hd in H. inversion H; subst. eauto 10.
Qed.

(** ** Account numbers *)

Lemma random_choices_snd pop k : ∀ r, (random_choices pop k r).2 = avanzar r k.
Proof.
  induction k as [|k IH]; intros r; simpl.
  - unfold avanzar. destruct r; simpl. f_equal. lia.
  - specialize (IH {| tape := tape r; cursor := S (cursor r) |}).
    destruct (random_choices pop k _) as [cs r']. simpl in *. subst r'.
    unfold avanzar. simpl. f_equal. lia.
Qed.

Lemma random_choices_length pop k : ∀ r, length (random_choices pop k r).1 = k.
Proof.
  induction k as [|k IH]; intros r; simpl; [done|].
  specialize (IH {| tape := tape r; cursor := S (cursor r) |}).
  destruct (random_choices pop k _) as [cs r']. simpl in *. by rewrite IH.
Qed.

Lemma nth_digits_es_digito i :
  (i < 10)%nat → es_digito (nth i string_.digits "0"%char) = true.
Proof.
  intros Hi. do 10 (destruct i as [|i]; [reflexivity|]). lia.
Qed.

Lemma random_choices_digits k : ∀ r,
  Forall (λ c, es_digito c = true) (random_choices string_.digits k r).1.
Proof.
  induction k as [|k IH]; intros r; simpl; [constructor|].
  specialize (IH {| tape := tape r; cursor := S (cursor r) |}).
  destruct (random_choices string_.digits k _) as [cs r']. simpl in *.
  constructor; [|done].
  apply nth_digits_es_digito. apply (Nat.mod_upper_bound _ 10). lia.
Qed.

Lemma length_string_of_list_ascii cs :
  String.length (String.string_of_list_ascii cs) = length cs.
Proof. induction cs as [|c cs IH]; simpl; [done | by rewrite IH]. Qed.

Lemma candidato_diez_digitos r :
  String.length (candidato r) = 10%nat ∧
  Forall (λ c, es_digito c = true) (String.list_ascii_of_string (candidato r)).
Proof.
  unfold candidato. split.
  - by rewrite length_string_of_list_ascii, random_choices_length.
  - rewrite String.list_ascii_of_string_of_list_ascii. apply random_choices_digits.
Qed.

Lemma _generar_numero_cuenta_eq w :
  _generar_numero_cuenta w = (con_azar w (avanzar (azar w) 10), Ok (candidato (azar w))).
Proof.
  unfold _generar_numero_cuenta, candidato.
  pose proof (random_choices_snd string_.digits 10 (azar w)) as H.
  destruct (random_choices string_.digits 10 (azar w)) as [cs r]. simpl in *.
  by subst r.
Qed.

Lemma _cuenta_existe_spec w n :
  ∃ b : bool, _cuenta_existe n w = (w, Ok b) ∧ (b = true ↔ numero_en_uso w n).
Proof.
  unfold _cuenta_existe. eexists. split; [reflexivity|].
  rewrite bool_decide_eq_true, length_take.
  destruct (filter _ (map_to_list (cuentas w))) as [|[i c] l] eqn:Hf.
  - simpl. split; [lia|]. intros (i & c & Hc & Hn).
    assert ((i, c) ∈ filter (λ d, numero_cuenta d.2 = n) (map_to_list (cuentas w))) as Hin
      by (apply list_elem_of_filter; split; [done | by apply elem_of_map_to_list]).
    rewrite Hf in Hin. by apply not_elem_of_nil in Hin.
  - simpl. split; [|lia]. intros _.
    assert ((i, c) ∈ filter (λ d, numero_cuenta d.2 = n) (map_to_list (cuentas w))) as Hin
      by (rewrite Hf; left).
    apply list_elem_of_filter in Hin as [Hn Hin].
    apply elem_of_map_to_list in Hin. by exists i, c.
Qed.

(** What the retry loop leaves behind, whatever its outcome: the collections
    are untouched, and a returned number is a candidate no account carries. *)
Lemma generar_unico_inv fuel : ∀ w w' r,
  _generar_numero_cuenta_unico fuel w = (w', r) →
  cuentas w' = cuentas w ∧ movimientos w' = movimientos w ∧
  match r with
  | Ok n => ¬ numero_en_uso w n ∧ ∃ k, n = candidato (avanzar (azar w) k)
  | Raise _ => False
  | NoReturn => True
  end.
Proof.
  induction fuel as [|fuel IH]; intros w w' r H; simpl in H.
  - inversion H; subst. done.
  - rewrite (bind_ok _ _ _ _ _ (_generar_numero_cuenta_eq w)) in H.
    set (w1 := con_azar w (avanzar (azar w) 10)) in *.
    destruct (_cuenta_existe_spec w1 (candidato (azar w))) as (b & Hb & Hiff).
    rewrite (bind_ok _ _ _ _ _ Hb) in H. destruct b; simpl in H.
    + apply IH in H as (Hc & Hm & Hr). repeat split; [done..|].
      destruct r as [n| |]; [|done..]. destruct Hr as [Hn [k ->]].
      split; [done|]. exists (10 + k)%nat. unfold avanzar. simpl.
      do 2 f_equal. lia.
    + inversion H; subst. repeat split; [done..| |].
      * intros Hu. assert (false = true) by (by apply Hiff). done.
      * exists 0%nat. unfold avanzar. destruct (azar w); simpl. do 2 f_equal. lia.
Qed.

(** The loop returns as soon as one of the first [fuel] candidates is free. *)
Lemma generar_unico_retorna fuel : ∀ w k,
  (k < fuel)%nat →
  ¬ numero_en_uso w (candidato (avanzar (azar w) (10 * k))) →
  ∃ w' n, _generar_numero_cuenta_unico fuel w = (w', Ok n).
Proof.
  induction fuel as [|fuel IH]; intros w k Hk Hfree; [lia|]. simpl.
  rewrite (bind_ok _ _ _ _ _ (_generar_numero_cuenta_eq w)).
  set (w1 := con_azar w (avanzar (azar w) 10)).
  destruct (_cuenta_existe_spec w1 (candidato (azar w))) as (b & Hb & Hiff).
  rewrite (bind_ok _ _ _ _ _ Hb). destruct b; simpl; [|by eauto].
  destruct k as [|k].
  - exfalso. apply Hfree. replace (avanzar (azar w) (10 * 0)) with (azar w).
    + by apply Hiff.
    + unfold avanzar. destruct (azar w); simpl. f_equal. lia.
  - apply (IH w1 k); [lia|].
    replace (avanzar (azar w1) (10 * k)) with (avanzar (azar w) (10 * S k)); [done|].
    unfold avanzar. simpl. f_equal. lia.
Qed.

(** ** Opening an account *)

Lemma siguiente_cuenta_id_libre w : cuentas w !! siguiente_cuenta_id w = None.
Proof. apply fresh_string_fresh. Qed.

Lemma crear_cuenta_retorna fuel data w w1 n :
  _generar_numero_cuenta_unico fuel w = (w1, Ok n) →
  crear_cuenta fuel data w =
    ({| cuentas := <[siguiente_cuenta_id w := cuenta_nueva data n]> (cuentas w);
        movimientos := movimientos w ++ movimientos_apertura w data;
        azar := azar w1 |},
     Ok (Some (con_id (cuenta_nueva data n) (Some (siguiente_cuenta_id w))))).
Proof.
  intros Hg. destruct (generar_unico_inv _ _ _ _ Hg) as (Hc & Hm & _).
  unfold crear_cuenta, create.
  unfold mbind at 1. unfold M_bind. unfold mbind at 1. unfold M_bind.
  rewrite Hg. unfold add_cuenta. cbn [con_numero_cuenta con_id].
  rewrite Hc.
  set (i := fresh_string "cuenta" (cuentas w)).
  set (w2 := con_cuentas w1 _).
  assert (Hi : cuentas w2 !! i = Some (cuenta_nueva data n))
    by (apply lookup_insert_eq).
  rewrite (bind_ok _ _ _ _ _ (get_by_id_some _ _ _ Hi)).
  unfold movimientos_apertura, siguiente_movimiento_id. case_bool_decide.
  - unfold mbind, M_bind, mret, M_ret, w2, con_cuentas. simpl. by rewrite Hm.
  - unfold mbind, M_bind, mret, M_ret, w2, con_cuentas. by rewrite Hm, app_nil_r.
Qed.

Lemma crear_cuenta_no_retorna fuel data w w1 :
  _generar_numero_cuenta_unico fuel w = (w1, NoReturn) →
  crear_cuenta fuel data w = (w1, NoReturn).
Proof.
  intros Hg. unfold crear_cuenta, create.
  unfold mbind at 1. unfold M_bind. unfold mbind at 1. unfold M_bind.
  by rewrite Hg.
Qed.

(** C7. For an open-account request with a non-negative initial balance,
    once the number generator finds a free number within its [fuel] draws
    [crear_cuenta] returns the stored account: it is ACTIVA and its balance
    is the requested initial balance; with a positive initial balance
    exactly one movement is appended, a DEPOSITO from 0 to the initial
    balance carrying the opening description, and with a zero initial
    balance none is. *)
Theorem crear_cuenta_apertura (fuel k : nat) (data : CuentaCreate) (w : Mundo) :
  0 ≤ saldo_inicial data →
  (k < fuel)%nat →
  ¬ numero_en_uso w (candidato (avanzar (azar w) (10 * k))) →
  ∃ w' i creada,
    crear_cuenta fuel data w = (w', Ok (Some creada)) ∧
    cuentas w !! i = None ∧
    cuentas w' !! i = Some (con_id creada None) ∧
    id_ creada = Some i ∧
    estado creada = ACTIVA ∧
    saldo creada = saldo_inicial data ∧
    cuentas w' = <[i := con_id creada None]> (cuentas w) ∧
    (0 < saldo_inicial data →
       ∃ mid,
         movimientos w' =
           movimientos w ++
             [(mid, movimiento_de i DEPOSITO (saldo_inicial data) 0
                      (saldo_inicial data) "Depósito inicial - Apertura de cuenta")]) ∧
    (saldo_inicial data = 0 → movimientos w' = movimientos w).
Proof.
  intros Hpos Hk Hfree.
  destruct (generar_unico_retorna fuel w k Hk Hfree) as (w1 & n & Hg).
  do 3 eexists. split; [by apply (crear_cuenta_retorna _ _ _ _ _ Hg)|].
  cbn [cuentas movimientos con_id id_ estado saldo cuenta_nueva].
  split; [apply siguiente_cuenta_id_libre|].
  split; [apply lookup_insert_eq|].
  repeat split.
  - intros Hgt. eexists. unfold movimientos_apertura.
    by rewrite bool_decide_eq_true_2.
  - intros Hz. unfold movimientos_apertura.
    rewrite bool_decide_eq_false_2, app_nil_r; [done|].
    rewrite Hz. exact (irreflexivity Qclt _).
Qed.

(** Every outcome of [crear_cuenta]. *)
Lemma crear_cuenta_inv fuel data w w' r :
  crear_cuenta fuel data w = (w', r) →
  (r = NoReturn ∧ cuentas w' = cuentas w ∧ movimientos w' = movimientos w) ∨
  (∃ n,
     ¬ numero_en_uso w n ∧
     r = Ok (Some (con_id (cuenta_nueva data n) (Some (siguiente_cuenta_id w)))) ∧
     cuentas w' = <[siguiente_cuenta_id w := cuenta_nueva data n]> (cuentas w) ∧
     movimientos w' = movimientos w ++ movimientos_apertura w data).
Proof.
  intros H.
  destruct (_generar_numero_cuenta_unico fuel w) as [w1 [n|e|]] eqn:Hg;
    pose proof (generar_unico_inv _ _ _ _ Hg) as (Hc & Hm & Hr).
  - rewrite (crear_cuenta_retorna _ _ _ _ _ Hg) in H. inversion H; subst.
    right. exists n. by destruct Hr.
  - done.
  - rewrite (crear_cuenta_no_retorna _ _ _ _ Hg) in H. inversion H; subst.
    by left.
Qed.

Lemma insert_numeros_unicos w i c :
  numeros_unicos w → cuentas w !! i = None → ¬ numero_en_uso w (numero_cuenta c) →
  ∀ w', cuentas w' = <[i := c]> (cuentas w) → numeros_unicos w'.
Proof.
  intros Hu Hi Hn w' Hw' j k cj ck. rewrite Hw'.
  destruct (decide (i = j)) as [<-|Hj], (decide (i = k)) as [<-|Hk]; [done|..].
  - rewrite lookup_insert_eq, lookup_insert_ne by done.
    intros [= <-] Hck Heq. destruct Hn. by exists k, ck.
  - rewrite lookup_insert_eq, lookup_insert_ne by done.
    intros Hcj [= <-] Heq. destruct Hn. by exists j, cj.
  - rewrite !lookup_insert_ne by done. apply Hu.
Qed.

Lemma crear_cuenta_numeros_unicos fuel data w w' r :
  numeros_unicos w → crear_cuenta fuel data w = (w', r) → numeros_unicos w'.
Proof.
  intros Hu H.
  apply crear_cuenta_inv in H as [(_ & Hc & _)|(n & Hn & _ & Hc & _)].
  - unfold numeros_unicos. by rewrite Hc.
  - eapply insert_numeros_unicos; [done | apply siguiente_cuenta_id_libre | | done].
    done.
Qed.

Lemma crear_cuentas_numeros_unicos fuel ds : ∀ w w' r,
  numeros_unicos w → crear_cuentas fuel ds w = (w', r) → numeros_unicos w'.
Proof.
  induction ds as [|d ds IH]; intros w w' r Hu H; simpl in H.
  - by inversion H; subst.
  - unfold mbind, M_bind in H.
    destruct (crear_cuenta fuel d w) as [w1 r1] eqn:H1.
    apply crear_cuenta_numeros_unicos in H1; [|done].
    destruct r1; [by eapply IH | by inversion H; subst..].
Qed.

(** C9. Whenever the account-number generation returns, the number is a
    string of 10 decimal digits that no stored account carries; the account
    [crear_cuenta] returns carries such a number; and a run of account
    creations, one after the other, from a store without duplicate numbers
    leaves a store without duplicate numbers, whatever its outcome. *)
Theorem numero_cuenta_sin_duplicados :
  (∀ fuel w w' n,
     _generar_numero_cuenta_unico fuel w = (w', Ok n) →
     String.length n = 10%nat ∧
     Forall (λ c, es_digito c = true) (String.list_ascii_of_string n) ∧
     ¬ numero_en_uso w n) ∧
  (∀ fuel data w w' creada,
     crear_cuenta fuel data w = (w', Ok (Some creada)) →
     ¬ numero_en_uso w (numero_cuenta creada)) ∧
  (∀ fuel ds w w' r,
     numeros_unicos w → crear_cuentas fuel ds w = (w', r) → numeros_unicos w').
Proof.
  split; [|split].
  - intros fuel w w' n Hg.
    destruct (generar_unico_inv _ _ _ _ Hg) as (_ & _ & Hfree & k & ->).
    destruct (candidato_diez_digitos (avanzar (azar w) k)). done.
  - intros fuel data w w' creada H.
    apply crear_cuenta_inv in H as [(? & _)|(n & Hn & Hr & _)]; [done|].
    by inversion Hr; subst.
  - intros fuel ds w w' r. apply crear_cuentas_numeros_unicos.
Qed.

(** ** Closed accounts *)

Lemma desbloquear_cuenta_no_bloqueada w i c :
  cuentas w !! i = Some c → estado c ≠ BLOQUEADA →
  desbloquear_cuenta i w =
    (w, Raise (HTTPException HTTP_400_BAD_REQUEST [Txt "La cuenta no está bloqueada"])).
Proof.
  intros Hc He. unfold desbloquear_cuenta. paso Hc.
  by rewrite bool_decide_eq_true_2.
Qed.

Lemma bloquear_cuenta_no_bloqueada w i c :
  cuentas w !! i = Some c → estado c ≠ BLOQUEADA →
  bloquear_cuenta i w =
    (con_cuentas w (<[i := con_estado c BLOQUEADA]> (cuentas w)),
     Ok (Some (con_id (con_estado c BLOQUEADA) (Some i)))).
Proof.
  intros Hc He. unfold bloquear_cuenta. paso Hc.
  rewrite bool_decide_eq_false_2 by done. paso Hc.
  apply get_by_id_some. simpl. apply lookup_insert_eq.
Qed.

Lemma actualizar_cuenta_estado w i c u e :
  cuentas w !! i = Some c → cu_estado u = Some e →
  ∃ w' c',
    actualizar_cuenta i u w = (w', Ok (Some c')) ∧
    estado c' = e ∧ estado <$> cuentas w' !! i = Some e.
Proof.
  intros Hc Hu. unfold actualizar_cuenta. paso Hc. rewrite Hu.
  rewrite bool_decide_eq_true_2 by (right; eauto).
  set (d := {| u_tipo := cu_tipo u; u_estado := Some e; u_saldo := None |}).
  set (w1 := con_cuentas w (<[i := aplicar d c]> (cuentas w))).
  assert (H1 : cuentas w1 !! i = Some (aplicar d c)) by apply lookup_insert_eq.
  assert (H2 : (update i d ≫= λ _, mret tt) w = (w1, Ok tt))
    by (by rewrite (bind_ok _ _ _ _ _ (update_some _ _ _ _ Hc))).
  rewrite (bind_ok _ _ _ _ _ H2), (get_by_id_some _ _ _ H1).
  do 2 eexists. split; [done|]. rewrite H1.
  split; [|simpl; f_equal]; unfold d, aplicar; simpl; by destruct (cu_tipo u).
Qed.

(** C3, as the code has it.  On a CERRADA account every balance operation
    (deposit, withdraw, debit, credit) and the unblock operation raise a 400
    error and leave the world as it was, and the balance pre-check returns
    false without any change, so none of them moves the account out of
    CERRADA; [actualizar_cuenta] stores the state its request carries, on a
    CERRADA account as on any other. *)
Theorem cuenta_cerrada_operaciones (w : Mundo) (i : string) (c : Cuenta) :
  cuentas w !! i = Some c →
  estado c = CERRADA →
  (∀ op, cuenta_de op = i →
     ∃ detail, ejecutar op w = (w, Raise (HTTPException HTTP_400_BAD_REQUEST detail))) ∧
  (∃ detail,
     desbloquear_cuenta i w = (w, Raise (HTTPException HTTP_400_BAD_REQUEST detail))) ∧
  (∀ m, validar_saldo_disponible i m w = (w, Ok false)) ∧
  (∀ u e, cu_estado u = Some e →
     ∃ w' c',
       actualizar_cuenta i u w = (w', Ok (Some c')) ∧
       estado c' = e ∧ estado <$> cuentas w' !! i = Some e).
Proof.
  intros Hc He.
  assert (Hna : estado c ≠ ACTIVA) by (by rewrite He).
  assert (Hnb : estado c ≠ BLOQUEADA) by (by rewrite He).
  split; [|split; [|split]].
  - intros op <-.
    destruct op; simpl in *;
      unfold depositar, retirar, descontar_saldo, acreditar_saldo;
      paso Hc; rewrite bool_decide_eq_true_2 by done; by eexists.
  - eexists. by apply desbloquear_cuenta_no_bloqueada with c.
  - intros m. unfold validar_saldo_disponible. paso Hc.
    by rewrite bool_decide_eq_true_2.
  - intros u e Hu. by apply actualizar_cuenta_estado with c.
Qed.

Lemma cuenta_cerrada_operaciones_witness :
  (∀ op, cuenta_de op = "c1" →
     ∃ detail,
       ejecutar op mundo_cerrada =
         (mundo_cerrada, Raise (HTTPException HTTP_400_BAD_REQUEST detail))) ∧
  (∃ detail,
     desbloquear_cuenta "c1" mundo_cerrada =
       (mundo_cerrada, Raise (HTTPException HTTP_400_BAD_REQUEST detail))) ∧
  (∀ m, validar_saldo_disponible "c1" m mundo_cerrada = (mundo_cerrada, Ok false)) ∧
  (∀ u e, cu_estado u = Some e →
     ∃ w' c',
       actualizar_cuenta "c1" u mundo_cerrada = (w', Ok (Some c')) ∧
       estado c' = e ∧ estado <$> cuentas w' !! "c1" = Some e).
Proof.
  apply (cuenta_cerrada_operaciones mundo_cerrada "c1" (con_estado cuenta_ejemplo CERRADA));
    reflexivity.
Defined.

(** C3 as stated fails: an update carrying ACTIVA reopens a CERRADA account. *)
Lemma cuenta_cerrada_counterexample :
  estado_de mundo_cerrada "c1" = Some CERRADA ∧
  retorna (actualizar_cuenta "c1" {| cu_tipo := None; cu_estado := Some ACTIVA |}
             mundo_cerrada).2 = true ∧
  estado_de (actualizar_cuenta "c1" {| cu_tipo := None; cu_estado := Some ACTIVA |}
               mundo_cerrada).1 "c1" = Some ACTIVA.
Proof. repeat split; vm_compute; reflexivity. Qed.

(** [bloquear_cuenta] turns away only an account that is BLOQUEADA already:
    on a CERRADA account it returns and the account is BLOQUEADA. *)
Lemma bloquear_cuenta_cerrada :
  retorna (bloquear_cuenta "c1" mundo_cerrada).2 = true ∧
  estado_de (bloquear_cuenta "c1" mundo_cerrada).1 "c1" = Some BLOQUEADA.
Proof. split; vm_compute; reflexivity. Qed.

(** ** Amounts that are not positive *)

(** C5 at the failing inputs: on an ACTIVA account with balance 100 a credit
    of -30 and a debit of -30 both return instead of raising; each stores a
    new balance (70, resp. 130) and files a movement whose amount is -30.
    The same holds for an amount of 0, and a credit of -200 leaves the
    balance at -100, below [SALDO_MINIMO_CUENTA]. *)
Theorem monto_no_positivo_aceptado :
  retorna (acreditar_saldo "c1" (Qc_of_Z (-30)) "abono" DEPOSITO mundo_ejemplo).2 = true ∧
  saldo_de (acreditar_saldo "c1" (Qc_of_Z (-30)) "abono" DEPOSITO mundo_ejemplo).1 "c1"
    = Some (70 # 1) ∧
  (λ d, this (monto d.2)) <$>
    movimientos (acreditar_saldo "c1" (Qc_of_Z (-30)) "abono" DEPOSITO mundo_ejemplo).1
    = [(-30) # 1] ∧
  retorna (descontar_saldo "c1" (Qc_of_Z (-30)) "cargo" RETIRO mundo_ejemplo).2 = true ∧
  saldo_de (descontar_saldo "c1" (Qc_of_Z (-30)) "cargo" RETIRO mundo_ejemplo).1 "c1"
    = Some (130 # 1) ∧
  (λ d, this (monto d.2)) <$>
    movimientos (descontar_saldo "c1" (Qc_of_Z (-30)) "cargo" RETIRO mundo_ejemplo).1
    = [(-30) # 1] ∧
  retorna (acreditar_saldo "c1" (Qc_of_Z (-200)) "abono" DEPOSITO mundo_ejemplo).2 = true ∧
  saldo_de (acreditar_saldo "c1" (Qc_of_Z (-200)) "abono" DEPOSITO mundo_ejemplo).1 "c1"
    = Some ((-100) # 1) ∧
  Q2Qc ((-100) # 1) < SALDO_MINIMO_CUENTA ∧
  retorna (acreditar_saldo "c1" 0 "abono" DEPOSITO mundo_ejemplo).2 = true ∧
  length (movimientos (acreditar_saldo "c1" 0 "abono" DEPOSITO mundo_ejemplo).1) = 1%nat ∧
  retorna (descontar_saldo "c1" 0 "cargo" RETIRO mundo_ejemplo).2 = true ∧
  length (movimientos (descontar_saldo "c1" 0 "cargo" RETIRO mundo_ejemplo).1) = 1%nat.
Proof. repeat split; vm_compute; reflexivity. Qed.

(** ** Rounding to two decimals *)

Lemma round_half_even_comp (q q' : Q) :
  (q == q')%Q → round_half_even q = round_half_even q'.
Proof.
  intros H. unfold round_half_even. rewrite (Qfloor_comp _ _ H).
  assert (Hc : Qcompare (q - inject_Z (Qfloor q')) (1 # 2) =
               Qcompare (q' - inject_Z (Qfloor q')) (1 # 2))
    by (by rewrite H).
  by rewrite Hc.
Qed.

Lemma round_half_even_Z (z : Z) : round_half_even (inject_Z z) = z.
Proof.
  unfold round_half_even. rewrite Qfloor_Z.
  assert (Hc : Qcompare (inject_Z z - inject_Z z) (1 # 2) = Lt).
  { rewrite <- Qlt_alt.
    assert (Hz : (inject_Z z - inject_Z z == 0)%Q) by ring.
    rewrite Hz. reflexivity. }
  by rewrite Hc.
Qed.

Lemma round_2_centesimas (v : Qc) :
  round v 2 = centesimas (round_half_even (v * inject_Z 100)%Q).
Proof. reflexivity. Qed.

Lemma dos_decimales_centesimas (z : Z) : dos_decimales (centesimas z).
Proof.
  unfold dos_decimales. rewrite round_2_centesimas. f_equal.
  rewrite <- (round_half_even_Z z) at 2. apply round_half_even_comp.
  unfold centesimas. simpl. rewrite Qred_correct. field.
Qed.

Lemma dos_decimales_iff (q : Qc) : dos_decimales q ↔ ∃ z, q = centesimas z.
Proof.
  split.
  - intros H. red in H. rewrite round_2_centesimas in H. eauto.
  - intros [z ->]. apply dos_decimales_centesimas.
Qed.







(** ** The remaining concrete runs *)


Lemma validar_saldo_disponible_iff_witness :
  ∃ b : bool,
    validar_saldo_disponible "c1" (Qc_of_Z 40) mundo_ejemplo = (mundo_ejemplo, Ok b) ∧
    (b = true ↔ estado cuenta_ejemplo = ACTIVA ∧ Qc_of_Z 40 ≤ saldo cuenta_ejemplo) ∧
    (estado cuenta_ejemplo = BLOQUEADA ∨ estado cuenta_ejemplo = CERRADA → b = false).
Proof.
  apply (validar_saldo_disponible_iff mundo_ejemplo "c1" cuenta_ejemplo (Qc_of_Z 40)).
  reflexivity.
Defined.

Lemma crear_cuenta_apertura_witness :
  ∃ w' i creada,
    crear_cuenta 3 apertura_ejemplo mundo_ejemplo = (w', Ok (Some creada)) ∧
    cuentas mundo_ejemplo !! i = None ∧
    cuentas w' !! i = Some (con_id creada None) ∧
    id_ creada = Some i ∧
    estado creada = ACTIVA ∧
    saldo creada = saldo_inicial apertura_ejemplo ∧
    cuentas w' = <[i := con_id creada None]> (cuentas mundo_ejemplo) ∧
    (0 < saldo_inicial apertura_ejemplo →
       ∃ mid,
         movimientos w' =
           movimientos mundo_ejemplo ++
             [(mid, movimiento_de i DEPOSITO (saldo_inicial apertura_ejemplo) 0
                      (saldo_inicial apertura_ejemplo)
                      "Depósito inicial - Apertura de cuenta")]) ∧
    (saldo_inicial apertura_ejemplo = 0 → movimientos w' = movimientos mundo_ejemplo).
Proof.
  apply (crear_cuenta_apertura 3 1 apertura_ejemplo mundo_ejemplo).
  - vm_compute. discriminate.
  - lia.
  - intros (i & c & Hc & Hn).
    destruct (decide (i = "c1")) as [->|Hi].
    + vm_compute in Hc. inversion Hc; subst c. vm_compute in Hn. discriminate.
    + unfold mundo_ejemplo in Hc. simpl in Hc. by rewrite lookup_singleton_ne in Hc.
Defined.

Lemma numeros_unicos_vacio : numeros_unicos mundo_vacio.
Proof. intros i j ci cj Hi. unfold mundo_vacio in Hi. simpl in Hi. by rewrite lookup_empty in Hi. Defined.

Lemma numero_cuenta_sin_duplicados_witness :
  (String.length "0000000000" = 10%nat ∧
   Forall (λ c, es_digito c = true) (String.list_ascii_of_string "0000000000") ∧
   ¬ numero_en_uso mundo_vacio "0000000000") ∧
  numeros_unicos (crear_cuentas 3 [apertura_ejemplo; apertura_ejemplo] mundo_vacio).1.
Proof.
  split.
  - apply (proj1 numero_cuenta_sin_duplicados 3 mundo_vacio
             (_generar_numero_cuenta_unico 3 mundo_vacio).1 "0000000000").
    vm_compute. reflexivity.
  - apply (proj2 (proj2 numero_cuenta_sin_duplicados) 3
             [apertura_ejemplo; apertura_ejemplo] mundo_vacio _
             (crear_cuentas 3 [apertura_ejemplo; apertura_ejemplo] mundo_vacio).2).
    + apply numeros_unicos_vacio.
    + by destruct (crear_cuentas 3 [apertura_ejemplo; apertura_ejemplo] mundo_vacio).
Defined.

(** The first number drawn in [mundo_ejemplo] is the one its account
    carries; the loop draws again and the new account gets the second. *)
Example crear_cuenta_reintenta :
  candidato (azar mundo_ejemplo) = numero_cuenta cuenta_ejemplo ∧
  numero_cuenta <$> (crear_cuenta 3 apertura_ejemplo mundo_ejemplo).1.(cuentas) !! "cuenta"
    = Some "1111111111"%string.
Proof. split; vm_compute; reflexivity. Qed.

(** ** The ledger, over binary64 *)

Section binary64.
Import Binary64.

Lemma binary64_bind_inv {A B} (m : Op A) (f : A → Op B) w w2 b :
  (m ≫= f) w = (w2, Ok b) → ∃ w1 a, m w = (w1, Ok a) ∧ f a w1 = (w2, Ok b).
Proof.
  unfold mbind, Op_bind. destruct (m w) as [w1 [a|e|]]; intros H; try done. eauto.
Qed.

(** Every outcome of a balance operation: either it raised and the store is
    as it was, or the account is ACTIVA and the balance update and its one
    movement are both in place. *)
Lemma binary64_ejecutar_inv op w w' r :
  ejecutar op w = (w', r) →
  (w' = w ∧ ∃ e, r = Raise e) ∨
  (∃ c resp,
     cuentas w !! cuenta_de op = Some c ∧ estado c = ACTIVA ∧ r = Ok resp ∧
     resp = respuesta_de op w c ∧
     w' = tras_operacion w op c).
Proof.
  intros H.
  destruct op as [i d|i r0|i m d t|i m d t]; simpl in H;
    unfold depositar, retirar, descontar_saldo, acreditar_saldo, obtener_cuenta,
      get_by_id, update_saldo, update, crear_movimiento, add_movimiento,
      mbind, Op_bind, mret, Op_ret, raise in H; simpl;
    destruct (cuentas w !! i) as [c|] eqn:Hc; simpl in H;
    try (left; inversion H; eauto; fail);
    case_bool_decide as He; simpl in H;
    try (left; inversion H; eauto; fail).
  - right. rewrite Hc in H. simpl in H. inversion H; subst. eauto 10.
  - destruct (saldo c <? ret_monto r0)%float eqn:Hlt; simpl in H.
    + left. inversion H; eauto.
    + right. rewrite Hc in H. simpl in H. inversion H; subst. eauto 10.
  - destruct (saldo c <? m)%float eqn:Hlt; simpl in H.
    + left. inversion H; eauto.
    + right. rewrite Hc in H. simpl in H. inversion H; subst. eauto 10.
  - right. rewrite Hc in H. simpl in H. inversion H; subst. eauto 10.
Qed.

Lemma binary64_aplicar_movimiento_de op s :
  tipo_coherente op → aplicar_movimiento s (movimiento_de op s) = saldo_tras op s.
Proof.
  intros Hk. unfold aplicar_movimiento, movimiento_de, saldo_tras.
  cbn [mov_tipo monto]. by rewrite Hk.
Qed.

Lemma binary64_ejecutar_todas_cuadra ops : ∀ w w' i c,
  Forall tipo_coherente ops →
  cuentas w !! i = Some c →
  ejecutar_todas ops w = (w', Ok tt) →
  ∃ c' nuevos,
    cuentas w' !! i = Some c' ∧
    movimientos w' = movimientos w ++ nuevos ∧
    saldo c' = saldo_segun_movimientos (saldo c) i nuevos.
Proof.
  induction ops as [|op ops IH]; intros w w' i c Hco Hc Hrun.
  - inversion Hrun; subst. exists c, []. by rewrite app_nil_r.
  - simpl in Hrun. apply binary64_bind_inv in Hrun as (w1 & resp & Hop & Hrest).
    inversion Hco as [|? ? Hk Hco']; subst.
    apply binary64_ejecutar_inv in Hop
      as [[_ [e He]]|(c0 & resp' & Hc0 & Hact & _ & _ & Hw1)]; [done|].
    assert (Hmov : movimientos w1 =
              movimientos w ++ [(siguiente_movimiento_id w, movimiento_de op (saldo c0))])
      by (by rewrite Hw1).
    destruct (decide (cuenta_de op = i)) as [Heq|Hne].
    + assert (c0 = c) by congruence. subst c0.
      assert (Hc1 : cuentas w1 !! i = Some (con_saldo c (saldo_tras op (saldo c)))).
      { rewrite Hw1. simpl. rewrite Heq. apply lookup_insert_eq. }
      destruct (IH _ _ _ _ Hco' Hc1 Hrest) as (c' & nuevos & Hc' & Hm' & Hs).
      exists c'. eexists (_ :: nuevos). split; [done|].
      split; [rewrite Hm', Hmov, <- app_assoc; reflexivity|].
      rewrite Hs. unfold saldo_segun_movimientos, movimientos_de.
      rewrite filter_cons_True by done. cbn [fmap list_fmap foldl snd].
      by rewrite binary64_aplicar_movimiento_de.
    + assert (Hc1 : cuentas w1 !! i = Some c).
      { rewrite Hw1. simpl. by rewrite lookup_insert_ne. }
      destruct (IH _ _ _ _ Hco' Hc1 Hrest) as (c' & nuevos & Hc' & Hm' & Hs).
      exists c'. eexists (_ :: nuevos). split; [done|].
      split; [rewrite Hm', Hmov, <- app_assoc; reflexivity|].
      rewrite Hs. unfold saldo_segun_movimientos, movimientos_de.
      by rewrite filter_cons_False by done.
Qed.

(** C1, as the code has it.  For every account and every sequence of
    successful deposit, withdraw, credit and debit operations run one after
    the other, in which every credit is filed under DEPOSITO or
    TRANSFERENCIA_ENTRADA and every debit under RETIRO, TRANSFERENCIA_SALIDA
    or PAGO_SERVICIO, the balance of the account is the binary64 number
    obtained from its balance before the sequence by applying the movements
    the sequence filed for it one after the other, in the order they were
    filed: each amount added for DEPOSITO and TRANSFERENCIA_ENTRADA,
    subtracted for RETIRO, TRANSFERENCIA_SALIDA and PAGO_SERVICIO. *)
Theorem saldo_cuadra_con_movimientos (ops : list Operacion) (w w' : Firestore)
    (i : string) (c : Cuenta) :
  Forall tipo_coherente ops →
  cuentas w !! i = Some c →
  ejecutar_todas ops w = (w', Ok tt) →
  saldo_cuadra w w' i.
Proof.
  intros Hco Hc Hrun.
  destruct (binary64_ejecutar_todas_cuadra ops w w' i c Hco Hc Hrun)
    as (c' & nuevos & Hc' & Hm & Hs).
  exists c, c'. unfold nuevos_movimientos. by rewrite Hm, drop_app_length.
Qed.

Lemma saldo_cuadra_con_movimientos_witness :
  saldo_cuadra (store_de_saldo 100)
    (ejecutar_todas operaciones_ejemplo (store_de_saldo 100)).1 "c1".
Proof.
  apply (saldo_cuadra_con_movimientos operaciones_ejemplo (store_de_saldo 100) _ "c1"
           (cuenta_de_saldo 100)).
  - repeat constructor.
  - reflexivity.
  - vm_compute. reflexivity.
Defined.

(** C1 as stated fails, in two ways.  A credit of 50 filed under RETIRO
    succeeds on a balance of 100 and leaves 150, while the sum formula gives
    100 - 50.  And with every kind on its own side: deposits of 0.2 and 0.3
    on a balance of 0.1 leave (0.1 + 0.2) + 0.3 = 0.6000000000000001, while
    the sum formula gives 0.1 + (0.2 + 0.3) = 0.6. *)
Lemma saldo_cuadra_counterexample :
  (retorna (ejecutar_todas [Acreditar "c1" 50 "ajuste" RETIRO] (store_de_saldo 100)).2 = true ∧
   saldo_de (ejecutar_todas [Acreditar "c1" 50 "ajuste" RETIRO] (store_de_saldo 100)).1 "c1"
     = Some 150%float ∧
   saldo_segun_sumas 100 "c1"
     (movimientos (ejecutar_todas [Acreditar "c1" 50 "ajuste" RETIRO] (store_de_saldo 100)).1)
     = 50%float ∧
   (150 =? 50)%float = false) ∧
  (Forall tipo_coherente [deposito_de 0.2; deposito_de 0.3] ∧
   retorna (ejecutar_todas [deposito_de 0.2; deposito_de 0.3] (store_de_saldo 0.1)).2 = true ∧
   saldo_de (ejecutar_todas [deposito_de 0.2; deposito_de 0.3] (store_de_saldo 0.1)).1 "c1"
     = Some 0.6000000000000001%float ∧
   saldo_segun_sumas 0.1 "c1"
     (movimientos (ejecutar_todas [deposito_de 0.2; deposito_de 0.3] (store_de_saldo 0.1)).1)
     = 0.6%float ∧
   (0.6000000000000001 =? 0.6)%float = false).
Proof.
  split.
  - repeat split; vm_compute; reflexivity.
  - split; [repeat constructor|]. repeat split; vm_compute; reflexivity.
Qed.

(** ** Movements and the sign of their kind *)

Lemma binary64_generar_unico_movimientos fuel : ∀ w w' r,
  _generar_numero_cuenta_unico fuel w = (w', r) → movimientos w' = movimientos w.
Proof.
  induction fuel as [|fuel IH]; intros w w' r H; simpl in H.
  - by inversion H.
  - unfold mbind, Op_bind, _generar_numero_cuenta, _cuenta_existe in H.
    destruct (random_choices string_.digits 10 (azar w)) as [cs r0].
    destruct (negb _).
    + by inversion H.
    + apply IH in H. by rewrite H.
Qed.

Lemma binary64_crear_cuenta_inv fuel data w w' r :
  crear_cuenta fuel data w = (w', r) →
  (movimientos w' = movimientos w ∧
   retorna r && (0 <? saldo_inicial data)%float = false) ∨
  (∃ i mid,
     retorna r && (0 <? saldo_inicial data)%float = true ∧
     movimientos w' =
       movimientos w ++
         [(mid, {| mov_id := None; cuenta_id := i; mov_tipo := DEPOSITO;
                   monto := saldo_inicial data; saldo_anterior := 0%float;
                   saldo_nuevo := saldo_inicial data;
                   descripcion := "Depósito inicial - Apertura de cuenta";
                   referencia := None |})]).
Proof.
  unfold crear_cuenta, create, mbind, Op_bind, mret, Op_ret.
  destruct (_generar_numero_cuenta_unico fuel w) as [w1 [n|e|]] eqn:Hg;
    apply binary64_generar_unico_movimientos in Hg;
    try (intros H; inversion H; subst; left; by rewrite Hg).
  unfold add_cuenta, get_by_id, crear_movimiento, add_movimiento. simpl.
  rewrite lookup_insert_eq.
    (destruct (0 <? saldo_inicial data)%float; simpl;
     intros H; inversion H; subst; simpl; rewrite Hg;
     [right; eauto | left; done]).
Qed.

(** C2, as the code has it.  A balance operation files one movement when it
    returns and none when it raises.  The movement is filed for the
    operation's account, under the operation's kind (the override for
    [descontar_saldo] and [acreditar_saldo]) and with the operation's amount;
    its [saldo_nuevo] is the binary64 sum [saldo_anterior + monto] for a
    deposit or credit and the binary64 difference [saldo_anterior - monto]
    for a withdrawal or debit, whatever that kind is; so [saldo_nuevo] is
    [saldo_anterior] plus or minus [monto] after the sign of the kind for
    [depositar] and [retirar], and for a credit or debit whose kind is of its
    own side.  [crear_cuenta] files one movement when it returns on a
    positive opening balance and none otherwise: a DEPOSITO whose
    [saldo_anterior] is 0.0 and whose [monto] and [saldo_nuevo] are both the
    opening balance. *)
Theorem movimiento_signo_segun_operacion :
  (∀ op w w' r,
     ejecutar op w = (w', r) →
     ∃ nuevos,
       movimientos w' = movimientos w ++ nuevos ∧
       length nuevos = (if retorna r then 1 else 0)%nat ∧
       Forall (λ d,
         cuenta_id d.2 = cuenta_de op ∧
         mov_tipo d.2 = tipo_de op ∧ monto d.2 = monto_de op ∧
         saldo_nuevo d.2 = saldo_tras op (saldo_anterior d.2) ∧
         (tipo_coherente op → movimiento_coherente d.2)) nuevos) ∧
  (∀ fuel data w w' r,
     crear_cuenta fuel data w = (w', r) →
     ∃ nuevos,
       movimientos w' = movimientos w ++ nuevos ∧
       length nuevos =
         (if retorna r && (0 <? saldo_inicial data)%float then 1 else 0)%nat ∧
       Forall (λ d,
         mov_tipo d.2 = DEPOSITO ∧ monto d.2 = saldo_inicial data ∧
         saldo_anterior d.2 = 0%float ∧ saldo_nuevo d.2 = monto d.2) nuevos).
Proof.
  split.
  - intros op w w' r H.
    apply binary64_ejecutar_inv in H
      as [[-> [e ->]]|(c & resp & Hc & He & -> & _ & ->)].
    + exists []. rewrite app_nil_r. repeat split; constructor.
    + eexists [_]. split; [reflexivity|]. split; [reflexivity|].
      constructor; [|constructor]. simpl.
      repeat split. intros Hk. unfold movimiento_coherente.
      by rewrite binary64_aplicar_movimiento_de.
  - intros fuel data w w' r H.
    apply binary64_crear_cuenta_inv in H as [[-> ->]|(i & mid & -> & ->)].
    + exists []. rewrite app_nil_r. repeat split; constructor.
    + eexists [_]. split; [reflexivity|]. split; [reflexivity|].
      constructor; [|constructor]. done.
Qed.

Lemma movimiento_signo_segun_operacion_witness :
  (∃ nuevos,
     movimientos (ejecutar (deposito_de 50) (store_de_saldo 100)).1 =
       movimientos (store_de_saldo 100) ++ nuevos ∧
     length nuevos =
       (if retorna (ejecutar (deposito_de 50) (store_de_saldo 100)).2 then 1 else 0)%nat ∧
     Forall (λ d,
       cuenta_id d.2 = cuenta_de (deposito_de 50) ∧
       mov_tipo d.2 = tipo_de (deposito_de 50) ∧ monto d.2 = monto_de (deposito_de 50) ∧
       saldo_nuevo d.2 = saldo_tras (deposito_de 50) (saldo_anterior d.2) ∧
       (tipo_coherente (deposito_de 50) → movimiento_coherente d.2)) nuevos) ∧
  (∃ nuevos,
     movimientos (crear_cuenta 3 apertura_ejemplo (store_de_saldo 100)).1 =
       movimientos (store_de_saldo 100) ++ nuevos ∧
     length nuevos =
       (if retorna (crear_cuenta 3 apertura_ejemplo (store_de_saldo 100)).2 &&
           (0 <? saldo_inicial apertura_ejemplo)%float then 1 else 0)%nat ∧
     Forall (λ d,
       mov_tipo d.2 = DEPOSITO ∧ monto d.2 = saldo_inicial apertura_ejemplo ∧
       saldo_anterior d.2 = 0%float ∧ saldo_nuevo d.2 = monto d.2) nuevos).
Proof.
  split.
  - apply (proj1 movimiento_signo_segun_operacion (deposito_de 50) (store_de_saldo 100) _
             (ejecutar (deposito_de 50) (store_de_saldo 100)).2).
    by destruct (ejecutar (deposito_de 50) (store_de_saldo 100)).
  - apply (proj2 movimiento_signo_segun_operacion 3 apertura_ejemplo (store_de_saldo 100) _
             (crear_cuenta 3 apertura_ejemplo (store_de_saldo 100)).2).
    by destruct (crear_cuenta 3 apertura_ejemplo (store_de_saldo 100)).
Defined.

(** C2 as stated fails, in two ways.  A debit of 30 filed under DEPOSITO
    succeeds on a balance of 100; its movement goes from 100 to 70, a
    difference of -30 under a kind whose sign is +.  And a deposit of 0.2 on
    a balance of 0.1 files a DEPOSITO from 0.1 to 0.30000000000000004, whose
    difference 0.20000000000000004 is not the amount 0.2. *)
Lemma movimiento_signo_counterexample :
  (retorna (descontar_saldo "c1" 30 "ajuste" DEPOSITO (store_de_saldo 100)).2 = true ∧
   (λ d, (mov_tipo d.2, monto d.2, saldo_anterior d.2, saldo_nuevo d.2,
          diferencia_con_signo d.2))
     <$> movimientos (descontar_saldo "c1" 30 "ajuste" DEPOSITO (store_de_saldo 100)).1
     = [(DEPOSITO, 30, 100, 70, false)%float]) ∧
  (retorna (ejecutar (deposito_de 0.2) (store_de_saldo 0.1)).2 = true ∧
   (λ d, (mov_tipo d.2, monto d.2, saldo_anterior d.2, saldo_nuevo d.2,
          (saldo_nuevo d.2 - saldo_anterior d.2)%float, diferencia_con_signo d.2))
     <$> movimientos (ejecutar (deposito_de 0.2) (store_de_saldo 0.1)).1
     = [(DEPOSITO, 0.2, 0.1, 0.30000000000000004, 0.20000000000000004, false)%float]).
Proof. repeat split; vm_compute; reflexivity. Qed.

End binary64.

(** * Further properties *)

(** ** Refusals of the service methods *)

Lemma depositar_no_activa w i c d :
  cuentas w !! i = Some c → estado c ≠ ACTIVA →
  depositar i d w =
    (w, Raise (HTTPException HTTP_400_BAD_REQUEST
                 [Txt "La cuenta está "; Est (estado c);
                  Txt ". No se pueden realizar depósitos."])).
Proof.
  intros Hc He. unfold depositar. paso Hc. by rewrite bool_decide_eq_true_2.
Qed.

Lemma retirar_no_activa w i c r :
  cuentas w !! i = Some c → estado c ≠ ACTIVA →
  retirar i r w =
    (w, Raise (HTTPException HTTP_400_BAD_REQUEST
                 [Txt "La cuenta está "; Est (estado c);
                  Txt ". No se pueden realizar retiros."])).
Proof.
  intros Hc He. unfold retirar. paso Hc. by rewrite bool_decide_eq_true_2.
Qed.

Lemma descontar_saldo_no_activa w i c m d t :
  cuentas w !! i = Some c → estado c ≠ ACTIVA →
  descontar_saldo i m d t w =
    (w, Raise (HTTPException HTTP_400_BAD_REQUEST [Txt "La cuenta no está activa"])).
Proof.
  intros Hc He. unfold descontar_saldo. paso Hc. by rewrite bool_decide_eq_true_2.
Qed.

Lemma descontar_saldo_insuficiente w i c m d t :
  cuentas w !! i = Some c → estado c = ACTIVA → saldo c < m →
  descontar_saldo i m d t w =
    (w, Raise (HTTPException HTTP_400_BAD_REQUEST [Txt "Saldo insuficiente"])).
Proof.
  intros Hc He Hlt. unfold descontar_saldo. paso Hc.
  rewrite bool_decide_eq_false_2 by (rewrite He; auto).
  by rewrite bool_decide_eq_true_2.
Qed.

Lemma acreditar_saldo_no_activa w i c m d t :
  cuentas w !! i = Some c → estado c ≠ ACTIVA →
  acreditar_saldo i m d t w =
    (w, Raise (HTTPException HTTP_400_BAD_REQUEST [Txt "La cuenta no está activa"])).
Proof.
  intros Hc He. unfold acreditar_saldo. paso Hc. by rewrite bool_decide_eq_true_2.
Qed.

Lemma bloquear_cuenta_bloqueada w i c :
  cuentas w !! i = Some c → estado c = BLOQUEADA →
  bloquear_cuenta i w =
    (w, Raise (HTTPException HTTP_400_BAD_REQUEST [Txt "La cuenta ya está bloqueada"])).
Proof.
  intros Hc He. unfold bloquear_cuenta. paso Hc. by rewrite bool_decide_eq_true_2.
Qed.

Lemma desbloquear_cuenta_bloqueada w i c :
  cuentas w !! i = Some c → estado c = BLOQUEADA →
  desbloquear_cuenta i w =
    (con_cuentas w (<[i := con_estado c ACTIVA]> (cuentas w)),
     Ok (Some (con_id (con_estado c ACTIVA) (Some i)))).
Proof.
  intros Hc He. unfold desbloquear_cuenta. paso Hc.
  rewrite bool_decide_eq_false_2 by auto. paso Hc.
  apply get_by_id_some. simpl. apply lookup_insert_eq.
Qed.

Lemma actualizar_cuenta_vacia w i c u :
  cuentas w !! i = Some c → cu_tipo u = None → cu_estado u = None →
  actualizar_cuenta i u w = (w, Ok (Some (con_id c (Some i)))).
Proof.
  intros Hc Ht He. unfold actualizar_cuenta. paso Hc. rewrite Ht, He.
  rewrite bool_decide_eq_false_2 by (intros [[? ?]|[? ?]]; done).
  rewrite (bind_ok _ _ w w tt) by done. by apply get_by_id_some.
Qed.

Lemma actualizar_cuenta_con_datos w i c u :
  cuentas w !! i = Some c → is_Some (cu_tipo u) ∨ is_Some (cu_estado u) →
  actualizar_cuenta i u w =
    (con_cuentas w (<[i := cuenta_tras (LActualizar i u) c]> (cuentas w)),
     Ok (Some (con_id (cuenta_tras (LActualizar i u) c) (Some i)))).
Proof.
  intros Hc Hu. unfold actualizar_cuenta. paso Hc.
  rewrite bool_decide_eq_true_2 by done.
  set (d := {| u_tipo := cu_tipo u; u_estado := cu_estado u; u_saldo := None |}).
  set (w1 := con_cuentas w (<[i := aplicar d c]> (cuentas w))).
  assert (H1 : cuentas w1 !! i = Some (aplicar d c)) by apply lookup_insert_eq.
  assert (H2 : (update i d ≫= λ _, mret tt) w = (w1, Ok tt))
    by (by rewrite (bind_ok _ _ _ _ _ (update_some _ _ _ _ Hc))).
  by rewrite (bind_ok _ _ _ _ _ H2), (get_by_id_some _ _ _ H1).
Qed.

Lemma validar_saldo_disponible_existente w i c m :
  cuentas w !! i = Some c →
  ∃ b : bool, validar_saldo_disponible i m w = (w, Ok b).
Proof.
  intros Hc. unfold validar_saldo_disponible. paso Hc.
  case_bool_decide; by eexists.
Qed.

(** ** Every call has one of the listed effects *)

Lemma ejecutar_efecto op w :
  Efecto (LOperacion op) w (llamar (LOperacion op) w).1 (llamar (LOperacion op) w).2.
Proof.
  cbn [llamar].
  destruct (cuentas w !! cuenta_de op) as [c|] eqn:Hc.
  2:{ assert (Hr : ejecutar op w =
        (w, Raise (HTTPException HTTP_404_NOT_FOUND
                     [Txt "Cuenta con ID "; Txt (cuenta_de op); Txt " no encontrada"]))).
      { destruct op; simpl in *;
          unfold depositar, retirar, descontar_saldo, acreditar_saldo;
          by rewrite (bind_raise _ _ _ _ _ (obtener_cuenta_none _ _ Hc)). }
      rewrite (bind_raise _ _ _ _ _ Hr). simpl. by eapply ef_inexistente. }
  destruct (decide (estado c = ACTIVA)) as [He|He].
  2:{ assert (Hr : ∃ detail,
        ejecutar op w = (w, Raise (HTTPException HTTP_400_BAD_REQUEST detail))).
      { destruct op; simpl in *; eexists.
        - by apply (depositar_no_activa _ _ c).
        - by apply (retirar_no_activa _ _ c).
        - by apply (descontar_saldo_no_activa _ _ c).
        - by apply (acreditar_saldo_no_activa _ _ c). }
      destruct Hr as [detail Hr]. rewrite (bind_raise _ _ _ _ _ Hr). simpl.
      eapply ef_rechazo; [done | done | by left]. }
  destruct (es_abono op) eqn:Hab.
  - assert (Hr : ∃ resp,
      ejecutar op w =
        (tras_operacion w (cuenta_de op) c (tipo_de op) (monto_de op)
           (saldo c + variacion op) (descripcion_de op), Ok resp)).
    { unfold variacion. rewrite Hab. destruct op; simpl in *; try done.
      - by apply depositar_activa.
      - by apply acreditar_saldo_activa. }
    destruct Hr as [resp Hr]. rewrite (bind_ok _ _ _ _ _ Hr). simpl.
    apply ef_saldo; [done | done |]. simpl. rewrite Hab. intros [?|[? _]]; done.
  - destruct (decide (saldo c < monto_de op)) as [Hlt|Hge].
    + assert (Hr : ∃ detail,
        ejecutar op w = (w, Raise (HTTPException HTTP_400_BAD_REQUEST detail))).
      { destruct op; simpl in *; try done; eexists.
        - by apply (retirar_insuficiente _ _ c).
        - by apply (descontar_saldo_insuficiente _ _ c). }
      destruct Hr as [detail Hr]. rewrite (bind_raise _ _ _ _ _ Hr). simpl.
      eapply ef_rechazo; [done | done | by right].
    + assert (Hle : monto_de op ≤ saldo c) by (by apply Qcnot_lt_le).
      assert (Hr : ∃ resp,
        ejecutar op w =
          (tras_operacion w (cuenta_de op) c (tipo_de op) (monto_de op)
             (saldo c + variacion op) (descripcion_de op), Ok resp)).
      { unfold variacion. rewrite Hab. destruct op; simpl in *; try done.
        - eexists. by apply retirar_suficiente.
        - by apply descontar_saldo_activa. }
      destruct Hr as [resp Hr]. rewrite (bind_ok _ _ _ _ _ Hr). simpl.
      apply ef_saldo; [done | done |]. simpl. intros [?|[_ ?]]; done.
Qed.

Lemma llamar_efecto c w : Efecto c w (llamar c w).1 (llamar c w).2.
Proof.
  destruct c as [fuel data|i|filters|i u|op|i|i|i m].
  - cbn [llamar].
    destruct (_generar_numero_cuenta_unico fuel w) as [w1 [n|e|]] eqn:Hg.
    + rewrite (bind_ok _ _ _ _ _ (crear_cuenta_retorna _ data _ _ _ Hg)). simpl.
      by eapply ef_alta.
    + by destruct (generar_unico_inv _ _ _ _ Hg) as (_ & _ & ?).
    + rewrite (bind_no_return _ _ _ _ (crear_cuenta_no_retorna _ data _ _ Hg)). simpl.
      by eapply ef_sin_retorno.
  - cbn [llamar]. destruct (cuentas w !! i) as [c|] eqn:Hc.
    + rewrite (bind_ok _ _ _ _ _ (obtener_cuenta_some _ _ _ Hc)). simpl.
      apply ef_lectura; [done|]. intros ? [= <-]. by rewrite Hc.
    + rewrite (bind_raise _ _ _ _ _ (obtener_cuenta_none _ _ Hc)). simpl.
      by apply ef_inexistente.
  - cbn [llamar]. apply ef_lectura; [done | done].
  - cbn [llamar]. destruct (cuentas w !! i) as [c|] eqn:Hc.
    + destruct (decide (is_Some (cu_tipo u) ∨ is_Some (cu_estado u))) as [Hu|Hu].
      * rewrite (bind_ok _ _ _ _ _ (actualizar_cuenta_con_datos _ _ _ _ Hc Hu)). simpl.
        apply (ef_datos (LActualizar i u) w i c); simpl; auto.
      * assert (cu_tipo u = None ∧ cu_estado u = None) as [Ht He].
        { destruct (cu_tipo u), (cu_estado u); try done; destruct Hu; eauto. }
        rewrite (bind_ok _ _ _ _ _ (actualizar_cuenta_vacia _ _ _ _ Hc Ht He)). simpl.
        apply ef_lectura; [done|]. intros ? [= <-]. by rewrite Hc.
    + unfold actualizar_cuenta.
      rewrite (bind_raise _ _ _ _ _
                 (bind_raise _ _ _ _ _ (obtener_cuenta_none _ _ Hc))). simpl.
      by apply ef_inexistente.
  - apply ejecutar_efecto.
  - cbn [llamar]. destruct (cuentas w !! i) as [c|] eqn:Hc.
    + destruct (decide (estado c = BLOQUEADA)) as [He|He].
      * rewrite (bind_raise _ _ _ _ _ (bloquear_cuenta_bloqueada _ _ _ Hc He)). simpl.
        by eapply ef_rechazo.
      * rewrite (bind_ok _ _ _ _ _ (bloquear_cuenta_no_bloqueada _ _ _ Hc He)). simpl.
        apply (ef_datos (LBloquear i) w i c); simpl; auto.
    + unfold bloquear_cuenta.
      rewrite (bind_raise _ _ _ _ _
                 (bind_raise _ _ _ _ _ (obtener_cuenta_none _ _ Hc))). simpl.
      by apply ef_inexistente.
  - cbn [llamar]. destruct (cuentas w !! i) as [c|] eqn:Hc.
    + destruct (decide (estado c = BLOQUEADA)) as [He|He].
      * rewrite (bind_ok _ _ _ _ _ (desbloquear_cuenta_bloqueada _ _ _ Hc He)). simpl.
        apply (ef_datos (LDesbloquear i) w i c); [done | done | done |].
        simpl. auto.
      * rewrite (bind_raise _ _ _ _ _ (desbloquear_cuenta_no_bloqueada _ _ _ Hc He)).
        simpl. by eapply ef_rechazo.
    + unfold desbloquear_cuenta.
      rewrite (bind_raise _ _ _ _ _
                 (bind_raise _ _ _ _ _ (obtener_cuenta_none _ _ Hc))). simpl.
      by apply ef_inexistente.
  - cbn [llamar]. destruct (cuentas w !! i) as [c|] eqn:Hc.
    + destruct (validar_saldo_disponible_existente w i c m Hc) as [b Hb].
      rewrite (bind_ok _ _ _ _ _ Hb). simpl.
      apply ef_lectura; [done|]. intros ? [= <-]. by rewrite Hc.
    + unfold validar_saldo_disponible.
      rewrite (bind_raise _ _ _ _ _
                 (bind_raise _ _ _ _ _ (obtener_cuenta_none _ _ Hc))). simpl.
      by apply ef_inexistente.
Qed.

Lemma llamar_operacion op w :
  (llamar (LOperacion op) w).1 = (ejecutar op w).1 ∧
  retorna (llamar (LOperacion op) w).2 = retorna (ejecutar op w).2.
Proof.
  cbn [llamar]. unfold mbind, M_bind. by destruct (ejecutar op w) as [w1 [resp|e|]].
Qed.

(** An accepted balance operation: the world it leaves and its response. *)
Lemma ejecutar_acepta op w acc :
  cuentas w !! cuenta_de op = Some acc →
  ¬ rechazo (LOperacion op) acc →
  ejecutar op w =
    (tras_operacion w (cuenta_de op) acc (tipo_de op) (monto_de op)
       (saldo acc + variacion op) (descripcion_de op),
     Ok (respuesta_de op w acc)).
Proof.
  intros Hc Hno. simpl in Hno.
  assert (He : estado acc = ACTIVA)
    by (destruct (decide (estado acc = ACTIVA)); [done | destruct Hno; auto]).
  assert (Hle : es_abono op = false → monto_de op ≤ saldo acc)
    by (intros Hab; apply Qcnot_lt_le; intros Hlt; destruct Hno; auto).
  destruct op as [i d|i r|i m d t|i m d t]; simpl in *.
  - unfold depositar. paso Hc.
    rewrite bool_decide_eq_false_2 by (rewrite He; auto).
    paso Hc. by paso Hc.
  - by apply retirar_suficiente; auto.
  - unfold descontar_saldo. paso Hc.
    rewrite bool_decide_eq_false_2 by (rewrite He; auto).
    rewrite bool_decide_eq_false_2 by (apply Qcle_not_lt; auto).
    paso Hc. by paso Hc.
  - unfold acreditar_saldo. paso Hc.
    rewrite bool_decide_eq_false_2 by (rewrite He; auto).
    paso Hc. by paso Hc.
Qed.



Lemma ejecutar_rechazo_iff op w acc :
  cuentas w !! cuenta_de op = Some acc →
  (retorna (ejecutar op w).2 = false ↔ rechazo (LOperacion op) acc).
Proof.
  intros Hc.
  destruct (llamar_operacion op w) as [_ <-].
  pose proof (llamar_efecto (LOperacion op) w) as He.
  destruct (llamar (LOperacion op) w) as [w' r]. simpl in *.
  inversion He as [i Hd Hn|i acc0 detail Hd Hc0 Hr|Hl _|i acc0 Hd Hc0 Hcd _
                   |op0 acc0 Heq Hc0 Hno| |]; subst; simpl in *.
  - injection Hd as <-. congruence.
  - injection Hd as <-. assert (acc0 = acc) by congruence. subst. done.
  - done.
  - done.
  - injection Heq as <-. assert (acc0 = acc) by congruence. subst.
    split; [done | by intros ?].
  - done.
  - done.
Qed.

(** Every balance operation that returns was accepted on a stored account. *)
Lemma ejecutar_retorna_inv op w w' resp :
  ejecutar op w = (w', Ok resp) →
  ∃ acc,
    cuentas w !! cuenta_de op = Some acc ∧ ¬ rechazo (LOperacion op) acc ∧
    w' = tras_operacion w (cuenta_de op) acc (tipo_de op) (monto_de op)
           (saldo acc + variacion op) (descripcion_de op) ∧
    resp = respuesta_de op w acc.
Proof.
  intros H.
  destruct (cuentas w !! cuenta_de op) as [acc|] eqn:Hc.
  2:{ apply ejecutar_inv in H as [[_ [e ?]]|(c & ? & Hc' & _)]; congruence. }
  assert (Hno : ¬ rechazo (LOperacion op) acc).
  { intros Hr. apply (ejecutar_rechazo_iff op w acc Hc) in Hr. by rewrite H in Hr. }
  rewrite (ejecutar_acepta op w acc Hc Hno) in H. inversion H; subst.
  by exists acc.
Qed.

(** X2.  On a stored account a deposit, withdrawal, debit or credit is refused
    exactly when the account is not ACTIVA or, for a withdrawal or debit, the
    balance is below the amount; a deposit or credit on an ACTIVA account is
    never refused, whatever its amount. *)
Theorem operacion_rechazada_iff (op : Operacion) (w : Mundo) (acc : Cuenta) :
  cuentas w !! cuenta_de op = Some acc →
  (retorna (ejecutar op w).2 = false ↔
   estado acc ≠ ACTIVA ∨ (es_abono op = false ∧ saldo acc < monto_de op)).
Proof. apply ejecutar_rechazo_iff. Qed.

Lemma operacion_rechazada_iff_witness :
  retorna (ejecutar (Retirar "c1" retiro_excesivo) mundo_ejemplo).2 = false ↔
  estado cuenta_ejemplo ≠ ACTIVA ∨
  (es_abono (Retirar "c1" retiro_excesivo) = false ∧
   saldo cuenta_ejemplo < monto_de (Retirar "c1" retiro_excesivo)).
Proof.
  apply (operacion_rechazada_iff (Retirar "c1" retiro_excesivo) mundo_ejemplo
           cuenta_ejemplo).
  reflexivity.
Defined.

(** X3.  Whatever its outcome, a balance operation leaves every other account and
    the random generator as they were, and of its own account it rewrites the
    balance only: state, kind, currency, number and owner stay. *)
Theorem operacion_solo_cambia_saldo (op : Operacion) (w : Mundo) :
  azar (ejecutar op w).1 = azar w ∧
  (∀ j, j ≠ cuenta_de op → cuentas (ejecutar op w).1 !! j = cuentas w !! j) ∧
  cuentas (ejecutar op w).1 !! cuenta_de op =
    (λ acc, con_saldo acc (from_option saldo 0 (cuentas (ejecutar op w).1 !! cuenta_de op)))
      <$> cuentas w !! cuenta_de op.
Proof.
  destruct (ejecutar op w) as [w' r] eqn:H. simpl.
  apply ejecutar_inv in H as [[-> _]|(c & resp & Hc & He & -> & ->)].
  - split; [done|]. split; [done|].
    destruct (cuentas w !! cuenta_de op) as [acc|]; [|done]. simpl.
    by destruct acc.
  - simpl. split; [done|]. split.
    + intros j Hj. by rewrite lookup_insert_ne.
    + by rewrite lookup_insert_eq, Hc.
Qed.

(** X4.  A balance operation that returns has filed exactly one movement, on the
    account it addresses, whose balance-before is the balance that was stored
    and whose balance-after is the balance now stored; the response carries
    the same two balances, the amount and the id of that movement. *)
Theorem operacion_movimiento_enmarca_saldo (op : Operacion) (w w' : Mundo)
    (resp : OperacionResponse) :
  ejecutar op w = (w', Ok resp) →
  ∃ acc acc' mid mv,
    cuentas w !! cuenta_de op = Some acc ∧
    cuentas w' !! cuenta_de op = Some acc' ∧
    movimientos w' = movimientos w ++ [(mid, mv)] ∧
    cuenta_id mv = cuenta_de op ∧
    mov_tipo mv = tipo_de op ∧
    monto mv = monto_de op ∧
    descripcion mv = descripcion_de op ∧
    saldo_anterior mv = saldo acc ∧
    saldo_nuevo mv = saldo acc' ∧
    success resp = true ∧
    op_cuenta_id resp = cuenta_de op ∧
    op_saldo_anterior resp = saldo acc ∧
    op_saldo_nuevo resp = saldo acc' ∧
    op_monto resp = monto_de op ∧
    movimiento_id resp = Some mid.
Proof.
  intros H. apply ejecutar_retorna_inv in H as (acc & Hc & _ & -> & ->).
  exists acc. eexists. do 2 eexists. split; [done|].
  split; [simpl; apply lookup_insert_eq|]. done.
Qed.

Lemma operacion_movimiento_enmarca_saldo_witness :
  ∃ acc acc' mid mv,
    cuentas mundo_ejemplo !! cuenta_de pago_ejemplo = Some acc ∧
    cuentas (ejecutar pago_ejemplo mundo_ejemplo).1 !! cuenta_de pago_ejemplo = Some acc' ∧
    movimientos (ejecutar pago_ejemplo mundo_ejemplo).1 =
      movimientos mundo_ejemplo ++ [(mid, mv)] ∧
    cuenta_id mv = cuenta_de pago_ejemplo ∧
    mov_tipo mv = tipo_de pago_ejemplo ∧
    monto mv = monto_de pago_ejemplo ∧
    descripcion mv = descripcion_de pago_ejemplo ∧
    saldo_anterior mv = saldo acc ∧
    saldo_nuevo mv = saldo acc' ∧
    success (respuesta_de pago_ejemplo mundo_ejemplo cuenta_ejemplo) = true ∧
    op_cuenta_id (respuesta_de pago_ejemplo mundo_ejemplo cuenta_ejemplo)
      = cuenta_de pago_ejemplo ∧
    op_saldo_anterior (respuesta_de pago_ejemplo mundo_ejemplo cuenta_ejemplo) = saldo acc ∧
    op_saldo_nuevo (respuesta_de pago_ejemplo mundo_ejemplo cuenta_ejemplo) = saldo acc' ∧
    op_monto (respuesta_de pago_ejemplo mundo_ejemplo cuenta_ejemplo)
      = monto_de pago_ejemplo ∧
    movimiento_id (respuesta_de pago_ejemplo mundo_ejemplo cuenta_ejemplo) = Some mid.
Proof.
  apply (operacion_movimiento_enmarca_saldo pago_ejemplo mundo_ejemplo).
  vm_compute. reflexivity.
Defined.

(** ** Blocking and unblocking *)

(** X6.  Blocking an ACTIVA account and unblocking it again both return; the
    account is BLOQUEADA in between and ACTIVA again at the end, with the
    owner, number, kind, currency and balance it had; the other accounts,
    the movements and the generator are as they were; each call returns the
    account as it has just stored it. *)
Theorem bloquear_desbloquear_restaura (w : Mundo) (i : string) (acc : Cuenta) :
  cuentas w !! i = Some acc →
  estado acc = ACTIVA →
  ∃ w1 w2 r1 r2 acc2,
    bloquear_cuenta i w = (w1, Ok (Some r1)) ∧
    estado_de w1 i = Some BLOQUEADA ∧
    estado r1 = BLOQUEADA ∧ id_ r1 = Some i ∧
    desbloquear_cuenta i w1 = (w2, Ok (Some r2)) ∧
    cuentas w2 !! i = Some acc2 ∧
    estado acc2 = ACTIVA ∧
    cliente_id acc2 = cliente_id acc ∧ numero_cuenta acc2 = numero_cuenta acc ∧
    tipo acc2 = tipo acc ∧ moneda acc2 = moneda acc ∧ saldo acc2 = saldo acc ∧
    r2 = con_id acc2 (Some i) ∧
    (∀ j, j ≠ i → cuentas w2 !! j = cuentas w !! j) ∧
    movimientos w2 = movimientos w ∧ azar w2 = azar w.
Proof.
  intros Hc He.
  assert (Hnb : estado acc ≠ BLOQUEADA) by (by rewrite He).
  do 5 eexists. split; [by apply bloquear_cuenta_no_bloqueada|].
  set (w1 := con_cuentas w _).
  assert (H1 : cuentas w1 !! i = Some (con_estado acc BLOQUEADA))
    by apply lookup_insert_eq.
  split; [unfold estado_de; by rewrite H1|].
  split; [done|]. split; [done|].
  split; [exact (desbloquear_cuenta_bloqueada w1 i _ H1 eq_refl)|].
  split; [apply lookup_insert_eq|].
  repeat split; try done.
  intros j Hj. simpl. by rewrite !lookup_insert_ne.
Qed.

Lemma bloquear_desbloquear_restaura_witness :
  ∃ w1 w2 r1 r2 acc2,
    bloquear_cuenta "c1" mundo_ejemplo = (w1, Ok (Some r1)) ∧
    estado_de w1 "c1" = Some BLOQUEADA ∧
    estado r1 = BLOQUEADA ∧ id_ r1 = Some "c1"%string ∧
    desbloquear_cuenta "c1" w1 = (w2, Ok (Some r2)) ∧
    cuentas w2 !! "c1" = Some acc2 ∧
    estado acc2 = ACTIVA ∧
    cliente_id acc2 = cliente_id cuenta_ejemplo ∧
    numero_cuenta acc2 = numero_cuenta cuenta_ejemplo ∧
    tipo acc2 = tipo cuenta_ejemplo ∧ moneda acc2 = moneda cuenta_ejemplo ∧
    saldo acc2 = saldo cuenta_ejemplo ∧
    r2 = con_id acc2 (Some "c1"%string) ∧
    (∀ j, j ≠ "c1" → cuentas w2 !! j = cuentas mundo_ejemplo !! j) ∧
    movimientos w2 = movimientos mundo_ejemplo ∧ azar w2 = azar mundo_ejemplo.
Proof.
  apply (bloquear_desbloquear_restaura mundo_ejemplo "c1" cuenta_ejemplo); reflexivity.
Defined.

(** ** Series of calls *)

Lemma atender_invariante (P : Mundo → Prop) (V : Llamada → Prop) :
  (∀ c w, V c → P w → P (llamar c w).1) →
  ∀ cs w, Forall V cs → P w → P (atender cs w).
Proof.
  intros Hstep cs. induction cs as [|c cs IH]; intros w Hv Hw; [done|].
  inversion Hv; subst. apply IH; [done|]. by apply Hstep.
Qed.

Lemma Forall_True_llamadas (cs : list Llamada) : Forall (λ _, True) cs.
Proof. by apply Forall_forall. Qed.

Lemma cuenta_tras_saldo c acc : saldo (cuenta_tras c acc) = saldo acc.
Proof.
  destruct c as [| | |i u| | | |]; try done.
  simpl. unfold aplicar. simpl. by destruct (cu_tipo u), (cu_estado u).
Qed.

Lemma cuenta_tras_datos_fijos c acc : mismos_datos_fijos acc (cuenta_tras c acc).
Proof.
  destruct c as [| | |i u| | | |]; try done.
  simpl. unfold aplicar. simpl. by destruct (cu_tipo u), (cu_estado u).
Qed.

(** What a call appends to the movements. *)
Lemma llamar_movimientos c w :
  ∃ nuevos, movimientos (llamar c w).1 = movimientos w ++ nuevos.
Proof.
  pose proof (llamar_efecto c w) as He.
  destruct (llamar c w) as [w' r]. simpl in *.
  inversion He as [| | | | | |fuel data w1 Heq Hg]; subst; simpl;
    try (exists []; by rewrite app_nil_r); try (by eexists).
  destruct (generar_unico_inv _ _ _ _ Hg) as (_ & -> & _).
  exists []. by rewrite app_nil_r.
Qed.

(** What a call does to a stored account. *)
Lemma llamar_cuenta c w i acc :
  cuentas w !! i = Some acc →
  ∃ acc',
    cuentas (llamar c w).1 !! i = Some acc' ∧ mismos_datos_fijos acc acc' ∧
    (no_monetaria c → saldo acc' = saldo acc).
Proof.
  intros Hc. pose proof (llamar_efecto c w) as He.
  destruct (llamar c w) as [w' r]. simpl in *.
  inversion He as [| | |i0 acc0 Hd Hc0 Hcd Hno|op acc0 Heq Hc0 Hno
                   |fuel data w1 n Heq Hg|fuel data w1 Heq Hg]; subst; simpl;
    try (by exists acc).
  - destruct (decide (i0 = i)) as [->|Hne].
    + assert (acc0 = acc) by congruence. subst acc0.
      exists (cuenta_tras c acc). rewrite lookup_insert_eq.
      split; [done|]. split; [apply cuenta_tras_datos_fijos|].
      intros _. apply cuenta_tras_saldo.
    + exists acc. by rewrite lookup_insert_ne.
  - destruct (decide (cuenta_de op = i)) as [Heq|Hne].
    + rewrite Heq in *. assert (acc0 = acc) by congruence. subst acc0.
      eexists. rewrite lookup_insert_eq. by split.
    + exists acc. by rewrite lookup_insert_ne.
  - exists acc. rewrite lookup_insert_ne; [done|].
    intros Heq. pose proof (siguiente_cuenta_id_libre w). congruence.
  - destruct (generar_unico_inv _ _ _ _ Hg) as (-> & _). by exists acc.
Qed.

(** X7.  Movements are never rewritten or removed: after any series of calls to
    the service, whatever each one's outcome, the movements that were stored
    are still there, in the same order, at the head of the collection. *)
Theorem movimientos_solo_se_agregan (cs : list Llamada) (w : Mundo) :
  movimientos w `prefix_of` movimientos (atender cs w).
Proof.
  apply (atender_invariante
           (λ w', movimientos w `prefix_of` movimientos w') (λ _, True));
    [|apply Forall_True_llamadas|done].
  intros c w0 _ [k Hk]. destruct (llamar_movimientos c w0) as [nuevos Hn].
  exists (k ++ nuevos). by rewrite Hn, Hk, app_assoc.
Qed.

(** X8.  Accounts are never removed, and no call rewrites the document id, the
    owner, the number or the currency of an account: after any series of
    calls a stored account is still stored with these four as they were. *)
Theorem cuenta_conserva_datos_fijos (cs : list Llamada) (w : Mundo) (i : string)
    (acc : Cuenta) :
  cuentas w !! i = Some acc →
  ∃ acc', cuentas (atender cs w) !! i = Some acc' ∧ mismos_datos_fijos acc acc'.
Proof.
  intros Hc.
  apply (atender_invariante
           (λ w', ∃ acc', cuentas w' !! i = Some acc' ∧ mismos_datos_fijos acc acc')
           (λ _, True));
    [|apply Forall_True_llamadas|by exists acc].
  intros c w0 _ (acc0 & Hc0 & H0).
  destruct (llamar_cuenta c w0 i acc0 Hc0) as (acc' & Hc' & H' & _).
  exists acc'. split; [done|].
  destruct H0 as (? & ? & ? & ?), H' as (? & ? & ? & ?).
  repeat split; congruence.
Qed.

Lemma cuenta_conserva_datos_fijos_witness :
  ∃ acc',
    cuentas (atender [LOperacion pago_ejemplo; LBloquear "c1";
                      LActualizar "c1" {| cu_tipo := Some CORRIENTE; cu_estado := None |};
                      LCrear 3 apertura_ejemplo] mundo_ejemplo) !! "c1" = Some acc' ∧
    mismos_datos_fijos cuenta_ejemplo acc'.
Proof.
  apply (cuenta_conserva_datos_fijos _ mundo_ejemplo "c1" cuenta_ejemplo).
  reflexivity.
Defined.

(** X9.  Only the balance operations and the opening of an account touch balances
    and movements: any other call (get, list, update, block, unblock,
    pre-check) leaves the movements and the balance of every account as they
    were, whatever its outcome. *)
Theorem llamada_no_monetaria_conserva_saldos (c : Llamada) (w : Mundo) :
  no_monetaria c →
  movimientos (llamar c w).1 = movimientos w ∧
  ∀ j, saldo <$> cuentas (llamar c w).1 !! j = saldo <$> cuentas w !! j.
Proof.
  intros Hnm. pose proof (llamar_efecto c w) as He.
  destruct (llamar c w) as [w' r]. simpl in *.
  inversion He as [| | |i0 acc0 Hd Hc0 Hcd Hno| | |]; subst; simpl; try done.
  split; [done|]. intros j. destruct (decide (i0 = j)) as [->|Hne].
  - rewrite lookup_insert_eq, Hc0. simpl. by rewrite cuenta_tras_saldo.
  - by rewrite lookup_insert_ne.
Qed.

Lemma llamada_no_monetaria_conserva_saldos_witness :
  movimientos
    (llamar (LActualizar "c1" {| cu_tipo := Some CORRIENTE; cu_estado := Some CERRADA |})
       mundo_ejemplo).1 = movimientos mundo_ejemplo ∧
  ∀ j,
    saldo <$> cuentas
      (llamar (LActualizar "c1" {| cu_tipo := Some CORRIENTE; cu_estado := Some CERRADA |})
         mundo_ejemplo).1 !! j = saldo <$> cuentas mundo_ejemplo !! j.
Proof.
  apply (llamada_no_monetaria_conserva_saldos
           (LActualizar "c1" {| cu_tipo := Some CORRIENTE; cu_estado := Some CERRADA |})
           mundo_ejemplo).
  exact I.
Defined.

Lemma insert_mismo_numero w w' i acc acc' :
  numeros_unicos w → cuentas w !! i = Some acc →
  numero_cuenta acc' = numero_cuenta acc →
  cuentas w' = <[i := acc']> (cuentas w) → numeros_unicos w'.
Proof.
  intros Hu Hc Hn Hw' j k cj ck. rewrite Hw'.
  destruct (decide (i = j)) as [<-|Hj], (decide (i = k)) as [<-|Hk]; [done|..].
  - rewrite lookup_insert_eq, lookup_insert_ne by done.
    intros [= <-] Hck Heq. apply (Hu i k acc ck); congruence.
  - rewrite lookup_insert_eq, lookup_insert_ne by done.
    intros Hcj [= <-] Heq. apply (Hu j i cj acc); congruence.
  - rewrite !lookup_insert_ne by done. apply Hu.
Qed.

Lemma llamar_numeros_unicos c w : numeros_unicos w → numeros_unicos (llamar c w).1.
Proof.
  intros Hu. pose proof (llamar_efecto c w) as He.
  destruct (llamar c w) as [w' r]. simpl in *.
  inversion He as [| | |i0 acc0 Hd Hc0 Hcd Hno|op acc0 Heq Hc0 Hno
                   |fuel data w1 n Heq Hg|fuel data w1 Heq Hg]; subst; try done.
  - eapply insert_mismo_numero; [done | done | | done].
    by destruct (cuenta_tras_datos_fijos c acc0) as (_ & _ & ? & _).
  - by apply (insert_mismo_numero w _ (cuenta_de op) acc0
                (con_saldo acc0 (saldo acc0 + variacion op))).
  - destruct (generar_unico_inv _ _ _ _ Hg) as (_ & _ & Hn & _).
    eapply insert_numeros_unicos; [done | apply siguiente_cuenta_id_libre | | done].
    done.
  - destruct (generar_unico_inv _ _ _ _ Hg) as (Hc & _).
    unfold numeros_unicos. by rewrite Hc.
Qed.

(** X10.  No two accounts ever share a number: from a store without duplicate
    account numbers, any series of calls to the service, whatever each one's
    outcome, leaves a store without duplicate account numbers. *)
Theorem numeros_unicos_tras_llamadas (cs : list Llamada) (w : Mundo) :
  numeros_unicos w → numeros_unicos (atender cs w).
Proof.
  apply (atender_invariante numeros_unicos (λ _, True));
    [|apply Forall_True_llamadas].
  intros c w0 _. apply llamar_numeros_unicos.
Qed.

Lemma numeros_unicos_tras_llamadas_witness :
  numeros_unicos
    (atender [LCrear 3 apertura_ejemplo; LCrear 3 apertura_ejemplo;
              LActualizar "cuenta" {| cu_tipo := None; cu_estado := Some CERRADA |};
              LCrear 3 apertura_ejemplo] mundo_vacio).
Proof.
  apply (numeros_unicos_tras_llamadas _ mundo_vacio).
  intros i j ci cj Hi. unfold mundo_vacio in Hi. simpl in Hi.
  by rewrite lookup_empty in Hi.
Defined.

(** ** The chain of movements *)

Lemma cadena_app s0 ms d s1 :
  cadena s0 ms (saldo_anterior d.2) → saldo_nuevo d.2 = s1 → cadena s0 (ms ++ [d]) s1.
Proof.
  revert s0. induction ms as [|d0 ms IH]; intros s0; simpl.
  - intros ->. by split.
  - intros [-> H] Hs. split; [done|]. by apply IH.
Qed.

Lemma movimientos_de_app_otro i ms d :
  cuenta_id d.2 ≠ i → movimientos_de i (ms ++ [d]) = movimientos_de i ms.
Proof.
  intros Hne. unfold movimientos_de.
  rewrite filter_app, filter_cons_False, filter_nil, app_nil_r; done.
Qed.

Lemma movimientos_de_app_mismo i ms d :
  cuenta_id d.2 = i → movimientos_de i (ms ++ [d]) = movimientos_de i ms ++ [d].
Proof.
  intros Heq. unfold movimientos_de.
  rewrite filter_app, filter_cons_True, filter_nil; done.
Qed.

Lemma movimientos_de_sin_cuenta w i :
  (∀ d, d ∈ movimientos w → is_Some (cuentas w !! cuenta_id d.2)) →
  cuentas w !! i = None → movimientos_de i (movimientos w) = [].
Proof.
  intros Hh Hi. unfold movimientos_de.
  destruct (filter _ (movimientos w)) as [|d l] eqn:Hf; [done|].
  assert (Hin : d ∈ filter (λ d, cuenta_id d.2 = i) (movimientos w))
    by (rewrite Hf; left).
  apply list_elem_of_filter in Hin as [Hd Hin].
  apply Hh in Hin. rewrite Hd, Hi in Hin. by destruct Hin.
Qed.

Lemma libro_mismas_colecciones w w' :
  cuentas w' = cuentas w → movimientos w' = movimientos w →
  libro_consistente w → libro_consistente w'.
Proof. unfold libro_consistente. by intros -> ->. Qed.

Lemma llamar_libro_consistente c w :
  llamada_valida c → libro_consistente w → libro_consistente (llamar c w).1.
Proof.
  intros Hv [Hh Hch]. pose proof (llamar_efecto c w) as He.
  destruct (llamar c w) as [w' r]. simpl in *.
  inversion He as [| | |i0 acc0 Hd Hc0 Hcd Hno|op acc0 Heq Hc0 Hno
                   |fuel data w1 n Heq Hg|fuel data w1 Heq Hg]; subst;
    try (by split).
  - split; simpl.
    + intros d Hin. destruct (decide (i0 = cuenta_id d.2)) as [->|Hne].
      * by rewrite lookup_insert_eq.
      * rewrite lookup_insert_ne by done. by apply Hh.
    + intros i acc. destruct (decide (i0 = i)) as [->|Hne].
      * rewrite lookup_insert_eq. intros [= <-]. rewrite cuenta_tras_saldo.
        by apply Hch.
      * rewrite lookup_insert_ne by done. apply Hch.
  - split; simpl.
    + intros d Hin. apply elem_of_app in Hin as [Hin|Hin].
      * destruct (decide (cuenta_de op = cuenta_id d.2)) as [->|Hne].
        -- by rewrite lookup_insert_eq.
        -- rewrite lookup_insert_ne by done. by apply Hh.
      * apply list_elem_of_singleton in Hin as ->. simpl.
        by rewrite lookup_insert_eq.
    + intros i acc. destruct (decide (cuenta_de op = i)) as [Heq|Hne].
      * rewrite Heq, lookup_insert_eq. intros [= <-].
        rewrite movimientos_de_app_mismo by (by rewrite <- Heq).
        apply cadena_app; [|done]. simpl. apply Hch. by rewrite <- Heq.
      * rewrite lookup_insert_ne by done. intros Hc.
        rewrite movimientos_de_app_otro by done. by apply Hch.
  - pose proof (siguiente_cuenta_id_libre w) as Hk.
    set (k := siguiente_cuenta_id w) in *.
    assert (Hap : ∀ d, d ∈ movimientos_apertura w data → cuenta_id d.2 = k).
    { intros d. unfold movimientos_apertura. case_bool_decide.
      - intros ->%list_elem_of_singleton. done.
      - by intros ?%not_elem_of_nil. }
    split; simpl.
    + intros d Hin. apply elem_of_app in Hin as [Hin|Hin].
      * destruct (decide (k = cuenta_id d.2)) as [->|Hne].
        -- by rewrite lookup_insert_eq.
        -- rewrite lookup_insert_ne by done. by apply Hh.
      * rewrite (Hap d Hin). by rewrite lookup_insert_eq.
    + intros i acc. destruct (decide (k = i)) as [<-|Hne].
      * rewrite lookup_insert_eq. intros [= <-]. simpl.
        unfold movimientos_de. rewrite filter_app.
        fold (movimientos_de k (movimientos w)).
        rewrite (movimientos_de_sin_cuenta w k Hh Hk). simpl.
        unfold movimientos_apertura. case_bool_decide as Hpos.
        -- rewrite filter_cons_True by done. rewrite filter_nil. by simpl.
        -- rewrite filter_nil. simpl. simpl in Hv.
           apply Qcle_antisym; [done | by apply Qcnot_lt_le].
      * rewrite lookup_insert_ne by done. intros Hc.
        unfold movimientos_de. rewrite filter_app.
        replace (filter (λ d, cuenta_id d.2 = i) (movimientos_apertura w data))
          with (@nil (string * Movimiento)); [rewrite app_nil_r; by apply Hch|].
        symmetry. unfold movimientos_apertura. case_bool_decide; [|done].
        by rewrite filter_cons_False, filter_nil.
  - destruct (generar_unico_inv _ _ _ _ Hg) as (Hc & Hm & _).
    by apply (libro_mismas_colecciones w w').
Qed.

(** X11.  The ledger stays chained: from a store in which every movement belongs
    to a stored account and the movements of each account lead, one after the
    other, from 0 to its balance, any series of calls whose open-account
    requests carry a non-negative initial balance leaves such a store: each
    movement of an account starts at the balance the previous one ended at,
    and the last one ends at the stored balance. *)
Theorem libro_consistente_tras_llamadas (cs : list Llamada) (w : Mundo) :
  Forall llamada_valida cs →
  libro_consistente w →
  libro_consistente (atender cs w).
Proof.
  intros Hv. apply (atender_invariante libro_consistente llamada_valida); [|done].
  apply llamar_libro_consistente.
Qed.

Lemma libro_consistente_vacio : libro_consistente mundo_vacio.
Proof.
  split.
  - intros d Hin. by apply not_elem_of_nil in Hin.
  - intros i acc Hi. unfold mundo_vacio in Hi. simpl in Hi.
    by rewrite lookup_empty in Hi.
Defined.

Lemma libro_consistente_tras_llamadas_witness :
  libro_consistente
    (atender [LCrear 3 apertura_ejemplo;
              LOperacion (Depositar "cuenta" deposito_ejemplo);
              LOperacion (Retirar "cuenta" retiro_excesivo);
              LBloquear "cuenta";
              LOperacion (Acreditar "cuenta" (Qc_of_Z 5) "abono" RETIRO)] mundo_vacio).
Proof.
  apply (libro_consistente_tras_llamadas _ mundo_vacio).
  - repeat constructor. vm_compute. discriminate.
  - apply libro_consistente_vacio.
Defined.

(** ** Comparisons of binary64 *)

Section binary64_extras.
Import Binary64.

Lemma SFcompare_antisym (x y : spec_float) :
  SFcompare y x = CompOpp <$> SFcompare x y.
Proof.
  destruct x as [sx|sx| |sx mx ex], y as [sy|sy| |sy my ey]; simpl;
    try reflexivity; try (by destruct sx); try (by destruct sy);
    try (by destruct sx, sy).
  pose proof (Pos.compare_cont_antisym mx my Eq) as Hm. simpl in Hm.
  f_equal. destruct sx, sy; try reflexivity;
    rewrite (Z.compare_antisym ex ey), <- Hm;
    destruct (ex ?= ey)%Z; simpl; try reflexivity;
    by destruct (Pos.compare_cont Eq mx my).
Qed.

Lemma SFcompare_none (x y : spec_float) :
  SFcompare x y = None → SFcompare x x = None ∨ SFcompare y y = None.
Proof.
  destruct x as [sx|sx| |sx mx ex], y as [sy|sy| |sy my ey]; simpl; intros H;
    try discriminate; auto.
Qed.

(** [x <= y] excludes [y < x]. *)
Lemma binary64_leb_ltb (x y : float) :
  (x <=? y)%float = true → (y <? x)%float = false.
Proof.
  rewrite leb_spec, ltb_spec. unfold SFleb, SFltb.
  rewrite (SFcompare_antisym (Prim2SF x) (Prim2SF y)).
  by destruct (SFcompare (Prim2SF x) (Prim2SF y)) as [[]|].
Qed.

(** Two numbers are ordered: when [y < x] fails and neither is NaN,
    [x <= y]. *)
Lemma binary64_ltb_leb (x y : float) :
  is_nan x = false → is_nan y = false →
  (y <? x)%float = false → (x <=? y)%float = true.
Proof.
  unfold is_nan. rewrite !FloatAxioms.eqb_spec, leb_spec, ltb_spec. unfold SFeqb, SFleb, SFltb.
  rewrite (SFcompare_antisym (Prim2SF x) (Prim2SF y)).
  intros Hx Hy.
  destruct (SFcompare (Prim2SF x) (Prim2SF y)) as [[]|] eqn:E; simpl; try done.
  intros _. apply SFcompare_none in E as [E|E]; rewrite E in *; done.
Qed.

(** ** Accepted withdrawals and debits, over binary64 *)

(** A balance operation on a stored account returns exactly when the account
    is ACTIVA and, for a withdrawal or debit, the balance is not below the
    amount. *)
Lemma binary64_ejecutar_acepta op w c :
  cuentas w !! cuenta_de op = Some c →
  retorna (ejecutar op w).2 = true ↔
  estado c = ACTIVA ∧ (es_abono op = false → (saldo c <? monto_de op)%float = false).
Proof.
  intros Hc.
  destruct op as [i d|i r0|i m d t|i m d t]; simpl in *;
    unfold depositar, retirar, descontar_saldo, acreditar_saldo, obtener_cuenta,
      get_by_id, update_saldo, update, crear_movimiento, add_movimiento,
      mbind, Op_bind, mret, Op_ret, raise; simpl;
    rewrite Hc; simpl; case_bool_decide as He; simpl;
    try (split; [done | by intros [? _]]).
  - rewrite Hc. simpl. split; [|done]. intros _. split; [|done].
    by destruct (estado c).
  - destruct (saldo c <? ret_monto r0)%float eqn:Hlt; simpl.
    + split; [done|]. intros [_ H]. by specialize (H eq_refl).
    + rewrite Hc. simpl. split; [|done]. intros _. split; [|done].
      by destruct (estado c).
  - destruct (saldo c <? m)%float eqn:Hlt; simpl.
    + split; [done|]. intros [_ H]. by specialize (H eq_refl).
    + rewrite Hc. simpl. split; [|done]. intros _. split; [|done].
      by destruct (estado c).
  - rewrite Hc. simpl. split; [|done]. intros _. split; [|done].
    by destruct (estado c).
Qed.

Lemma binary64_validar_saldo_disponible w i m b :
  (validar_saldo_disponible i m w).2 = Ok b →
  ∃ c, cuentas w !! i = Some c ∧
       b = (if bool_decide (estado c ≠ ACTIVA) then false else (m <=? saldo c)%float).
Proof.
  unfold validar_saldo_disponible, obtener_cuenta, get_by_id, mbind, Op_bind,
    mret, Op_ret, raise.
  destruct (cuentas w !! i) as [c|]; simpl; [|done].
  intros H. exists c. split; [done|].
  case_bool_decide; simpl in H; by inversion H.
Qed.

(** X5.  A withdrawal or debit that returns found the balance not below the
    amount, so that it took at most the stored balance when the balance and
    the amount are numbers (not NaN); it stores the binary64 difference
    [saldo - monto]. *)
Theorem retiro_aceptado_sin_sobregiro (op : Operacion) (w w' : Firestore)
    (resp : OperacionResponse) :
  es_abono op = false →
  ejecutar op w = (w', Ok resp) →
  ∃ acc acc',
    cuentas w !! cuenta_de op = Some acc ∧
    cuentas w' !! cuenta_de op = Some acc' ∧
    (saldo acc <? monto_de op)%float = false ∧
    (is_nan (saldo acc) = false → is_nan (monto_de op) = false →
     (monto_de op <=? saldo acc)%float = true) ∧
    saldo acc' = (saldo acc - monto_de op)%float.
Proof.
  intros Hab H.
  pose proof H as H0.
  apply binary64_ejecutar_inv in H
    as [[_ [e He]]|(c & resp' & Hc & Hact & _ & _ & ->)]; [done|].
  assert (Hr : retorna (ejecutar op w).2 = true) by (by rewrite H0).
  apply (binary64_ejecutar_acepta op w c Hc) in Hr as [_ Hlt].
  specialize (Hlt Hab).
  exists c. eexists. split; [done|].
  split; [simpl; apply lookup_insert_eq|].
  split; [done|]. split.
  - intros Hs Hm. by apply binary64_ltb_leb.
  - simpl. unfold saldo_tras. by rewrite Hab.
Qed.

Lemma retiro_aceptado_sin_sobregiro_witness :
  ∃ acc acc',
    cuentas (store_de_saldo 100) !! cuenta_de pago_ejemplo = Some acc ∧
    cuentas (ejecutar pago_ejemplo (store_de_saldo 100)).1 !! cuenta_de pago_ejemplo
      = Some acc' ∧
    (saldo acc <? monto_de pago_ejemplo)%float = false ∧
    (is_nan (saldo acc) = false → is_nan (monto_de pago_ejemplo) = false →
     (monto_de pago_ejemplo <=? saldo acc)%float = true) ∧
    saldo acc' = (saldo acc - monto_de pago_ejemplo)%float.
Proof.
  apply (retiro_aceptado_sin_sobregiro pago_ejemplo (store_de_saldo 100) _
           (respuesta_de pago_ejemplo (store_de_saldo 100) (cuenta_de_saldo 100))).
  - reflexivity.
  - vm_compute. reflexivity.
Defined.

(** ** The pre-check and the debit *)

(** X12.  When the balance pre-check answers true, a debit of the same amount
    on the same account is accepted, and so is a withdrawal whose request
    carries that amount.  Conversely, when the balance and the amount are
    numbers (not NaN), an accepted debit is one for which the pre-check
    answers true. *)
Theorem validar_saldo_predice_descuento (w : Firestore) (i : string) :
  (∀ m d t,
     (validar_saldo_disponible i m w).2 = Ok true →
     retorna (descontar_saldo i m d t w).2 = true) ∧
  (∀ r,
     (validar_saldo_disponible i (ret_monto r) w).2 = Ok true →
     retorna (retirar i r w).2 = true) ∧
  (∀ m d t acc,
     cuentas w !! i = Some acc →
     is_nan (saldo acc) = false → is_nan m = false →
     retorna (descontar_saldo i m d t w).2 = true →
     (validar_saldo_disponible i m w).2 = Ok true).
Proof.
  split; [|split].
  - intros m d t H.
    apply binary64_validar_saldo_disponible in H as (c & Hc & Hb).
    apply (binary64_ejecutar_acepta (Descontar i m d t) w c Hc).
    case_bool_decide as He; [done|]. split; [by destruct (estado c)|].
    intros _. by apply binary64_leb_ltb.
  - intros r H.
    apply binary64_validar_saldo_disponible in H as (c & Hc & Hb).
    apply (binary64_ejecutar_acepta (Retirar i r) w c Hc).
    case_bool_decide as He; [done|]. split; [by destruct (estado c)|].
    intros _. by apply binary64_leb_ltb.
  - intros m d t acc Hc Hs Hm H.
    apply (binary64_ejecutar_acepta (Descontar i m d t) w acc Hc) in H as [He Hlt].
    unfold validar_saldo_disponible, obtener_cuenta, get_by_id, mbind, Op_bind,
      mret, Op_ret. rewrite Hc. simpl.
    rewrite bool_decide_eq_false_2 by (rewrite He; auto). simpl.
    f_equal. apply binary64_ltb_leb; auto.
Qed.

Lemma validar_saldo_predice_descuento_witness :
  retorna (descontar_saldo "c1" 30 "pago" PAGO_SERVICIO (store_de_saldo 100)).2 = true.
Proof.
  apply (proj1 (validar_saldo_predice_descuento (store_de_saldo 100) "c1")
           30%float "pago" PAGO_SERVICIO).
  vm_compute. reflexivity.
Defined.

End binary64_extras.

(** ** Validation of the requests *)










(** X15.  An open-account request is accepted exactly when its initial balance is
    not negative, and the accepted request carries the initial balance as
    given, not rounded. *)
Theorem CuentaCreate_new_aceptado_iff (cliente : string) (t : TipoCuenta) (m : Moneda)
    (v : Qc) :
  ((∃ data, CuentaCreate_new cliente t m v = inr data) ↔ 0 ≤ v) ∧
  (∀ data, CuentaCreate_new cliente t m v = inr data →
     data = {| cc_cliente_id := cliente; cc_tipo := t; cc_moneda := m;
               saldo_inicial := v |}).
Proof.
  unfold CuentaCreate_new, validar_saldo_inicial. split; [split|].
  - intros [data H]. repeat case_bool_decide; simpl in *; done.
  - intros Hv. rewrite (bool_decide_eq_true_2 (0 ≤ v)) by done. simpl.
    rewrite bool_decide_eq_false_2 by (by apply Qcle_not_lt). by eexists.
  - intros data. repeat case_bool_decide; simpl; try done. by intros [= <-].
Qed.

Lemma Qfloor_unidad (q : Q) : (0 <= q)%Q → (q < 1)%Q → Qfloor q = 0%Z.
Proof.
  intros H0 H1.
  pose proof (Qfloor_le q) as Hl. pose proof (Qlt_floor q) as Hu.
  assert (Ha : (Qfloor q < 1)%Z).
  { rewrite Zlt_Qlt. by apply Qle_lt_trans with q. }
  assert (Hb : (0 < Qfloor q + 1)%Z).
  { rewrite Zlt_Qlt. by apply Qle_lt_trans with q. }
  lia.
Qed.

Lemma round_menor_medio_centavo (v : Qc) :
  0 ≤ v → v < Q2Qc (1 # 200) → round v 2 = 0.
Proof.
  intros H0 H1. rewrite round_2_centesimas.
  assert (Hq0 : (0 <= v * inject_Z 100)%Q).
  { apply Qmult_le_0_compat; [exact H0 | discriminate]. }
  assert (Hq1 : (v * inject_Z 100 < 1 # 2)%Q).
  { assert (Hv : (v < 1 # 200)%Q) by exact H1.
    apply (Qmult_lt_compat_r _ _ (inject_Z 100)) in Hv; [|reflexivity].
    apply Qlt_le_trans with ((1 # 200) * inject_Z 100)%Q; [exact Hv|].
    unfold Qle. simpl. lia. }
  assert (Hf : Qfloor (v * inject_Z 100) = 0%Z).
  { apply Qfloor_unidad; [done|]. apply Qlt_trans with (1 # 2); [done | reflexivity]. }
  assert (Hr : round_half_even (v * inject_Z 100)%Q = 0%Z).
  { unfold round_half_even. rewrite Hf.
    assert (Hc : Qcompare (v * inject_Z 100 - inject_Z 0) (1 # 2) = Lt).
    { rewrite <- Qlt_alt.
      assert (Hz : (v * inject_Z 100 - inject_Z 0 == v * inject_Z 100)%Q) by ring.
      by rewrite Hz. }
    by rewrite Hc. }
  rewrite Hr. by apply Qc_is_canon.
Qed.

(** X16.  A deposit request of less than half a cent passes validation, because
    the amount is checked before it is rounded, and carries the amount 0; on
    an ACTIVA account the deposit returns, files one DEPOSITO movement of
    amount 0 and leaves the balance as it was. *)
Theorem deposito_menor_medio_centavo (w : Mundo) (i : string) (acc : Cuenta)
    (v : Qc) (d : string) :
  cuentas w !! i = Some acc →
  estado acc = ACTIVA →
  0 < v → v < Q2Qc (1 # 200) →
  (1 ≤ len d ≤ 255)%nat →
  ∃ req w' resp mid mv,
    DepositoRequest_new v d = inr req ∧
    dep_monto req = 0 ∧
    depositar i req w = (w', Ok resp) ∧
    movimientos w' = movimientos w ++ [(mid, mv)] ∧
    mov_tipo mv = DEPOSITO ∧ monto mv = 0 ∧
    saldo <$> cuentas w' !! i = Some (saldo acc).
Proof.
  intros Hc He Hpos Hlt Hlen.
  assert (Hr : round v 2 = 0)
    by (apply round_menor_medio_centavo; [by apply Qclt_le_weak | done]).
  assert (Hmax : v ≤ Qc_of_Z 1000000).
  { apply Qclt_le_weak. apply Qclt_trans with (Q2Qc (1 # 200)); [done | reflexivity]. }
  assert (Hreq : DepositoRequest_new v d =
                   inr {| dep_monto := round v 2; dep_descripcion := d |}).
  { unfold DepositoRequest_new, validar_monto_deposito, descripcion_valida.
    rewrite (bool_decide_eq_true_2 (0 < v)) by done. simpl.
    rewrite (bool_decide_eq_false_2 (v ≤ 0)) by (by apply Qclt_not_le).
    rewrite (bool_decide_eq_false_2 (Qc_of_Z 1000000 < v)) by (by apply Qcle_not_lt).
    by rewrite !bool_decide_eq_true_2 by lia. }
  destruct (depositar_activa w i acc {| dep_monto := round v 2; dep_descripcion := d |}
              Hc He) as [resp Hd].
  do 5 eexists. split; [exact Hreq|]. split; [exact Hr|]. split; [exact Hd|].
  simpl. rewrite lookup_insert_eq, Hr. simpl. by rewrite Qcplus_0_r.
Qed.

Lemma deposito_menor_medio_centavo_witness :
  ∃ req w' resp mid mv,
    DepositoRequest_new (Q2Qc (1 # 256)) "propina" = inr req ∧
    dep_monto req = 0 ∧
    depositar "c1" req mundo_ejemplo = (w', Ok resp) ∧
    movimientos w' = movimientos mundo_ejemplo ++ [(mid, mv)] ∧
    mov_tipo mv = DEPOSITO ∧ monto mv = 0 ∧
    saldo <$> cuentas w' !! "c1" = Some (saldo cuenta_ejemplo).
Proof.
  apply (deposito_menor_medio_centavo mundo_ejemplo "c1" cuenta_ejemplo
           (Q2Qc (1 # 256)) "propina").
  - reflexivity.
  - reflexivity.
  - reflexivity.
  - reflexivity.
  - simpl. lia.
Defined.

(** ** The queries of the repository *)

Lemma etapa_if {A} (P : A → Prop) `{∀ x, Decision (P x)} (b : bool) (q : list A) d :
  d ∈ (if b then filter P q else q) ↔ d ∈ q ∧ (b = true → P d).
Proof.
  destruct b.
  - rewrite list_elem_of_filter. intuition auto.
  - intuition discriminate.
Qed.

Lemma etapa_match {A B} (P : B → A → Prop) `{∀ v x, Decision (P v x)}
    (o : option B) (q : list A) d :
  d ∈ match o with Some v => filter (P v) q | None => q end ↔
  d ∈ q ∧ (∀ v, o = Some v → P v d).
Proof.
  destruct o as [v|].
  - rewrite list_elem_of_filter. split.
    + intros [? ?]. split; [done|]. by intros ? [= <-].
    + intros [? Hv]. split; [by apply Hv | done].
  - split; [by intros ? | by intros [? _]].
Qed.

Lemma etapa_if_sublist {A} (P : A → Prop) `{∀ x, Decision (P x)} (b : bool)
    (q : list A) :
  (if b then filter P q else q) `sublist_of` q.
Proof. destruct b; [apply sublist_filter | done]. Qed.

Lemma etapa_match_sublist {A B} (P : B → A → Prop) `{∀ v x, Decision (P v x)}
    (o : option B) (q : list A) :
  match o with Some v => filter (P v) q | None => q end `sublist_of` q.
Proof. destruct o; [apply sublist_filter | done]. Qed.

(** The documents a listing selects. *)
Lemma list_seleccion filters w :
  ∃ q,
    list_ filters w = (w, Ok ((λ d, con_id d.2 (Some d.1)) <$> q)) ∧
    q `sublist_of` map_to_list (cuentas w) ∧
    (∀ d, d ∈ q ↔ d ∈ map_to_list (cuentas w) ∧ coincide filters d.2).
Proof.
  unfold list_. eexists. split; [reflexivity|].
  destruct filters as [f|]; simpl.
  - split.
    + etrans; [apply (etapa_match_sublist (λ m d, moneda d.2 = m))|].
      etrans; [apply (etapa_match_sublist (λ e d, estado d.2 = e))|].
      etrans; [apply (etapa_if_sublist (λ d, Some (numero_cuenta d.2) = f_numero_cuenta f))|].
      apply (etapa_if_sublist (λ d, Some (cliente_id d.2) = f_cliente_id f)).
    + intros d.
      rewrite (etapa_match (λ m d, moneda d.2 = m)).
      rewrite (etapa_match (λ e d, estado d.2 = e)).
      rewrite (etapa_if (λ d, Some (numero_cuenta d.2) = f_numero_cuenta f)).
      rewrite (etapa_if (λ d, Some (cliente_id d.2) = f_cliente_id f)).
      tauto.
  - split; [done | tauto].
Qed.

(** X17.  A listing changes nothing and returns exactly the stored accounts that
    pass every filter that is set, each with its document id and once; a
    [cliente_id] or [numero_cuenta] filter that is the empty string is not
    applied, and without filters every stored account is returned. *)
Theorem listar_cuentas_filtra (filters : option CuentaFilter) (w : Mundo) :
  ∃ l,
    listar_cuentas filters w = (w, Ok l) ∧
    (∀ c, c ∈ l ↔
       ∃ i doc, cuentas w !! i = Some doc ∧ coincide filters doc ∧
                c = con_id doc (Some i)) ∧
    NoDup (id_ <$> l) ∧
    (filters = None → length l = size (cuentas w)).
Proof.
  destruct (list_seleccion filters w) as (q & Hl & Hsub & Hq).
  eexists. split; [exact Hl|]. split; [|split].
  - intros c. rewrite list_elem_of_fmap. split.
    + intros ([i doc] & -> & Hin). apply Hq in Hin as [Hin Hco].
      apply elem_of_map_to_list in Hin. by exists i, doc.
    + intros (i & doc & Hc & Hco & ->). exists (i, doc). split; [done|].
      apply Hq. split; [by apply elem_of_map_to_list | done].
  - rewrite <- list_fmap_compose.
    assert (Hid : (id_ ∘ (λ d : string * Cuenta, con_id d.2 (Some d.1))) <$> q
                  = Some <$> q.*1).
    { rewrite <- list_fmap_compose. by apply list_fmap_ext. }
    rewrite Hid. apply (NoDup_fmap_2 Some).
    apply (sublist_NoDup _ (map_to_list (cuentas w)).*1);
      [apply NoDup_fst_map_to_list | by apply fmap_sublist].
  - intros ->. unfold listar_cuentas, list_ in Hl. simpl in Hl.
    injection Hl as Hl. rewrite <- Hl, length_fmap. apply length_map_to_list.
Qed.

Lemma get_by_numero_cuenta_primero n w :
  get_by_numero_cuenta n w =
    (w, Ok (match filter (λ d, numero_cuenta d.2 = n) (map_to_list (cuentas w)) with
            | doc :: _ => Some (con_id doc.2 (Some doc.1))
            | [] => None
            end)).
Proof.
  unfold get_by_numero_cuenta.
  by destruct (filter _ (map_to_list (cuentas w))) as [|doc [|doc' l]].
Qed.

(** X18.  Looking an account up by number changes nothing and never raises: it
    returns nothing exactly when no stored account carries the number, and
    otherwise a stored account that carries it, with its document id. *)
Theorem get_by_numero_cuenta_busca (n : string) (w : Mundo) :
  ∃ r,
    get_by_numero_cuenta n w = (w, Ok r) ∧
    (r = None ↔ ¬ numero_en_uso w n) ∧
    (∀ c, r = Some c →
       ∃ i doc, cuentas w !! i = Some doc ∧ numero_cuenta doc = n ∧
                c = con_id doc (Some i)).
Proof.
  eexists. split; [apply get_by_numero_cuenta_primero|].
  destruct (filter _ (map_to_list (cuentas w))) as [|[i doc] l] eqn:Hf.
  - split; [|done]. split; [|done]. intros _ (i & doc & Hc & Hn).
    assert (Hin : (i, doc) ∈ filter (λ d, numero_cuenta d.2 = n)
                               (map_to_list (cuentas w)))
      by (apply list_elem_of_filter; split; [done | by apply elem_of_map_to_list]).
    rewrite Hf in Hin. by apply not_elem_of_nil in Hin.
  - assert (Hin : (i, doc) ∈ filter (λ d, numero_cuenta d.2 = n)
                               (map_to_list (cuentas w)))
      by (rewrite Hf; left).
    apply list_elem_of_filter in Hin as [Hn Hin]. apply elem_of_map_to_list in Hin.
    split.
    + split; [done|]. intros Hno. destruct Hno. by exists i, doc.
    + intros c [= <-]. by exists i, doc.
Qed.

Lemma get_by_numero_cuenta_unico w i doc :
  numeros_unicos w → cuentas w !! i = Some doc →
  get_by_numero_cuenta (numero_cuenta doc) w = (w, Ok (Some (con_id doc (Some i)))).
Proof.
  intros Hu Hc. rewrite get_by_numero_cuenta_primero.
  destruct (filter _ (map_to_list (cuentas w))) as [|[j dj] l] eqn:Hf.
  - assert (Hin : (i, doc) ∈ filter (λ d, numero_cuenta d.2 = numero_cuenta doc)
                               (map_to_list (cuentas w)))
      by (apply list_elem_of_filter; split; [done | by apply elem_of_map_to_list]).
    rewrite Hf in Hin. by apply not_elem_of_nil in Hin.
  - assert (Hin : (j, dj) ∈ filter (λ d, numero_cuenta d.2 = numero_cuenta doc)
                              (map_to_list (cuentas w)))
      by (rewrite Hf; left).
    apply list_elem_of_filter in Hin as [Hn Hin]. apply elem_of_map_to_list in Hin.
    simpl in *. assert (j = i) by (by apply (Hu j i dj doc)). subst j.
    assert (dj = doc) by congruence. by subst dj.
Qed.

(** X19.  On a store without duplicate account numbers, looking a stored account
    up by its number returns what looking it up by its document id returns. *)
Theorem get_by_numero_cuenta_como_get_by_id (w : Mundo) (i : string) (doc : Cuenta) :
  numeros_unicos w →
  cuentas w !! i = Some doc →
  get_by_numero_cuenta (numero_cuenta doc) w = get_by_id i w ∧
  get_by_id i w = (w, Ok (Some (con_id doc (Some i)))).
Proof.
  intros Hu Hc.
  rewrite (get_by_numero_cuenta_unico w i doc Hu Hc), (get_by_id_some w i doc Hc).
  done.
Qed.

Lemma numeros_unicos_mundo_ejemplo : numeros_unicos mundo_ejemplo.
Proof.
  intros i j ci cj Hi Hj _. unfold mundo_ejemplo in *. simpl in *.
  apply lookup_singleton_Some in Hi as [<- _].
  by apply lookup_singleton_Some in Hj as [<- _].
Defined.

Lemma get_by_numero_cuenta_como_get_by_id_witness :
  get_by_numero_cuenta (numero_cuenta cuenta_ejemplo) mundo_ejemplo
    = get_by_id "c1" mundo_ejemplo ∧
  get_by_id "c1" mundo_ejemplo
    = (mundo_ejemplo, Ok (Some (con_id cuenta_ejemplo (Some "c1")))).
Proof.
  apply (get_by_numero_cuenta_como_get_by_id mundo_ejemplo "c1" cuenta_ejemplo).
  - apply numeros_unicos_mundo_ejemplo.
  - reflexivity.
Defined.

(** X20.  An account that [crear_cuenta] has just returned is found again, as
    returned, by its document id and, on a store that had no duplicate
    numbers, by its number. *)
Theorem crear_cuenta_y_consultar (fuel : nat) (data : CuentaCreate) (w w' : Mundo)
    (creada : Cuenta) :
  numeros_unicos w →
  crear_cuenta fuel data w = (w', Ok (Some creada)) →
  get_by_numero_cuenta (numero_cuenta creada) w' = (w', Ok (Some creada)) ∧
  ∃ i, id_ creada = Some i ∧ get_by_id i w' = (w', Ok (Some creada)).
Proof.
  intros Hu H.
  pose proof (crear_cuenta_numeros_unicos _ _ _ _ _ Hu H) as Hu'.
  apply crear_cuenta_inv in H as [(? & _)|(n & Hn & Hr & Hc & _)]; [done|].
  injection Hr as ->.
  assert (Hi : cuentas w' !! siguiente_cuenta_id w = Some (cuenta_nueva data n))
    by (rewrite Hc; apply lookup_insert_eq).
  split.
  - apply (get_by_numero_cuenta_unico w' _ (cuenta_nueva data n) Hu' Hi).
  - exists (siguiente_cuenta_id w). split; [done|]. by apply get_by_id_some.
Qed.

Lemma crear_cuenta_y_consultar_witness :
  get_by_numero_cuenta (numero_cuenta cuenta_creada_ejemplo)
      (crear_cuenta 3 apertura_ejemplo mundo_ejemplo).1
    = ((crear_cuenta 3 apertura_ejemplo mundo_ejemplo).1, Ok (Some cuenta_creada_ejemplo)) ∧
  ∃ i,
    id_ cuenta_creada_ejemplo = Some i ∧
    get_by_id i (crear_cuenta 3 apertura_ejemplo mundo_ejemplo).1
      = ((crear_cuenta 3 apertura_ejemplo mundo_ejemplo).1, Ok (Some cuenta_creada_ejemplo)).
Proof.
  refine (crear_cuenta_y_consultar 3 apertura_ejemplo mundo_ejemplo
            (crear_cuenta 3 apertura_ejemplo mundo_ejemplo).1 cuenta_creada_ejemplo
            numeros_unicos_mundo_ejemplo _).
  vm_compute. reflexivity.
Defined.

(** ** The retry loop of the account numbers *)

Lemma avanzar_0 r : avanzar r 0 = r.
Proof. unfold avanzar. destruct r; simpl. f_equal. lia. Qed.

Lemma avanzar_avanzar r a b : avanzar (avanzar r a) b = avanzar r (a + b).
Proof. unfold avanzar. simpl. f_equal. lia. Qed.

Lemma con_azar_mismo w : con_azar w (azar w) = w.
Proof. by destruct w. Qed.

Lemma generar_unico_primero_libre fuel : ∀ w k,
  (k < fuel)%nat →
  (∀ j, (j < k)%nat → numero_en_uso w (candidato (avanzar (azar w) (10 * j)))) →
  ¬ numero_en_uso w (candidato (avanzar (azar w) (10 * k))) →
  _generar_numero_cuenta_unico fuel w =
    (con_azar w (avanzar (azar w) (10 * S k)),
     Ok (candidato (avanzar (azar w) (10 * k)))).
Proof.
  induction fuel as [|fuel IH]; intros w k Hk Huso Hlibre; [lia|]. simpl.
  rewrite (bind_ok _ _ _ _ _ (_generar_numero_cuenta_eq w)).
  set (w1 := con_azar w (avanzar (azar w) 10)).
  destruct (_cuenta_existe_spec w1 (candidato (azar w))) as (b & Hb & Hiff).
  rewrite (bind_ok _ _ _ _ _ Hb).
  destruct k as [|k].
  - rewrite Nat.mul_0_r, avanzar_0 in Hlibre.
    destruct b; [by destruct Hlibre; apply Hiff|]. simpl.
    by rewrite ?Nat.mul_0_r, avanzar_0.
  - assert (Hb1 : b = true).
    { apply Hiff. specialize (Huso 0%nat ltac:(lia)).
      by rewrite Nat.mul_0_r, avanzar_0 in Huso. }
    subst b. simpl.
    assert (Hsh : ∀ j, avanzar (azar w1) (10 * j) = avanzar (azar w) (10 * S j)).
    { intros j. unfold w1. simpl. rewrite avanzar_avanzar. f_equal. lia. }
    assert (Hu1 : ∀ j, (j < k)%nat →
              numero_en_uso w1 (candidato (avanzar (azar w1) (10 * j)))).
    { intros j Hj. rewrite Hsh. apply (Huso (S j)). lia. }
    assert (Hl1 : ¬ numero_en_uso w1 (candidato (avanzar (azar w1) (10 * k))))
      by (by rewrite Hsh).
    rewrite (IH w1 k ltac:(lia) Hu1 Hl1).
    rewrite !Hsh. reflexivity.
Qed.

Lemma generar_unico_todos_en_uso fuel : ∀ w,
  (∀ j, (j < fuel)%nat → numero_en_uso w (candidato (avanzar (azar w) (10 * j)))) →
  _generar_numero_cuenta_unico fuel w =
    (con_azar w (avanzar (azar w) (10 * fuel)), NoReturn).
Proof.
  induction fuel as [|fuel IH]; intros w Huso; simpl.
  - by rewrite avanzar_0, con_azar_mismo.
  - rewrite (bind_ok _ _ _ _ _ (_generar_numero_cuenta_eq w)).
    set (w1 := con_azar w (avanzar (azar w) 10)).
    destruct (_cuenta_existe_spec w1 (candidato (azar w))) as (b & Hb & Hiff).
    rewrite (bind_ok _ _ _ _ _ Hb).
    assert (Hb1 : b = true).
    { apply Hiff. specialize (Huso 0%nat ltac:(lia)).
      by rewrite Nat.mul_0_r, avanzar_0 in Huso. }
    subst b. simpl.
    assert (Hsh : ∀ j, avanzar (azar w1) (10 * j) = avanzar (azar w) (10 * S j)).
    { intros j. unfold w1. simpl. rewrite avanzar_avanzar. f_equal. lia. }
    assert (Hu1 : ∀ j, (j < fuel)%nat →
              numero_en_uso w1 (candidato (avanzar (azar w1) (10 * j)))).
    { intros j Hj. rewrite Hsh. apply (Huso (S j)). lia. }
    rewrite (IH w1 Hu1).
    rewrite Hsh. reflexivity.
Qed.

(** X21.  The number loop returns the first drawn number that no stored account
    carries: when the first [k] numbers drawn are in use and the next one is
    not, it returns that one after ten draws for each of the [k + 1]
    candidates, and the collections are as they were. *)
Theorem numero_unico_primer_candidato_libre (fuel k : nat) (w : Mundo) :
  (k < fuel)%nat →
  (∀ j, (j < k)%nat → numero_en_uso w (candidato (avanzar (azar w) (10 * j)))) →
  ¬ numero_en_uso w (candidato (avanzar (azar w) (10 * k))) →
  _generar_numero_cuenta_unico fuel w =
    (con_azar w (avanzar (azar w) (10 * S k)),
     Ok (candidato (avanzar (azar w) (10 * k)))).
Proof. apply generar_unico_primero_libre. Qed.

Lemma numero_unico_primer_candidato_libre_witness :
  _generar_numero_cuenta_unico 3 mundo_ejemplo =
    (con_azar mundo_ejemplo (avanzar (azar mundo_ejemplo) (10 * 2)),
     Ok (candidato (avanzar (azar mundo_ejemplo) (10 * 1)))).
Proof.
  apply (numero_unico_primer_candidato_libre 3 1 mundo_ejemplo).
  - lia.
  - intros j Hj. assert (j = 0%nat) as -> by lia.
    exists "c1", cuenta_ejemplo. split; reflexivity.
  - intros (i & c & Hc & Hn). unfold mundo_ejemplo in Hc. simpl in Hc.
    apply lookup_singleton_Some in Hc as [_ <-]. vm_compute in Hn. discriminate.
Defined.

(** X22.  While every number drawn is in use the loop keeps drawing: if the first
    [fuel] numbers are all carried by stored accounts, then after [fuel]
    rounds it has not returned, and neither has [crear_cuenta]; no account
    and no movement has been written. *)
Theorem numero_unico_sin_candidato_libre (fuel : nat) (data : CuentaCreate) (w : Mundo) :
  (∀ j, (j < fuel)%nat → numero_en_uso w (candidato (avanzar (azar w) (10 * j)))) →
  _generar_numero_cuenta_unico fuel w =
    (con_azar w (avanzar (azar w) (10 * fuel)), NoReturn) ∧
  crear_cuenta fuel data w = (con_azar w (avanzar (azar w) (10 * fuel)), NoReturn).
Proof.
  intros Huso. pose proof (generar_unico_todos_en_uso fuel w Huso) as Hg.
  split; [done|]. by apply crear_cuenta_no_retorna.
Qed.

Lemma numero_unico_sin_candidato_libre_witness :
  _generar_numero_cuenta_unico 50 mundo_saturado =
    (con_azar mundo_saturado (avanzar (azar mundo_saturado) (10 * 50)), NoReturn) ∧
  crear_cuenta 50 apertura_ejemplo mundo_saturado =
    (con_azar mundo_saturado (avanzar (azar mundo_saturado) (10 * 50)), NoReturn).
Proof.
  apply (numero_unico_sin_candidato_libre 50 apertura_ejemplo mundo_saturado).
  intros j _. exists "c1", cuenta_ejemplo. split; reflexivity.
Defined.

(** ** Further concrete runs *)

Lemma operacion_solo_cambia_saldo_witness :
  azar (ejecutar pago_ejemplo mundo_ejemplo).1 = azar mundo_ejemplo ∧
  cuentas (ejecutar pago_ejemplo mundo_ejemplo).1 !! "c2" = cuentas mundo_ejemplo !! "c2" ∧
  cuentas (ejecutar pago_ejemplo mundo_ejemplo).1 !! cuenta_de pago_ejemplo =
    (λ acc, con_saldo acc
       (from_option saldo 0
          (cuentas (ejecutar pago_ejemplo mundo_ejemplo).1 !! cuenta_de pago_ejemplo)))
      <$> cuentas mundo_ejemplo !! cuenta_de pago_ejemplo.
Proof.
  destruct (operacion_solo_cambia_saldo pago_ejemplo mundo_ejemplo) as (H1 & H2 & H3).
  split; [exact H1|]. split; [|exact H3].
  apply (H2 "c2"). discriminate.
Defined.



Lemma CuentaCreate_new_aceptado_iff_witness :
  (∃ data, CuentaCreate_new "cliente-1" AHORRO BOB (Q2Qc 0.125) = inr data) ∧
  apertura_ejemplo =
    {| cc_cliente_id := "cliente-1"; cc_tipo := AHORRO; cc_moneda := BOB;
       saldo_inicial := Q2Qc 0.125 |}.
Proof.
  split.
  - apply (proj1 (CuentaCreate_new_aceptado_iff "cliente-1" AHORRO BOB (Q2Qc 0.125))).
    vm_compute. discriminate.
  - apply (proj2 (CuentaCreate_new_aceptado_iff "cliente-1" AHORRO BOB (Q2Qc 0.125))
             apertura_ejemplo).
    vm_compute. reflexivity.
Defined.

Lemma listar_cuentas_filtra_witness :
  ∃ l,
    listar_cuentas (Some filtro_ejemplo) mundo_ejemplo = (mundo_ejemplo, Ok l) ∧
    (∀ c, c ∈ l ↔
       ∃ i doc, cuentas mundo_ejemplo !! i = Some doc ∧
                coincide (Some filtro_ejemplo) doc ∧ c = con_id doc (Some i)) ∧
    NoDup (id_ <$> l) ∧
    (Some filtro_ejemplo = None → length l = size (cuentas mundo_ejemplo)).
Proof. exact (listar_cuentas_filtra (Some filtro_ejemplo) mundo_ejemplo). Defined.

(** The empty [cliente_id] of [filtro_ejemplo] is not applied: the account of
    "cliente-1" is listed. *)
Example listar_cuentas_filtro_vacio :
  (listar_cuentas (Some filtro_ejemplo) mundo_ejemplo).2
    = Ok [con_id cuenta_ejemplo (Some "c1")].
Proof. vm_compute. reflexivity. Qed.

Lemma get_by_numero_cuenta_busca_witness :
  ∃ r,
    get_by_numero_cuenta "0000000000" mundo_ejemplo = (mundo_ejemplo, Ok r) ∧
    (r = None ↔ ¬ numero_en_uso mundo_ejemplo "0000000000") ∧
    (∀ c, r = Some c →
       ∃ i doc, cuentas mundo_ejemplo !! i = Some doc ∧
                numero_cuenta doc = "0000000000" ∧ c = con_id doc (Some i)).
Proof. exact (get_by_numero_cuenta_busca "0000000000" mundo_ejemplo). Defined.
